(** * Fire Risk Data Service: zones, incidents, saved regions and alerts

    A shallow embedding of the service layer of the forest-fire backend
    ([app/services/fire_risk_service.py], [app/schemas/fire_risk.py],
    [app/models/fire_risk.py]) together with the two request handlers that
    carry logic of their own ([app/api/api_v1/endpoints/predictions.py] and
    [app/api/api_v1/endpoints/fire_risk.py]).

    Conventions of the embedding.
    - A Python [float] is a rational number ([Q]): every finite float is one,
      and the code only adds, subtracts and compares them.
    - A [datetime] is an integer number of microseconds ([Z]).
    - A table is the list of its rows in insertion order; a query without
      [order_by] scans the table in that order, and [order_by] is a stable
      sort of the scan.
    - The session is passed explicitly: an operation that commits returns the
      new session next to its result.
    - Primary keys are assigned as by the default engine of [core/config.py]
      (SQLite): one more than the largest key in the table. *)

From Stdlib Require Import List String Ascii ZArith QArith Bool Lia.
From Stdlib Require Import Permutation Sorted Lqa DecimalString.
Import ListNotations.

Local Open Scope Z_scope.
Local Open Scope list_scope.

(** ** Python values *)

Definition float := Q.
Definition datetime := Z.

(** [timedelta(hours=1)], in microseconds. *)
Definition timedelta_hours (h : Z) : Z := h * 3600000000.

Definition Qltb (x y : Q) : bool := negb (Qle_bool y x).

(** Truth value of a string, of a float and of an optional float. *)
Definition truthy_str (s : string) : bool := negb (String.eqb s "").

Definition truthy_float (x : float) : bool := negb (Qeq_bool x 0).

Definition truthy_opt_float (o : option float) : bool :=
  match o with
  | None => false
  | Some x => truthy_float x
  end.

(** Results of fallible operations. *)
Inductive result (E A : Type) : Type :=
| Ok : A -> result E A
| Err : E -> result E A.
Arguments Ok {E A} _.
Arguments Err {E A} _.

(** [fastapi.HTTPException]. *)
Record HTTPException : Type := mkHTTPException {
  status_code : Z;
  detail : string
}.

(** [pydantic.ValidationError]: the messages of the validators that raised. *)
Record ValidationError : Type := mkValidationError {
  errors : list string
}.

(** [schemas.Msg]. *)
Record Msg : Type := mkMsg { msg : string }.

(** ** Models ([app/models]) *)

Module FireRiskZone.
Record t : Type := mk {
  id : Z;
  region_name : string;
  latitude : float;
  longitude : float;
  risk_level : float;
  risk_category : string;
  timestamp : datetime;
  temperature : option float;
  humidity : option float;
  wind_speed : option float;
  precipitation : option float;
  vegetation_density : option float;
  vegetation_type : option string;
  soil_moisture : option float;
  prediction_model : string;
  confidence_score : float
}.
End FireRiskZone.

Module FireIncident.
(** [risk_zone_id] is a nullable foreign key: the ORM sets it to NULL when
    the zone it points to is deleted (no delete cascade is declared). *)
Record t : Type := mk {
  id : Z;
  risk_zone_id : option Z;
  latitude : float;
  longitude : float;
  start_date : datetime;
  end_date : option datetime;
  severity : string;
  area_affected : option float;
  status : string;
  source : string;
  description : option string
}.
End FireIncident.

Module SavedRegion.
Record t : Type := mk {
  id : Z;
  user_id : Z;
  region_name : string;
  latitude : float;
  longitude : float;
  created_at : datetime;
  alert_threshold : option float
}.
End SavedRegion.

Module Alert.
Record t : Type := mk {
  id : Z;
  user_id : Z;
  risk_zone_id : option Z;
  alert_time : datetime;
  risk_level : float;
  message : string;
  is_read : bool;
  is_sent_email : bool;
  is_sent_sms : bool
}.
End Alert.

Module User.
(** The columns of [models.User] that the handlers below read. *)
Record t : Type := mk {
  id : Z;
  is_active : bool;
  is_superuser : bool;
  alert_threshold : option float
}.
End User.

(** The session: the four tables of [app/models/fire_risk.py]. *)
Record Session : Type := mkSession {
  fire_risk_zones : list FireRiskZone.t;
  fire_incidents : list FireIncident.t;
  saved_regions : list SavedRegion.t;
  alerts : list Alert.t
}.

(** ** Schemas ([app/schemas/fire_risk.py]) *)

Module FireRiskZoneBase.
Record t : Type := mk {
  region_name : string;
  latitude : float;
  longitude : float;
  risk_level : float;
  risk_category : string;
  temperature : option float;
  humidity : option float;
  wind_speed : option float;
  precipitation : option float;
  vegetation_density : option float;
  vegetation_type : option string;
  soil_moisture : option float;
  prediction_model : string;
  confidence_score : float
}.
End FireRiskZoneBase.

Module FireIncidentBase.
Record t : Type := mk {
  risk_zone_id : Z;
  latitude : float;
  longitude : float;
  start_date : datetime;
  end_date : option datetime;
  severity : string;
  area_affected : option float;
  status : string;
  source : string;
  description : option string
}.
End FireIncidentBase.

Module SavedRegionBase.
Record t : Type := mk {
  user_id : Z;
  region_name : string;
  latitude : float;
  longitude : float;
  alert_threshold : option float
}.
End SavedRegionBase.

(** [v in valid] for a list of strings. *)
Definition str_in (v : string) (valid : list string) : bool :=
  existsb (String.eqb v) valid.

Definition validate_risk_level (v : float) : result string float :=
  if Qltb v 0 || Qltb 1 v
  then Err "Risk level must be between 0 and 1"%string
  else Ok v.

Definition valid_categories : list string :=
  ["Low"; "Medium"; "High"]%string.

Definition validate_risk_category (v : string) : result string string :=
  if negb (str_in v valid_categories)
  then Err "Risk category must be one of: Low, Medium, High"%string
  else Ok v.

Definition error_of {A : Type} (r : result string A) : list string :=
  match r with
  | Ok _ => []
  | Err e => [e]
  end.

(** Construction of a [FireRiskZoneCreate] from its attributes: both
    validators run, and the constructor
    raises one [ValidationError] holding every failure. *)
Definition FireRiskZoneCreate (attrs : FireRiskZoneBase.t)
  : result ValidationError FireRiskZoneBase.t :=
  match error_of (validate_risk_level (FireRiskZoneBase.risk_level attrs))
        ++ error_of (validate_risk_category
                       (FireRiskZoneBase.risk_category attrs)) with
  | [] => Ok attrs
  | errs => Err (mkValidationError errs)
  end.

Definition validate_threshold (v : float) : result string float :=
  if Qltb v 0 || Qltb 1 v
  then Err "Threshold must be between 0 and 1"%string
  else Ok v.

(** Construction of a [SavedRegionCreate]; the validator of an optional
    field is not run on [None]. *)
Definition SavedRegionCreate (attrs : SavedRegionBase.t)
  : result ValidationError SavedRegionBase.t :=
  match SavedRegionBase.alert_threshold attrs with
  | None => Ok attrs
  | Some v =>
      match validate_threshold v with
      | Ok _ => Ok attrs
      | Err e => Err (mkValidationError [e])
      end
  end.

(** ** Query combinators (the part of the ORM the service calls) *)

Section Query.
Context {A : Type}.

(** [.first()] *)
Definition first (rows : list A) : option A := hd_error rows.

(** [.offset(skip)]: the default engine reads a negative offset as 0. *)
Definition offset (skip : Z) (rows : list A) : list A :=
  skipn (Z.to_nat skip) rows.

(** [.limit(n)]: the default engine reads a negative limit as no limit. *)
Definition limit (n : Z) (rows : list A) : list A :=
  if n <? 0 then rows else firstn (Z.to_nat n) rows.

(** [.order_by(key.desc())] as a stable insertion sort; [geb x y] decides
    [key x >= key y]. *)
Variable geb : A -> A -> bool.

Fixpoint insert_desc (x : A) (rows : list A) : list A :=
  match rows with
  | [] => [x]
  | y :: rest =>
      if geb x y then x :: y :: rest else y :: insert_desc x rest
  end.

Fixpoint order_by_desc (rows : list A) : list A :=
  match rows with
  | [] => []
  | x :: rest => insert_desc x (order_by_desc rest)
  end.

End Query.

(** Next primary key of a table whose keys are [ids]. *)
Definition next_id (ids : list Z) : Z := 1 + fold_right Z.max 0 ids.

(** [column.between(lo, hi)] *)
Definition between (lo hi x : float) : bool :=
  Qle_bool lo x && Qle_bool x hi.

(** ** The service layer ([app/services/fire_risk_service.py]) *)

Section Service.

(** [ilike value pattern] is the engine's case-insensitive LIKE operator,
    and [format_2f x] is Python's formatting of a float with [.2f]; neither
    is part of the repository. *)
Variable ilike : string -> string -> bool.
Variable format_2f : float -> string.

Definition opt_Z_eqb (o : option Z) (k : Z) : bool :=
  match o with
  | Some j => j =? k
  | None => false
  end.

(** The pattern of an f-string that wraps its argument in two percent
    signs. *)
Definition like_pattern (s : string) : string := ("%" ++ s ++ "%")%string.

Definition get_fire_risk_zone (db : Session) (zone_id : Z)
  : option FireRiskZone.t :=
  first (filter (fun z => FireRiskZone.id z =? zone_id) (fire_risk_zones db)).

Definition risk_level_geb (a b : FireRiskZone.t) : bool :=
  Qle_bool (FireRiskZone.risk_level b) (FireRiskZone.risk_level a).

Definition get_fire_risk_zones (db : Session) (skip lim : Z)
  (min_risk_level max_risk_level : option float)
  (region_name risk_category : option string) : list FireRiskZone.t :=
  let query := fire_risk_zones db in
  let query :=
    match min_risk_level with
    | Some m => filter (fun z => Qle_bool m (FireRiskZone.risk_level z)) query
    | None => query
    end in
  let query :=
    match max_risk_level with
    | Some m => filter (fun z => Qle_bool (FireRiskZone.risk_level z) m) query
    | None => query
    end in
  let query :=
    match region_name with
    | Some s =>
        if truthy_str s
        then filter (fun z => ilike (FireRiskZone.region_name z)
                                    (like_pattern s)) query
        else query
    | None => query
    end in
  let query :=
    match risk_category with
    | Some c =>
        if truthy_str c
        then filter (fun z => String.eqb (FireRiskZone.risk_category z) c)
                    query
        else query
    | None => query
    end in
  let query := order_by_desc risk_level_geb query in
  limit lim (offset skip query).

Definition in_box (latitude longitude tolerance : float)
  (z : FireRiskZone.t) : bool :=
  between (latitude - tolerance)%Q (latitude + tolerance)%Q
          (FireRiskZone.latitude z)
  && between (longitude - tolerance)%Q (longitude + tolerance)%Q
             (FireRiskZone.longitude z).

Definition timestamp_geb (a b : FireRiskZone.t) : bool :=
  FireRiskZone.timestamp b <=? FireRiskZone.timestamp a.

Definition get_fire_risk_zone_by_coords (db : Session)
  (latitude longitude tolerance : float) : option FireRiskZone.t :=
  first (order_by_desc timestamp_geb
           (filter (in_box latitude longitude tolerance)
                   (fire_risk_zones db))).

(** The default of the [tolerance] parameter. *)
Definition default_tolerance : float := (1 # 100)%Q.

(** The row built from a validated schema; [now] is the column default
    [datetime.utcnow] taken at insert. *)
Definition zone_row (new_id : Z) (now : datetime) (a : FireRiskZoneBase.t)
  : FireRiskZone.t :=
  FireRiskZone.mk new_id
    (FireRiskZoneBase.region_name a) (FireRiskZoneBase.latitude a)
    (FireRiskZoneBase.longitude a) (FireRiskZoneBase.risk_level a)
    (FireRiskZoneBase.risk_category a) now
    (FireRiskZoneBase.temperature a) (FireRiskZoneBase.humidity a)
    (FireRiskZoneBase.wind_speed a) (FireRiskZoneBase.precipitation a)
    (FireRiskZoneBase.vegetation_density a)
    (FireRiskZoneBase.vegetation_type a) (FireRiskZoneBase.soil_moisture a)
    (FireRiskZoneBase.prediction_model a)
    (FireRiskZoneBase.confidence_score a).

Definition create_fire_risk_zone (db : Session)
  (fire_risk_in : FireRiskZoneBase.t) (now : datetime)
  : FireRiskZone.t * Session :=
  let db_fire_risk :=
    zone_row (next_id (map FireRiskZone.id (fire_risk_zones db))) now
             fire_risk_in in
  (db_fire_risk,
   mkSession (fire_risk_zones db ++ [db_fire_risk]) (fire_incidents db)
             (saved_regions db) (alerts db)).

(** One assignment of the [setattr] loop of an update. *)
Inductive zone_assignment : Type :=
| set_region_name (v : string)
| set_latitude (v : float)
| set_longitude (v : float)
| set_risk_level (v : float)
| set_risk_category (v : string)
| set_temperature (v : option float)
| set_humidity (v : option float)
| set_wind_speed (v : option float)
| set_precipitation (v : option float)
| set_vegetation_density (v : option float)
| set_vegetation_type (v : option string)
| set_soil_moisture (v : option float)
| set_prediction_model (v : string)
| set_confidence_score (v : float).

Definition setattr (z : FireRiskZone.t) (f : zone_assignment)
  : FireRiskZone.t :=
  let '(FireRiskZone.mk i rn la lo rl rc ts te hu ws pr vd vt sm pm cs) := z in
  match f with
  | set_region_name v =>
      FireRiskZone.mk i v la lo rl rc ts te hu ws pr vd vt sm pm cs
  | set_latitude v =>
      FireRiskZone.mk i rn v lo rl rc ts te hu ws pr vd vt sm pm cs
  | set_longitude v =>
      FireRiskZone.mk i rn la v rl rc ts te hu ws pr vd vt sm pm cs
  | set_risk_level v =>
      FireRiskZone.mk i rn la lo v rc ts te hu ws pr vd vt sm pm cs
  | set_risk_category v =>
      FireRiskZone.mk i rn la lo rl v ts te hu ws pr vd vt sm pm cs
  | set_temperature v =>
      FireRiskZone.mk i rn la lo rl rc ts v hu ws pr vd vt sm pm cs
  | set_humidity v =>
      FireRiskZone.mk i rn la lo rl rc ts te v ws pr vd vt sm pm cs
  | set_wind_speed v =>
      FireRiskZone.mk i rn la lo rl rc ts te hu v pr vd vt sm pm cs
  | set_precipitation v =>
      FireRiskZone.mk i rn la lo rl rc ts te hu ws v vd vt sm pm cs
  | set_vegetation_density v =>
      FireRiskZone.mk i rn la lo rl rc ts te hu ws pr v vt sm pm cs
  | set_vegetation_type v =>
      FireRiskZone.mk i rn la lo rl rc ts te hu ws pr vd v sm pm cs
  | set_soil_moisture v =>
      FireRiskZone.mk i rn la lo rl rc ts te hu ws pr vd vt v pm cs
  | set_prediction_model v =>
      FireRiskZone.mk i rn la lo rl rc ts te hu ws pr vd vt sm v cs
  | set_confidence_score v =>
      FireRiskZone.mk i rn la lo rl rc ts te hu ws pr vd vt sm pm v
  end.

(** [update_data] is the dictionary [fire_risk_in.dict(exclude_unset=True)]
    as the list of its items. *)
Definition update_fire_risk_zone (db : Session) (zone_id : Z)
  (update_data : list zone_assignment) : option FireRiskZone.t * Session :=
  match get_fire_risk_zone db zone_id with
  | None => (None, db)
  | Some db_fire_risk =>
      let updated := fold_left setattr update_data db_fire_risk in
      (Some updated,
       mkSession
         (map (fun z => if FireRiskZone.id z =? FireRiskZone.id db_fire_risk
                        then updated else z)
              (fire_risk_zones db))
         (fire_incidents db) (saved_regions db) (alerts db))
  end.

(** What the ORM does to the rows that reference a deleted zone: the
    relationships declare no cascade, so their foreign key is set to NULL. *)
Definition orphan_incident (zone_id : Z) (i : FireIncident.t)
  : FireIncident.t :=
  if opt_Z_eqb (FireIncident.risk_zone_id i) zone_id
  then FireIncident.mk (FireIncident.id i) None (FireIncident.latitude i)
         (FireIncident.longitude i) (FireIncident.start_date i)
         (FireIncident.end_date i) (FireIncident.severity i)
         (FireIncident.area_affected i) (FireIncident.status i)
         (FireIncident.source i) (FireIncident.description i)
  else i.

Definition orphan_alert (zone_id : Z) (a : Alert.t) : Alert.t :=
  if opt_Z_eqb (Alert.risk_zone_id a) zone_id
  then Alert.mk (Alert.id a) (Alert.user_id a) None (Alert.alert_time a)
         (Alert.risk_level a) (Alert.message a) (Alert.is_read a)
         (Alert.is_sent_email a) (Alert.is_sent_sms a)
  else a.

Definition delete_fire_risk_zone (db : Session) (zone_id : Z)
  : bool * Session :=
  match get_fire_risk_zone db zone_id with
  | None => (false, db)
  | Some db_fire_risk =>
      let k := FireRiskZone.id db_fire_risk in
      (true,
       mkSession
         (filter (fun z => negb (FireRiskZone.id z =? k)) (fire_risk_zones db))
         (map (orphan_incident k) (fire_incidents db))
         (saved_regions db)
         (map (orphan_alert k) (alerts db)))
  end.

Definition valid_severities : list string := ["Low"; "Medium"; "High"]%string.

Definition valid_statuses : list string :=
  ["Active"; "Contained"; "Extinguished"]%string.

Definition valid_sources : list string :=
  ["Satellite"; "Ground Report"; "Official"; "NASA FIRMS Realtime";
   "NIFC Realtime"; "Test Script"]%string.

Definition validate_severity (v : string) : result string string :=
  if negb (str_in v valid_severities)
  then Err "Severity must be one of: Low, Medium, High"%string
  else Ok v.

Definition validate_status (v : string) : result string string :=
  if negb (str_in v valid_statuses)
  then Err "Status must be one of: Active, Contained, Extinguished"%string
  else Ok v.

Definition validate_source (v : string) : result string string :=
  if negb (str_in v valid_sources)
  then Err ("Source must be one of: Satellite, Ground Report, Official, "
            ++ "NASA FIRMS Realtime, NIFC Realtime, Test Script")%string
  else Ok v.

Definition FireIncidentCreate (attrs : FireIncidentBase.t)
  : result ValidationError FireIncidentBase.t :=
  match error_of (validate_severity (FireIncidentBase.severity attrs))
        ++ error_of (validate_status (FireIncidentBase.status attrs))
        ++ error_of (validate_source (FireIncidentBase.source attrs)) with
  | [] => Ok attrs
  | errs => Err (mkValidationError errs)
  end.

Definition start_date_geb (a b : FireIncident.t) : bool :=
  FireIncident.start_date b <=? FireIncident.start_date a.

(** [query.join(models.FireRiskZone).filter(region_name.ilike(...))]: one
    result row for every pair of an incident and a zone that its foreign key
    designates and whose region name matches. *)
Definition join_region (zones : list FireRiskZone.t) (s : string)
  (query : list FireIncident.t) : list FireIncident.t :=
  flat_map
    (fun i =>
       map (fun _ => i)
           (filter (fun z =>
                      opt_Z_eqb (FireIncident.risk_zone_id i)
                                (FireRiskZone.id z)
                      && ilike (FireRiskZone.region_name z) (like_pattern s))
                   zones))
    query.

Definition get_fire_incidents (db : Session) (skip lim : Z)
  (region_name : option string)
  (start_date_from start_date_to : option datetime)
  (status severity : option string) : list FireIncident.t :=
  let query := fire_incidents db in
  let query :=
    match region_name with
    | Some s =>
        if truthy_str s then join_region (fire_risk_zones db) s query
        else query
    | None => query
    end in
  let query :=
    match start_date_from with
    | Some d => filter (fun i => d <=? FireIncident.start_date i) query
    | None => query
    end in
  let query :=
    match start_date_to with
    | Some d => filter (fun i => FireIncident.start_date i <=? d) query
    | None => query
    end in
  let query :=
    match status with
    | Some s =>
        if truthy_str s
        then filter (fun i => String.eqb (FireIncident.status i) s) query
        else query
    | None => query
    end in
  let query :=
    match severity with
    | Some s =>
        if truthy_str s
        then filter (fun i => String.eqb (FireIncident.severity i) s) query
        else query
    | None => query
    end in
  let query := order_by_desc start_date_geb query in
  limit lim (offset skip query).

Definition create_fire_incident (db : Session)
  (incident_in : FireIncidentBase.t) : FireIncident.t * Session :=
  let db_incident :=
    FireIncident.mk (next_id (map FireIncident.id (fire_incidents db)))
      (Some (FireIncidentBase.risk_zone_id incident_in))
      (FireIncidentBase.latitude incident_in)
      (FireIncidentBase.longitude incident_in)
      (FireIncidentBase.start_date incident_in)
      (FireIncidentBase.end_date incident_in)
      (FireIncidentBase.severity incident_in)
      (FireIncidentBase.area_affected incident_in)
      (FireIncidentBase.status incident_in)
      (FireIncidentBase.source incident_in)
      (FireIncidentBase.description incident_in) in
  (db_incident,
   mkSession (fire_risk_zones db) (fire_incidents db ++ [db_incident])
             (saved_regions db) (alerts db)).

Definition get_saved_regions_by_user (db : Session) (user_id skip lim : Z)
  : list SavedRegion.t :=
  limit lim
    (offset skip
       (filter (fun r => SavedRegion.user_id r =? user_id)
               (saved_regions db))).

Definition save_region_for_user (db : Session)
  (region_in : SavedRegionBase.t) (now : datetime)
  : SavedRegion.t * Session :=
  let db_region :=
    SavedRegion.mk (next_id (map SavedRegion.id (saved_regions db)))
      (SavedRegionBase.user_id region_in)
      (SavedRegionBase.region_name region_in)
      (SavedRegionBase.latitude region_in)
      (SavedRegionBase.longitude region_in)
      now
      (SavedRegionBase.alert_threshold region_in) in
  (db_region,
   mkSession (fire_risk_zones db) (fire_incidents db)
             (saved_regions db ++ [db_region]) (alerts db)).

(** The lookup by primary key that both the service and the handler of a
    saved-region delete run. *)
Definition get_saved_region (db : Session) (region_id : Z)
  : option SavedRegion.t :=
  first (filter (fun r => SavedRegion.id r =? region_id) (saved_regions db)).

Definition delete_saved_region (db : Session) (region_id : Z)
  : bool * Session :=
  match get_saved_region db region_id with
  | None => (false, db)
  | Some db_region =>
      (true,
       mkSession (fire_risk_zones db) (fire_incidents db)
         (filter (fun r => negb (SavedRegion.id r =? SavedRegion.id db_region))
                 (saved_regions db))
         (alerts db))
  end.

(** ** Prediction handlers ([endpoints/predictions.py]) *)

Definition create_alert_for_user (db : Session) (user_id risk_zone_id : Z)
  (risk_level : float) (message : string) (now : datetime)
  : Alert.t * Session :=
  let alert :=
    Alert.mk (next_id (map Alert.id (alerts db))) user_id (Some risk_zone_id)
             now risk_level message false false false in
  (alert,
   mkSession (fire_risk_zones db) (fire_incidents db) (saved_regions db)
             (alerts db ++ [alert])).

(** The test of line 86 of [predict_fire_risk_zone]: the user's
    [alert_threshold] is truthy and [risk_level >= alert_threshold]. *)
Definition should_alert (alert_threshold : option float) (risk_level : float)
  : bool :=
  match alert_threshold with
  | None => false
  | Some t => truthy_float t && Qle_bool t risk_level
  end.

(** The values the handler draws from [random]. *)
Record Draws : Type := mkDraws {
  draw_risk_level : float;
  draw_temperature : float;
  draw_humidity : float;
  draw_wind_speed : float;
  draw_precipitation : float;
  draw_vegetation_density : float;
  draw_vegetation_choice : nat;
  draw_soil_moisture : float;
  draw_confidence_score : float
}.

Definition vegetation_types : list string :=
  ["Forest"; "Grassland"; "Shrubland"; "Mixed"]%string.

Definition category_of (risk_level : float) : string :=
  if Qltb (7 # 10) risk_level then "High"%string
  else if Qltb (4 # 10) risk_level then "Medium"%string
  else "Low"%string.

(** The handler from line 39 on: no recent prediction exists. *)
Definition predict_new_zone (db : Session) (latitude longitude : float)
  (request_region_name : option string) (current_user : User.t)
  (now : datetime) (d : Draws)
  : result ValidationError FireRiskZone.t * Session :=
  let risk_level := draw_risk_level d in
  let risk_category := category_of risk_level in
  let region_name :=
    match request_region_name with
    | Some s => s
    | None => ("Region near " ++ format_2f latitude ++ ", "
               ++ format_2f longitude)%string
    end in
  match FireRiskZoneCreate
          (FireRiskZoneBase.mk region_name latitude longitude risk_level
             risk_category
             (Some (draw_temperature d)) (Some (draw_humidity d))
             (Some (draw_wind_speed d)) (Some (draw_precipitation d))
             (Some (draw_vegetation_density d))
             (Some (nth (Nat.modulo (draw_vegetation_choice d) 4)
                        vegetation_types "Forest"%string))
             (Some (draw_soil_moisture d))
             "DemoRandomModel"%string (draw_confidence_score d)) with
  | Err e => (Err e, db)
  | Ok fire_risk_in =>
      let '(zone, db1) := create_fire_risk_zone db fire_risk_in now in
      if should_alert (User.alert_threshold current_user) risk_level
      then
        let '(_, db2) :=
          create_alert_for_user db1 (User.id current_user)
            (FireRiskZone.id zone) risk_level
            ("High fire risk detected in " ++ FireRiskZone.region_name zone
             ++ ". Risk level: " ++ format_2f risk_level)%string
            now in
        (Ok zone, db2)
      else (Ok zone, db1)
  end.

Definition predict_fire_risk_zone (db : Session) (latitude longitude : float)
  (request_region_name : option string) (current_user : User.t)
  (now : datetime) (d : Draws)
  : result ValidationError FireRiskZone.t * Session :=
  match get_fire_risk_zone_by_coords db latitude longitude
          default_tolerance with
  | Some existing_zone =>
      if now - timedelta_hours 1 <? FireRiskZone.timestamp existing_zone
      then (Ok existing_zone, db)
      else predict_new_zone db latitude longitude request_region_name
             current_user now d
  | None =>
      predict_new_zone db latitude longitude request_region_name
        current_user now d
  end.

(** ** Zone and region handlers ([endpoints/fire_risk.py]) *)

(** The body of a zone-creation request, then the service call: what both
    callers of [create_fire_risk_zone] do with their attributes. *)
Definition create_zone (db : Session) (attrs : FireRiskZoneBase.t)
  (now : datetime) : result ValidationError FireRiskZone.t * Session :=
  match FireRiskZoneCreate attrs with
  | Err e => (Err e, db)
  | Ok fire_risk_in =>
      let '(zone, db1) := create_fire_risk_zone db fire_risk_in now in
      (Ok zone, db1)
  end.

(** [deps.get_current_active_superuser] *)
Definition get_current_active_superuser (current_user : User.t)
  : result HTTPException User.t :=
  if negb (User.is_superuser current_user)
  then Err (mkHTTPException 403
              "The user doesn't have enough privileges"%string)
  else Ok current_user.

Definition endpoint_delete_fire_risk_zone (db : Session) (zone_id : Z)
  (current_user : User.t) : result HTTPException Msg * Session :=
  match get_current_active_superuser current_user with
  | Err e => (Err e, db)
  | Ok _ =>
      match get_fire_risk_zone db zone_id with
      | None =>
          (Err (mkHTTPException 404 "Fire risk zone not found"%string), db)
      | Some _ =>
          let '(success, db1) := delete_fire_risk_zone db zone_id in
          if success
          then (Ok (mkMsg "Fire risk zone deleted successfully"%string), db1)
          else (Err (mkHTTPException 500
                       "Error deleting fire risk zone"%string), db1)
      end
  end.

Definition endpoint_create_saved_region (db : Session)
  (region_in : SavedRegionBase.t) (current_user : User.t) (now : datetime)
  : result HTTPException SavedRegion.t * Session :=
  if negb (SavedRegionBase.user_id region_in =? User.id current_user)
  then (Err (mkHTTPException 400
          "User ID in request does not match authenticated user"%string), db)
  else
    let '(region, db1) := save_region_for_user db region_in now in
    (Ok region, db1).

Definition endpoint_delete_saved_region (db : Session) (region_id : Z)
  (current_user : User.t) : result HTTPException Msg * Session :=
  match get_saved_region db region_id with
  | None => (Err (mkHTTPException 404 "Saved region not found"%string), db)
  | Some region =>
      if negb (SavedRegion.user_id region =? User.id current_user)
         && negb (User.is_superuser current_user)
      then (Err (mkHTTPException 403
              "Not enough permissions to delete this region"%string), db)
      else
        let '(success, db1) := delete_saved_region db region_id in
        if success
        then (Ok (mkMsg "Saved region deleted successfully"%string), db1)
        else (Err (mkHTTPException 500
                     "Error deleting saved region"%string), db1)
  end.

(** An incident and a saved region created from request attributes: the
    schema is built first, then the service is called. *)
Definition create_incident (db : Session) (attrs : FireIncidentBase.t)
  : result ValidationError FireIncident.t * Session :=
  match FireIncidentCreate attrs with
  | Err e => (Err e, db)
  | Ok incident_in =>
      let '(incident, db1) := create_fire_incident db incident_in in
      (Ok incident, db1)
  end.

Definition save_region (db : Session) (attrs : SavedRegionBase.t)
  (now : datetime) : result ValidationError SavedRegion.t * Session :=
  match SavedRegionCreate attrs with
  | Err e => (Err e, db)
  | Ok region_in =>
      let '(region, db1) := save_region_for_user db region_in now in
      (Ok region, db1)
  end.

(** ** The operations of the core as a command language *)

Inductive core_op : Type :=
| op_create_zone (attrs : FireRiskZoneBase.t)
| op_update_zone (zone_id : Z) (update_data : list zone_assignment)
| op_delete_zone (zone_id : Z)
| op_create_incident (attrs : FireIncidentBase.t)
| op_save_region (attrs : SavedRegionBase.t)
| op_delete_region (region_id : Z)
| op_predict (latitude longitude : float)
    (request_region_name : option string) (current_user : User.t) (d : Draws)
| op_create_alert (user_id risk_zone_id : Z) (risk_level : float)
    (message : string).

Definition run_op (now : datetime) (op : core_op) (db : Session) : Session :=
  match op with
  | op_create_zone attrs => snd (create_zone db attrs now)
  | op_update_zone zone_id update_data =>
      snd (update_fire_risk_zone db zone_id update_data)
  | op_delete_zone zone_id => snd (delete_fire_risk_zone db zone_id)
  | op_create_incident attrs => snd (create_incident db attrs)
  | op_save_region attrs => snd (save_region db attrs now)
  | op_delete_region region_id => snd (delete_saved_region db region_id)
  | op_predict latitude longitude request_region_name current_user d =>
      snd (predict_fire_risk_zone db latitude longitude request_region_name
             current_user now d)
  | op_create_alert user_id risk_zone_id risk_level message =>
      snd (create_alert_for_user db user_id risk_zone_id risk_level message
             now)
  end.

(** A run: each operation with the clock reading of its request. *)
Fixpoint run_ops (ops : list (datetime * core_op)) (db : Session) : Session :=
  match ops with
  | [] => db
  | (now, op) :: rest => run_ops rest (run_op now op db)
  end.

Definition alert_flags (a : Alert.t) : bool * bool * bool :=
  (Alert.is_read a, Alert.is_sent_email a, Alert.is_sent_sms a).

End Service.

(** ** The remaining handlers of [endpoints/fire_risk.py] *)

Definition read_fire_risk_zone (db : Session) (zone_id : Z)
  : result HTTPException FireRiskZone.t :=
  match get_fire_risk_zone db zone_id with
  | None => Err (mkHTTPException 404 "Fire risk zone not found"%string)
  | Some zone => Ok zone
  end.


Definition endpoint_create_fire_risk_zone (db : Session)
  (fire_risk_in : FireRiskZoneBase.t) (current_user : User.t)
  (now : datetime) : result HTTPException FireRiskZone.t * Session :=
  match get_current_active_superuser current_user with
  | Err e => (Err e, db)
  | Ok _ =>
      let '(zone, db1) := create_fire_risk_zone db fire_risk_in now in
      (Ok zone, db1)
  end.

(** The handler returns what the service returns, an optional zone. *)
Definition endpoint_update_fire_risk_zone (db : Session) (zone_id : Z)
  (update_data : list zone_assignment) (current_user : User.t)
  : result HTTPException (option FireRiskZone.t) * Session :=
  match get_current_active_superuser current_user with
  | Err e => (Err e, db)
  | Ok _ =>
      match get_fire_risk_zone db zone_id with
      | None =>
          (Err (mkHTTPException 404 "Fire risk zone not found"%string), db)
      | Some _ =>
          let '(zone, db1) := update_fire_risk_zone db zone_id update_data in
          (Ok zone, db1)
      end
  end.

Definition read_saved_regions (db : Session) (skip lim : Z)
  (current_user : User.t) : list SavedRegion.t :=
  get_saved_regions_by_user db (User.id current_user) skip lim.

(** Construction of a [FireRiskZoneUpdate]: the validators of the base class
    run on the fields that are set. A set field carries a value of the
    column's type: a request that sets a column which is not nullable to
    null is outside this model. *)
Definition validate_zone_assignment (f : zone_assignment) : list string :=
  match f with
  | set_risk_level v => error_of (validate_risk_level v)
  | set_risk_category v => error_of (validate_risk_category v)
  | _ => []
  end.

Definition FireRiskZoneUpdate (update_data : list zone_assignment)
  : result ValidationError (list zone_assignment) :=
  match flat_map validate_zone_assignment update_data with
  | [] => Ok update_data
  | errs => Err (mkValidationError errs)
  end.

(** ** Incident handlers ([endpoints/fire_incidents.py]) *)

Module FireIncidentUpdate.
(** A field is [None] when the request leaves it unset. For a nullable
    column the inner option is the value set, which may be null; a request
    that sets one of the other columns to null is outside this model. *)
Record t : Type := mk {
  risk_zone_id : option (option Z);
  latitude : option float;
  longitude : option float;
  start_date : option datetime;
  end_date : option (option datetime);
  severity : option string;
  area_affected : option (option float);
  status : option string;
  source : option string;
  description : option (option string)
}.
End FireIncidentUpdate.

Definition validate_opt (validate : string -> result string string)
  (o : option string) : list string :=
  match o with
  | Some v => error_of (validate v)
  | None => []
  end.

Definition FireIncidentUpdate_new (attrs : FireIncidentUpdate.t)
  : result ValidationError FireIncidentUpdate.t :=
  match validate_opt validate_severity (FireIncidentUpdate.severity attrs)
        ++ validate_opt validate_status (FireIncidentUpdate.status attrs)
        ++ validate_opt validate_source (FireIncidentUpdate.source attrs) with
  | [] => Ok attrs
  | errs => Err (mkValidationError errs)
  end.

Definition set_or_keep {A : Type} (o : option A) (old : A) : A :=
  match o with
  | Some v => v
  | None => old
  end.

(** The [setattr] loop over [incident_in.dict(exclude_unset=True)]. *)
Definition apply_incident_update (u : FireIncidentUpdate.t)
  (i : FireIncident.t) : FireIncident.t :=
  FireIncident.mk (FireIncident.id i)
    (set_or_keep (FireIncidentUpdate.risk_zone_id u)
                 (FireIncident.risk_zone_id i))
    (set_or_keep (FireIncidentUpdate.latitude u) (FireIncident.latitude i))
    (set_or_keep (FireIncidentUpdate.longitude u) (FireIncident.longitude i))
    (set_or_keep (FireIncidentUpdate.start_date u)
                 (FireIncident.start_date i))
    (set_or_keep (FireIncidentUpdate.end_date u) (FireIncident.end_date i))
    (set_or_keep (FireIncidentUpdate.severity u) (FireIncident.severity i))
    (set_or_keep (FireIncidentUpdate.area_affected u)
                 (FireIncident.area_affected i))
    (set_or_keep (FireIncidentUpdate.status u) (FireIncident.status i))
    (set_or_keep (FireIncidentUpdate.source u) (FireIncident.source i))
    (set_or_keep (FireIncidentUpdate.description u)
                 (FireIncident.description i)).

(** The lookup by primary key that the incident handlers run. *)
Definition get_fire_incident (db : Session) (incident_id : Z)
  : option FireIncident.t :=
  first (filter (fun i => FireIncident.id i =? incident_id)
                (fire_incidents db)).

Definition read_fire_incident (db : Session) (incident_id : Z)
  : result HTTPException FireIncident.t :=
  match get_fire_incident db incident_id with
  | None => Err (mkHTTPException 404 "Fire incident not found"%string)
  | Some incident => Ok incident
  end.

(** An integer in decimal, as an f-string renders it. *)
Definition str_of_int (k : Z) : string := NilZero.string_of_int (Z.to_int k).

(** The 404 answer that names the zone key. *)
Definition zone_not_found (zone_id : Z) : HTTPException :=
  mkHTTPException 404
    ("Fire risk zone with ID " ++ str_of_int zone_id ++ " not found")%string.

Definition endpoint_create_fire_incident (db : Session) (incident_in : FireIncidentBase.t) (current_user : User.t)
  : result HTTPException FireIncident.t * Session :=
  match get_current_active_superuser current_user with
  | Err e => (Err e, db)
  | Ok _ =>
      match get_fire_risk_zone db
              (FireIncidentBase.risk_zone_id incident_in) with
      | None =>
          (Err (zone_not_found
                  (FireIncidentBase.risk_zone_id incident_in)), db)
      | Some _ =>
          let '(incident, db1) := create_fire_incident db incident_in in
          (Ok incident, db1)
      end
  end.

(** The attribute [incident_in.risk_zone_id]: the value set, else [None]. *)
Definition update_risk_zone_id (u : FireIncidentUpdate.t) : option Z :=
  match FireIncidentUpdate.risk_zone_id u with
  | Some (Some k) => Some k
  | _ => None
  end.

Definition store_incident (db : Session) (updated : FireIncident.t)
  : Session :=
  mkSession (fire_risk_zones db)
    (map (fun i => if FireIncident.id i =? FireIncident.id updated
                   then updated else i)
         (fire_incidents db))
    (saved_regions db) (alerts db).

Definition endpoint_update_fire_incident (db : Session) (incident_id : Z) (incident_in : FireIncidentUpdate.t)
  (current_user : User.t) : result HTTPException FireIncident.t * Session :=
  match get_current_active_superuser current_user with
  | Err e => (Err e, db)
  | Ok _ =>
      match get_fire_incident db incident_id with
      | None =>
          (Err (mkHTTPException 404 "Fire incident not found"%string), db)
      | Some incident =>
          let missing_zone :=
            match update_risk_zone_id incident_in with
            | Some k =>
                if negb (opt_Z_eqb (FireIncident.risk_zone_id incident) k)
                then match get_fire_risk_zone db k with
                     | None => Some k
                     | Some _ => None
                     end
                else None
            | None => None
            end in
          match missing_zone with
          | Some k => (Err (zone_not_found k), db)
          | None =>
              let updated := apply_incident_update incident_in incident in
              (Ok updated, store_incident db updated)
          end
      end
  end.

Definition endpoint_delete_fire_incident (db : Session) (incident_id : Z)
  (current_user : User.t) : result HTTPException Msg * Session :=
  match get_current_active_superuser current_user with
  | Err e => (Err e, db)
  | Ok _ =>
      match get_fire_incident db incident_id with
      | None =>
          (Err (mkHTTPException 404 "Fire incident not found"%string), db)
      | Some incident =>
          (Ok (mkMsg "Fire incident deleted successfully"%string),
           mkSession (fire_risk_zones db)
             (filter (fun i => negb (FireIncident.id i
                                     =? FireIncident.id incident))
                     (fire_incidents db))
             (saved_regions db) (alerts db))
      end
  end.

(** The dictionary built for each incident of a listing. *)
Record IncidentDict : Type := mkIncidentDict {
  dict_id : Z;
  dict_risk_zone_id : option Z;
  dict_latitude : float;
  dict_longitude : float;
  dict_start_date : option string;
  dict_end_date : option string;
  dict_severity : string;
  dict_area_affected : option float;
  dict_status : string;
  dict_source : string;
  dict_description : option string
}.

Definition incident_dict (isoformat : datetime -> string)
  (incident : FireIncident.t) : IncidentDict :=
  mkIncidentDict (FireIncident.id incident)
    (FireIncident.risk_zone_id incident)
    (FireIncident.latitude incident) (FireIncident.longitude incident)
    (Some (isoformat (FireIncident.start_date incident)))
    (option_map isoformat (FireIncident.end_date incident))
    (FireIncident.severity incident)
    match FireIncident.area_affected incident with
    | Some x => if truthy_float x then Some x else None
    | None => None
    end
    (FireIncident.status incident) (FireIncident.source incident)
    (FireIncident.description incident).

Definition read_fire_incidents (ilike : string -> string -> bool)
  (isoformat : datetime -> string) (db : Session) (skip lim : Z)
  (region_name : option string)
  (start_date_from start_date_to : option datetime)
  (status severity : option string) : list IncidentDict :=
  map (incident_dict isoformat)
      (get_fire_incidents ilike db skip lim region_name start_date_from
         start_date_to status severity).

Definition test_fire_incidents (isoformat : datetime -> string)
  (db : Session) : list IncidentDict :=
  map (incident_dict isoformat) (limit 5 (fire_incidents db)).

(** ** Alert handlers ([endpoints/alerts.py]) *)

Module AlertUpdate.
(** A flag is [None] when the request leaves it unset; a request that sets
    a flag to null is outside this model. *)
Record t : Type := mk {
  is_read : option bool;
  is_sent_email : option bool;
  is_sent_sms : option bool
}.
End AlertUpdate.

Definition alert_time_geb (a b : Alert.t) : bool :=
  Alert.alert_time b <=? Alert.alert_time a.

Definition read_alerts (db : Session) (skip lim : Z) (is_read : option bool)
  (current_user : User.t) : list Alert.t :=
  let query :=
    filter (fun a => Alert.user_id a =? User.id current_user) (alerts db) in
  let query :=
    match is_read with
    | Some v => filter (fun a => Bool.eqb (Alert.is_read a) v) query
    | None => query
    end in
  let query := order_by_desc alert_time_geb query in
  limit lim (offset skip query).

(** The lookup the three single-alert handlers run: by key and owner. *)
Definition get_alert (db : Session) (alert_id : Z) (current_user : User.t)
  : option Alert.t :=
  first (filter (fun a => (Alert.id a =? alert_id)
                          && (Alert.user_id a =? User.id current_user))
                (alerts db)).

Definition alert_not_found : HTTPException :=
  mkHTTPException 404 "Alert not found"%string.

Definition read_alert (db : Session) (alert_id : Z) (current_user : User.t)
  : result HTTPException Alert.t :=
  match get_alert db alert_id current_user with
  | None => Err alert_not_found
  | Some alert => Ok alert
  end.

Definition apply_alert_update (u : AlertUpdate.t) (a : Alert.t) : Alert.t :=
  Alert.mk (Alert.id a) (Alert.user_id a) (Alert.risk_zone_id a)
    (Alert.alert_time a) (Alert.risk_level a) (Alert.message a)
    (set_or_keep (AlertUpdate.is_read u) (Alert.is_read a))
    (set_or_keep (AlertUpdate.is_sent_email u) (Alert.is_sent_email a))
    (set_or_keep (AlertUpdate.is_sent_sms u) (Alert.is_sent_sms a)).

Definition update_alert (db : Session) (alert_id : Z)
  (alert_in : AlertUpdate.t) (current_user : User.t)
  : result HTTPException Alert.t * Session :=
  match get_alert db alert_id current_user with
  | None => (Err alert_not_found, db)
  | Some alert =>
      let updated := apply_alert_update alert_in alert in
      (Ok updated,
       mkSession (fire_risk_zones db) (fire_incidents db) (saved_regions db)
         (map (fun a => if Alert.id a =? Alert.id alert then updated else a)
              (alerts db)))
  end.

Definition delete_alert (db : Session) (alert_id : Z)
  (current_user : User.t) : result HTTPException Msg * Session :=
  match get_alert db alert_id current_user with
  | None => (Err alert_not_found, db)
  | Some alert =>
      (Ok (mkMsg "Alert deleted successfully"%string),
       mkSession (fire_risk_zones db) (fire_incidents db) (saved_regions db)
         (filter (fun a => negb (Alert.id a =? Alert.id alert)) (alerts db)))
  end.

Definition mark_read (a : Alert.t) : Alert.t :=
  Alert.mk (Alert.id a) (Alert.user_id a) (Alert.risk_zone_id a)
    (Alert.alert_time a) (Alert.risk_level a) (Alert.message a)
    true (Alert.is_sent_email a) (Alert.is_sent_sms a).

(** The bulk update of the unread alerts of the user. *)
Definition mark_all_alerts_read (db : Session) (current_user : User.t)
  : Msg * Session :=
  (mkMsg "All alerts marked as read"%string,
   mkSession (fire_risk_zones db) (fire_incidents db) (saved_regions db)
     (map (fun a =>
             if (Alert.user_id a =? User.id current_user)
                && Bool.eqb (Alert.is_read a) false
             then mark_read a else a)
          (alerts db))).

(** ** Fire spread ([predict_fire_spread] of [endpoints/predictions.py]) *)

Module FireSpreadRequest.
Record t : Type := mk {
  zone_id : Z;
  hours_ahead : Z
}.
End FireSpreadRequest.

Record SpreadPoint : Type := mkSpreadPoint {
  point_latitude : float;
  point_longitude : float;
  point_timestamp : string;
  point_risk_level : float
}.

Record OriginalZone : Type := mkOriginalZone {
  original_id : Z;
  original_latitude : float;
  original_longitude : float;
  original_risk_level : float;
  original_risk_category : string
}.

Record FireSpread : Type := mkFireSpread {
  original_zone : OriginalZone;
  spread_points : list SpreadPoint;
  max_spread_distance_km : float;
  wind_direction_degrees : float
}.

(** [min(1.0, x)] *)
Definition min_one (x : float) : float := if Qltb x 1 then x else 1%Q.

(** [zone.wind_speed / 10 if zone.wind_speed else 0.1] *)
Definition wind_factor_of (wind_speed : option float) : float :=
  match wind_speed with
  | Some w => if truthy_float w then (w / 10)%Q else (1 # 10)%Q
  | None => (1 # 10)%Q
  end.

Section Spread.

(** [math.radians], [math.cos], [math.sin] and [datetime.isoformat] are
    taken as given; [jitter hour] is the pair of values drawn from [random]
    in the iteration of that hour. *)
Variable radians : float -> float.
Variable cos : float -> float.
Variable sin : float -> float.
Variable isoformat : datetime -> string.

(** The loop over [range(1, hours_ahead + 1)], from [hour] on for [n]
    iterations, with the running position [lat], [lng]. *)
Fixpoint spread_loop (zone_risk distance angle_rad : float)
  (current_time : datetime) (jitter : Z -> float * float)
  (n : nat) (hour : Z) (lat lng : float) : list SpreadPoint :=
  match n with
  | O => []
  | S n' =>
      let lat1 := (lat + distance * cos angle_rad + fst (jitter hour))%Q in
      let lng1 := (lng + distance * sin angle_rad + snd (jitter hour))%Q in
      mkSpreadPoint lat1 lng1
        (isoformat (current_time + timedelta_hours hour))
        (min_one (zone_risk + inject_Z hour * (1 # 100))%Q)
      :: spread_loop zone_risk distance angle_rad current_time jitter
           n' (hour + 1) lat1 lng1
  end.

Definition predict_fire_spread (db : Session) (request : FireSpreadRequest.t)
  (current_time : datetime) (wind_direction : float)
  (jitter : Z -> float * float) : result HTTPException FireSpread :=
  match get_fire_risk_zone db (FireSpreadRequest.zone_id request) with
  | None => Err (zone_not_found (FireSpreadRequest.zone_id request))
  | Some zone =>
      let wind_factor := wind_factor_of (FireRiskZone.wind_speed zone) in
      let risk_factor := (FireRiskZone.risk_level zone * 2)%Q in
      let distance := (wind_factor * risk_factor * (1 # 100))%Q in
      Ok (mkFireSpread
            (mkOriginalZone (FireRiskZone.id zone)
               (FireRiskZone.latitude zone) (FireRiskZone.longitude zone)
               (FireRiskZone.risk_level zone)
               (FireRiskZone.risk_category zone))
            (spread_loop (FireRiskZone.risk_level zone) distance
               (radians wind_direction) current_time jitter
               (Z.to_nat (FireSpreadRequest.hours_ahead request)) 1
               (FireRiskZone.latitude zone) (FireRiskZone.longitude zone))
            (wind_factor * risk_factor
             * inject_Z (FireSpreadRequest.hours_ahead request))%Q
            wind_direction)
  end.

End Spread.

(** ** Requests: the handlers that change the session *)

Inductive request : Type :=
| PredictZone (latitude longitude : float)
    (request_region_name : option string) (d : Draws)
| CreateZone (attrs : FireRiskZoneBase.t)
| UpdateZone (zone_id : Z) (update_data : list zone_assignment)
| DeleteZone (zone_id : Z)
| CreateIncident (attrs : FireIncidentBase.t)
| UpdateIncident (incident_id : Z) (attrs : FireIncidentUpdate.t)
| DeleteIncident (incident_id : Z)
| CreateSavedRegion (attrs : SavedRegionBase.t)
| DeleteSavedRegion (region_id : Z)
| UpdateAlert (alert_id : Z) (alert_in : AlertUpdate.t)
| DeleteAlert (alert_id : Z)
| MarkAllAlertsRead.

(** One request served for [current_user] at the clock reading [now]: the
    body is turned into its schema, which may be refused, and the handler
    runs. *)
Definition serve (format_2f : float -> string) (now : datetime)
  (current_user : User.t) (req : request) (db : Session) : Session :=
  match req with
  | PredictZone latitude longitude request_region_name d =>
      snd (predict_fire_risk_zone format_2f db latitude longitude
             request_region_name current_user now d)
  | CreateZone attrs =>
      match FireRiskZoneCreate attrs with
      | Ok fire_risk_in =>
          snd (endpoint_create_fire_risk_zone db fire_risk_in current_user
                 now)
      | Err _ => db
      end
  | UpdateZone zone_id update_data =>
      match FireRiskZoneUpdate update_data with
      | Ok fire_risk_in =>
          snd (endpoint_update_fire_risk_zone db zone_id fire_risk_in
                 current_user)
      | Err _ => db
      end
  | DeleteZone zone_id =>
      snd (endpoint_delete_fire_risk_zone db zone_id current_user)
  | CreateIncident attrs =>
      match FireIncidentCreate attrs with
      | Ok incident_in =>
          snd (endpoint_create_fire_incident db incident_in current_user)
      | Err _ => db
      end
  | UpdateIncident incident_id attrs =>
      match FireIncidentUpdate_new attrs with
      | Ok incident_in =>
          snd (endpoint_update_fire_incident db incident_id incident_in
                 current_user)
      | Err _ => db
      end
  | DeleteIncident incident_id =>
      snd (endpoint_delete_fire_incident db incident_id current_user)
  | CreateSavedRegion attrs =>
      match SavedRegionCreate attrs with
      | Ok region_in =>
          snd (endpoint_create_saved_region db region_in current_user now)
      | Err _ => db
      end
  | DeleteSavedRegion region_id =>
      snd (endpoint_delete_saved_region db region_id current_user)
  | UpdateAlert alert_id alert_in =>
      snd (update_alert db alert_id alert_in current_user)
  | DeleteAlert alert_id => snd (delete_alert db alert_id current_user)
  | MarkAllAlertsRead => snd (mark_all_alerts_read db current_user)
  end.

Fixpoint serve_all (format_2f : float -> string)
  (log : list (datetime * User.t * request)) (db : Session) : Session :=
  match log with
  | [] => db
  | (now, current_user, req) :: rest =>
      serve_all format_2f rest (serve format_2f now current_user req db)
  end.

(** ** Conditions on a session *)

(** The constraints of the zone schema. *)
Definition zone_valid (z : FireRiskZone.t) : Prop :=
  (0 <= FireRiskZone.risk_level z)%Q
  /\ (FireRiskZone.risk_level z <= 1)%Q
  /\ In (FireRiskZone.risk_category z) valid_categories.

(** Primary keys are distinct in every table. *)
Definition keys_unique (db : Session) : Prop :=
  NoDup (map FireRiskZone.id (fire_risk_zones db))
  /\ NoDup (map FireIncident.id (fire_incidents db))
  /\ NoDup (map SavedRegion.id (saved_regions db))
  /\ NoDup (map Alert.id (alerts db)).

(** No incident and no alert designates a zone that is not stored. *)
Definition references_valid (db : Session) : Prop :=
  (forall i k, In i (fire_incidents db) ->
               FireIncident.risk_zone_id i = Some k ->
               In k (map FireRiskZone.id (fire_risk_zones db)))
  /\ (forall a k, In a (alerts db) ->
                  Alert.risk_zone_id a = Some k ->
                  In k (map FireRiskZone.id (fire_risk_zones db))).

(** What one served request can do to the session, by the requester [u]. *)
Inductive change (u : User.t) : Session -> Session -> Prop :=
| change_none db : change u db db
| change_add_zone db z new :
    FireRiskZone.id z = next_id (map FireRiskZone.id (fire_risk_zones db)) ->
    zone_valid z ->
    new = []
    \/ (exists a,
           new = [a]
           /\ Alert.id a = next_id (map Alert.id (alerts db))
           /\ Alert.user_id a = User.id u
           /\ Alert.risk_zone_id a = Some (FireRiskZone.id z)
           /\ alert_flags a = (false, false, false)) ->
    change u db
      (mkSession (fire_risk_zones db ++ [z]) (fire_incidents db)
                 (saved_regions db) (alerts db ++ new))
| change_update_zone db k z z' :
    User.is_superuser u = true ->
    In z (fire_risk_zones db) -> FireRiskZone.id z = k ->
    FireRiskZone.id z' = k ->
    (zone_valid z -> zone_valid z') ->
    change u db
      (mkSession
         (map (fun x => if FireRiskZone.id x =? k then z' else x)
              (fire_risk_zones db))
         (fire_incidents db) (saved_regions db) (alerts db))
| change_delete_zone db k :
    User.is_superuser u = true ->
    change u db
      (mkSession
         (filter (fun x => negb (FireRiskZone.id x =? k))
                 (fire_risk_zones db))
         (map (orphan_incident k) (fire_incidents db))
         (saved_regions db)
         (map (orphan_alert k) (alerts db)))
| change_add_incident db i k :
    User.is_superuser u = true ->
    FireIncident.id i = next_id (map FireIncident.id (fire_incidents db)) ->
    FireIncident.risk_zone_id i = Some k ->
    In k (map FireRiskZone.id (fire_risk_zones db)) ->
    change u db
      (mkSession (fire_risk_zones db) (fire_incidents db ++ [i])
                 (saved_regions db) (alerts db))
| change_update_incident db k i i' :
    User.is_superuser u = true ->
    In i (fire_incidents db) -> FireIncident.id i = k ->
    FireIncident.id i' = k ->
    (forall j, FireIncident.risk_zone_id i' = Some j ->
               FireIncident.risk_zone_id i = Some j
               \/ In j (map FireRiskZone.id (fire_risk_zones db))) ->
    change u db
      (mkSession (fire_risk_zones db)
         (map (fun x => if FireIncident.id x =? k then i' else x)
              (fire_incidents db))
         (saved_regions db) (alerts db))
| change_delete_incident db k :
    User.is_superuser u = true ->
    change u db
      (mkSession (fire_risk_zones db)
         (filter (fun x => negb (FireIncident.id x =? k))
                 (fire_incidents db))
         (saved_regions db) (alerts db))
| change_add_region db r :
    SavedRegion.id r = next_id (map SavedRegion.id (saved_regions db)) ->
    SavedRegion.user_id r = User.id u ->
    change u db
      (mkSession (fire_risk_zones db) (fire_incidents db)
                 (saved_regions db ++ [r]) (alerts db))
| change_delete_region db k r :
    In r (saved_regions db) -> SavedRegion.id r = k ->
    SavedRegion.user_id r = User.id u \/ User.is_superuser u = true ->
    change u db
      (mkSession (fire_risk_zones db) (fire_incidents db)
         (filter (fun x => negb (SavedRegion.id x =? k)) (saved_regions db))
         (alerts db))
| change_update_alert db k a a' :
    In a (alerts db) -> Alert.id a = k ->
    Alert.user_id a = User.id u ->
    Alert.id a' = k -> Alert.user_id a' = User.id u ->
    Alert.risk_zone_id a' = Alert.risk_zone_id a ->
    change u db
      (mkSession (fire_risk_zones db) (fire_incidents db) (saved_regions db)
         (map (fun x => if Alert.id x =? k then a' else x) (alerts db)))
| change_delete_alert db k a :
    In a (alerts db) -> Alert.id a = k ->
    Alert.user_id a = User.id u ->
    change u db
      (mkSession (fire_risk_zones db) (fire_incidents db) (saved_regions db)
         (filter (fun x => negb (Alert.id x =? k)) (alerts db)))
| change_mark_read db :
    change u db
      (mkSession (fire_risk_zones db) (fire_incidents db) (saved_regions db)
         (map (fun a =>
                 if (Alert.user_id a =? User.id u)
                    && Bool.eqb (Alert.is_read a) false
                 then mark_read a else a)
              (alerts db))).

(** What a request for alerts may not alter in an alert of another user. *)
Definition alert_content (a : Alert.t)
  : Z * Z * datetime * float * string * (bool * bool * bool) :=
  (Alert.id a, Alert.user_id a, Alert.alert_time a, Alert.risk_level a,
   Alert.message a, alert_flags a).

(** ** What the specification says, in its own words *)

(** A string filter is given when a non-empty string is passed for it; a
    number or a date is given when a value is passed. *)
Definition given_str (o : option string) : option string :=
  match o with
  | Some s => if String.eqb s "" then None else Some s
  | None => None
  end.

(** [page] is the (skip, limit) page of [ordering]: a contiguous run of it
    that starts after the first [skip] rows and holds [limit] rows, or fewer
    where the ordering ends. *)
Definition is_page {A : Type} (skip lim : Z) (ordering page : list A) : Prop :=
  exists pre post,
    ordering = pre ++ page ++ post
    /\ List.length pre = Nat.min (Z.to_nat skip) (List.length ordering)
    /\ (0 <= lim ->
        List.length page
        = Nat.min (Z.to_nat lim) (List.length ordering - List.length pre))
    /\ (lim < 0 -> post = []).

(** A zone passes the filters of a listing. *)
Definition zone_passes (ilike : string -> string -> bool)
  (min_risk_level max_risk_level : option float)
  (region_name risk_category : option string) (z : FireRiskZone.t) : bool :=
  match min_risk_level with
  | Some m => Qle_bool m (FireRiskZone.risk_level z)
  | None => true
  end
  && match max_risk_level with
     | Some m => Qle_bool (FireRiskZone.risk_level z) m
     | None => true
     end
  && match given_str region_name with
     | Some s => ilike (FireRiskZone.region_name z) ("%" ++ s ++ "%")%string
     | None => true
     end
  && match given_str risk_category with
     | Some c => String.eqb (FireRiskZone.risk_category z) c
     | None => true
     end.

(** The zone lies in the box of half-width [tol] around the query point. *)
Definition box_contains (lat lon tol : Q) (z : FireRiskZone.t) : Prop :=
  (lat - tol <= FireRiskZone.latitude z)%Q
  /\ (FireRiskZone.latitude z <= lat + tol)%Q
  /\ (lon - tol <= FireRiskZone.longitude z)%Q
  /\ (FireRiskZone.longitude z <= lon + tol)%Q.

(** The same box drawn around the zone contains the query point. *)
Definition zone_box_contains (z : FireRiskZone.t) (lat lon tol : Q) : Prop :=
  (FireRiskZone.latitude z - tol <= lat)%Q
  /\ (lat <= FireRiskZone.latitude z + tol)%Q
  /\ (FireRiskZone.longitude z - tol <= lon)%Q
  /\ (lon <= FireRiskZone.longitude z + tol)%Q.

(** The zone that owns an incident exists and its region name matches. *)
Definition owner_matches (ilike : string -> string -> bool)
  (zones : list FireRiskZone.t) (s : string) (i : FireIncident.t) : bool :=
  existsb
    (fun z =>
       match FireIncident.risk_zone_id i with
       | Some k => k =? FireRiskZone.id z
       | None => false
       end
       && ilike (FireRiskZone.region_name z) ("%" ++ s ++ "%")%string)
    zones.

(** An incident passes the filters of a listing. *)
Definition incident_passes (ilike : string -> string -> bool)
  (zones : list FireRiskZone.t) (region_name : option string)
  (start_date_from start_date_to : option datetime)
  (status severity : option string) (i : FireIncident.t) : bool :=
  match given_str region_name with
  | Some s => owner_matches ilike zones s i
  | None => true
  end
  && match start_date_from with
     | Some d => d <=? FireIncident.start_date i
     | None => true
     end
  && match start_date_to with
     | Some d => FireIncident.start_date i <=? d
     | None => true
     end
  && match given_str status with
     | Some s => String.eqb (FireIncident.status i) s
     | None => true
     end
  && match given_str severity with
     | Some s => String.eqb (FireIncident.severity i) s
     | None => true
     end.

(** The query that [get_fire_incidents] sorts and pages. *)
Definition incident_query (ilike : string -> string -> bool) (db : Session)
  (region_name : option string)
  (start_date_from start_date_to : option datetime)
  (status severity : option string) : list FireIncident.t :=
  filter
    (incident_passes ilike [] None start_date_from start_date_to status
       severity)
    match given_str region_name with
    | Some s => join_region ilike (fire_risk_zones db) s (fire_incidents db)
    | None => fire_incidents db
    end.

(** The key of an alert with its three flags, and the flags of an unread,
    unsent alert. *)
Definition key_flags (a : Alert.t) : Z * (bool * bool * bool) :=
  (Alert.id a, alert_flags a).

Definition unread_unsent (p : Z * (bool * bool * bool)) : Prop :=
  snd p = (false, false, false).

(** ** A reference engine and sample data for the examples *)

Definition lower (c : ascii) : ascii :=
  let n := nat_of_ascii c in
  if (Nat.leb 65 n && Nat.leb n 90)%bool then ascii_of_nat (n + 32) else c.

(** LIKE over characters: a percent sign matches any run of characters and
    an underscore any single one. *)
Fixpoint like_match (p s : list ascii) : bool :=
  match p with
  | [] => match s with [] => true | _ :: _ => false end
  | c :: p' =>
      if Ascii.eqb c "%"
      then (fix skip (s : list ascii) : bool :=
              like_match p' s
              || match s with [] => false | _ :: s' => skip s' end) s
      else match s with
           | [] => false
           | d :: s' =>
               (Ascii.eqb c "_" || Ascii.eqb c d) && like_match p' s'
           end
  end.

(** The case-insensitive LIKE of the default engine over ASCII text. *)
Definition sqlite_ilike (value pattern : string) : bool :=
  like_match (map lower (list_ascii_of_string pattern))
             (map lower (list_ascii_of_string value)).

(** A float printed with two decimals, ties to even. *)
Definition format_2f_exact (x : Q) : string :=
  let a := Z.abs (Qnum x) * 100 in
  let b := Z.pos (Qden x) in
  let q := a / b in
  let r := a mod b in
  let n := if (b <? 2 * r) || ((b =? 2 * r) && Z.odd q) then q + 1 else q in
  let frac := n mod 100 in
  let sign := if Qnum x <? 0 then "-"%string else ""%string in
  let pad := if frac <? 10 then "0"%string else ""%string in
  (sign ++ NilZero.string_of_uint (N.to_uint (Z.to_N (n / 100))) ++ "."
   ++ pad ++ NilZero.string_of_uint (N.to_uint (Z.to_N frac)))%string.

Definition sample_zone (k : Z) (name : string) (lat lon risk : Q)
  (category : string) (ts : Z) : FireRiskZone.t :=
  FireRiskZone.mk k name lat lon risk category ts None None None None None
    None None "DemoRandomModel"%string (9 # 10)%Q.

Definition zone_pine : FireRiskZone.t :=
  sample_zone 1 "Pine Ridge" (3405 # 100) (-11825 # 100) (85 # 100) "High"
    1000.

Definition zone_oak : FireRiskZone.t :=
  sample_zone 2 "Oak Valley" (34055 # 1000) (-118245 # 1000) (3 # 10) "Low"
    5000000000.

Definition zone_cedar : FireRiskZone.t :=
  sample_zone 3 "Cedar Pines" (40 # 1) (-120 # 1) (1 # 2) "Medium" 2000.

Definition sample_incident (k : Z) (zone : option Z) (start : Z)
  (severity status : string) : FireIncident.t :=
  FireIncident.mk k zone (34 # 1)%Q (-118 # 1)%Q start None severity None
    status "Satellite"%string None.

Definition incident_a : FireIncident.t :=
  sample_incident 1 (Some 1) 100 "High" "Active".

Definition incident_b : FireIncident.t :=
  sample_incident 2 (Some 9) 300 "Low" "Active".

Definition incident_c : FireIncident.t :=
  sample_incident 3 (Some 3) 200 "Medium" "Contained".

Definition region_a : SavedRegion.t :=
  SavedRegion.mk 1 1 "Home" (3405 # 100)%Q (-11825 # 100)%Q 10
    (Some (7 # 10)%Q).

Definition region_b : SavedRegion.t :=
  SavedRegion.mk 2 2 "Cabin" (40 # 1)%Q (-120 # 1)%Q 20 (Some (1 # 2)%Q).

Definition region_c : SavedRegion.t :=
  SavedRegion.mk 3 1 "Office" (34 # 1)%Q (-118 # 1)%Q 30 (Some (7 # 10)%Q).

Definition sample_db : Session :=
  mkSession [zone_pine; zone_oak; zone_cedar]
            [incident_a; incident_b; incident_c]
            [region_a; region_b; region_c]
            [].

Definition alice : User.t := User.mk 1 true false (Some (7 # 10)%Q).
Definition bob : User.t := User.mk 2 true false (Some 0%Q).
Definition root : User.t := User.mk 3 true true None.

Definition sample_draws : Draws :=
  mkDraws (9 # 10)%Q (25 # 1)%Q (40 # 1)%Q (10 # 1)%Q 0%Q (1 # 2)%Q 2
          (3 # 10)%Q (8 # 10)%Q.

Definition sample_attrs (risk : Q) (category : string)
  : FireRiskZoneBase.t :=
  FireRiskZoneBase.mk "Birch Flats" (35 # 1)%Q (-119 # 1)%Q risk category
    None None None None None None None "DemoRandomModel"%string (9 # 10)%Q.

(** Further sample data: alerts, a session without dangling references,
    stand-ins for the library functions of the spread handler, and request
    logs. *)

Definition alert_a : Alert.t :=
  Alert.mk 1 1 (Some 1) 50 (85 # 100)%Q "Pine Ridge at risk"%string
    false false false.

Definition alert_b : Alert.t :=
  Alert.mk 2 2 (Some 3) 60 (1 # 2)%Q "Cedar Pines at risk"%string
    false false false.

Definition linked_db : Session :=
  mkSession [zone_pine; zone_oak; zone_cedar]
            [incident_a; incident_c]
            [region_a; region_b; region_c]
            [alert_a; alert_b].

Definition flat_radians (x : float) : float := (x * (314159 # 18000000))%Q.
Definition flat_cos (_ : float) : float := 1%Q.
Definition flat_sin (_ : float) : float := 0%Q.
Definition micro_isoformat (t : datetime) : string := str_of_int t.
Definition no_jitter (_ : Z) : float * float := (0%Q, 0%Q).

Definition windy_zone : FireRiskZone.t :=
  FireRiskZone.mk 7 "Windy Gap" (36 # 1)%Q (-121 # 1)%Q (97 # 100)%Q "High"
    3000 None None (Some (20 # 1)%Q) None None None None
    "DemoRandomModel"%string (9 # 10)%Q.

Definition calm_zone : FireRiskZone.t :=
  FireRiskZone.mk 8 "Calm Basin" (37 # 1)%Q (-122 # 1)%Q (1 # 2)%Q "Medium"
    3000 None None (Some 0%Q) None None None None
    "DemoRandomModel"%string (9 # 10)%Q.

Definition spread_db : Session :=
  mkSession [windy_zone; calm_zone] [] [] [].

Definition sample_incident_in (zone : Z) : FireIncidentBase.t :=
  FireIncidentBase.mk zone (34 # 1)%Q (-118 # 1)%Q 400 None "High" None
    "Active" "Official" None.

Definition contain_incident : FireIncidentUpdate.t :=
  FireIncidentUpdate.mk None None None None (Some (Some 500)) None None
    (Some "Contained"%string) None None.

Definition move_incident (zone : Z) : FireIncidentUpdate.t :=
  FireIncidentUpdate.mk (Some (Some zone)) None None None None None None
    None None None.

Definition read_it : AlertUpdate.t := AlertUpdate.mk (Some true) None None.

Definition bob_region : SavedRegionBase.t :=
  SavedRegionBase.mk 2 "Lake" (41 # 1)%Q (-121 # 1)%Q (Some (1 # 2)%Q).

(** Requests of every kind, by a plain user, a superuser and a second plain
    user. *)
Definition mixed_log : list (datetime * User.t * request) :=
  [ (6000000000, alice, PredictZone (35 # 1)%Q (-119 # 1)%Q None sample_draws);
    (6000000100, root, CreateZone (sample_attrs (85 # 100) "High"));
    (6000000200, root, UpdateZone 2 [set_risk_level (45 # 100)%Q;
                                     set_risk_category "Medium"]);
    (6000000300, root, CreateIncident (sample_incident_in 3));
    (6000000400, root, UpdateIncident 1 (move_incident 2));
    (6000000500, root, DeleteZone 3);
    (6000000600, root, DeleteIncident 1);
    (6000000700, bob, CreateSavedRegion bob_region);
    (6000000800, alice, DeleteSavedRegion 3);
    (6000000900, alice, UpdateAlert 1 read_it);
    (6000001000, bob, MarkAllAlertsRead);
    (6000001100, bob, DeleteAlert 2) ].

(** Requests of a plain user who is not Alice, aimed at what Alice owns. *)
Definition bob_log : list (datetime * User.t * request) :=
  [ (6000000000, bob, DeleteSavedRegion 1);
    (6000000100, bob, CreateSavedRegion bob_region);
    (6000000200, bob, UpdateAlert 1 read_it);
    (6000000300, bob, DeleteAlert 1);
    (6000000400, bob, MarkAllAlertsRead);
    (6000000500, bob, DeleteZone 1);
    (6000000600, bob, UpdateIncident 1 contain_incident);
    (6000000700, bob, PredictZone (35 # 1)%Q (-119 # 1)%Q None sample_draws) ].

(** The same with a superuser taking part. *)
Definition bob_root_log : list (datetime * User.t * request) :=
  bob_log
  ++ [ (6000000800, root, UpdateAlert 1 read_it);
       (6000000900, root, DeleteAlert 1);
       (6000001000, root, MarkAllAlertsRead);
       (6000001100, root, DeleteZone 1) ].

(** The zone the first prediction for (35, -119) stores in the sample
    session. *)
Definition predicted_zone : FireRiskZone.t :=
  zone_row 4 6000000000
    (FireRiskZoneBase.mk "Region near 35.00, -119.00" (35 # 1)%Q (-119 # 1)%Q
       (9 # 10)%Q "High" (Some (25 # 1)%Q) (Some (40 # 1)%Q)
       (Some (10 # 1)%Q) (Some 0%Q) (Some (1 # 2)%Q)
       (Some "Shrubland"%string) (Some (3 # 10)%Q)
       "DemoRandomModel"%string (8 # 10)%Q).

Definition incident_no_area : FireIncident.t :=
  FireIncident.mk 9 (Some 1) (34 # 1)%Q (-118 # 1)%Q 100 None "Low"
    (Some 0%Q) "Active" "Official" None.

(** ** Facts about the query combinators *)

Section QueryFacts.
Context {A : Type}.
Variable geb : A -> A -> bool.

Lemma insert_desc_perm (x : A) (rows : list A) :
  Permutation (insert_desc geb x rows) (x :: rows).
Proof.
  induction rows as [|y rest IH]; simpl.
  - apply Permutation_refl.
  - destruct (geb x y).
    + apply Permutation_refl.
    + eapply perm_trans; [apply perm_skip, IH | apply perm_swap].
Qed.

Lemma order_by_desc_perm (rows : list A) :
  Permutation (order_by_desc geb rows) rows.
Proof.
  induction rows as [|x rest IH]; simpl.
  - constructor.
  - eapply perm_trans; [apply insert_desc_perm | apply perm_skip, IH].
Qed.

Lemma order_by_desc_In (rows : list A) (x : A) :
  In x (order_by_desc geb rows) <-> In x rows.
Proof.
  split; apply Permutation_in;
    [ | apply Permutation_sym ]; apply order_by_desc_perm.
Qed.

Hypothesis geb_total : forall x y, geb x y = false -> geb y x = true.
Hypothesis geb_trans :
  forall x y z, geb x y = true -> geb y z = true -> geb x z = true.

Let ge (x y : A) : Prop := geb x y = true.

Lemma insert_desc_sorted (x : A) (rows : list A) :
  StronglySorted ge rows -> StronglySorted ge (insert_desc geb x rows).
Proof.
  induction rows as [|y rest IH]; simpl; intros Hs.
  - repeat constructor.
  - inversion Hs as [|? ? Hrest Hall]; subst.
    destruct (geb x y) eqn:Exy.
    + constructor; [exact Hs|].
      constructor; [exact Exy|].
      eapply Forall_impl; [|exact Hall].
      intros z Hyz. exact (geb_trans x y z Exy Hyz).
    + constructor; [apply IH; exact Hrest|].
      eapply Permutation_Forall;
        [apply Permutation_sym, insert_desc_perm|].
      constructor; [exact (geb_total _ _ Exy) | exact Hall].
Qed.

Lemma order_by_desc_sorted (rows : list A) :
  StronglySorted ge (order_by_desc geb rows).
Proof.
  induction rows as [|x rest IH]; simpl.
  - constructor.
  - apply insert_desc_sorted, IH.
Qed.

(** The head of a descending ordering dominates every row. *)
Lemma first_order_by_desc_max (rows : list A) (x : A) :
  first (order_by_desc geb rows) = Some x ->
  In x rows /\ forall y, In y rows -> ge x y \/ y = x.
Proof.
  intros Hf. pose proof (order_by_desc_sorted rows) as Hs.
  unfold first in Hf.
  destruct (order_by_desc geb rows) as [|h t] eqn:E; [discriminate|].
  simpl in Hf. injection Hf as ->.
  split.
  - apply order_by_desc_In. rewrite E. now left.
  - intros y Hy. apply order_by_desc_In in Hy. rewrite E in Hy.
    destruct Hy as [->|Hy]; [now right|].
    left. inversion Hs as [|? ? _ Hall]; subst.
    rewrite Forall_forall in Hall. now apply Hall.
Qed.

End QueryFacts.

Lemma StronglySorted_weaken {A : Type} (R S : A -> A -> Prop)
  (l : list A) :
  (forall x y, R x y -> S x y) -> StronglySorted R l -> StronglySorted S l.
Proof.
  intros HRS Hs. induction Hs as [|x l _ IH Hall]; constructor.
  - exact IH.
  - eapply Forall_impl; [|exact Hall]. intros y. apply HRS.
Qed.

Lemma first_None_iff {A : Type} (rows : list A) :
  first rows = None <-> rows = [].
Proof. destruct rows; simpl; split; congruence. Qed.

Lemma first_order_by_desc_None {A : Type} (geb : A -> A -> bool)
  (rows : list A) :
  first (order_by_desc geb rows) = None <-> rows = [].
Proof.
  rewrite first_None_iff. split; intros H.
  - pose proof (order_by_desc_perm geb rows) as P. rewrite H in P.
    now apply Permutation_nil in P.
  - now subst.
Qed.

Lemma limit_offset_is_page {A : Type} (skip lim : Z) (rows : list A) :
  is_page skip lim rows (limit lim (offset skip rows)).
Proof.
  unfold is_page, limit, offset.
  set (k := Z.to_nat skip).
  destruct (lim <? 0) eqn:El.
  - exists (firstn k rows), [].
    rewrite app_nil_r, firstn_skipn, length_firstn.
    repeat split; auto. intros; lia.
  - exists (firstn k rows), (skipn (Z.to_nat lim) (skipn k rows)).
    rewrite firstn_skipn, firstn_skipn, length_firstn.
    repeat split; auto.
    + intros _. rewrite length_firstn, length_skipn. lia.
    + intros; lia.
Qed.

(** ** Comparisons *)

Lemma Qltb_true (x y : Q) : Qltb x y = true <-> (x < y)%Q.
Proof.
  unfold Qltb. rewrite negb_true_iff. split; intros H.
  - apply Qnot_le_lt. intros Hle. apply Qle_bool_iff in Hle. congruence.
  - destruct (Qle_bool y x) eqn:E; [|reflexivity].
    apply Qle_bool_iff in E. exfalso. exact (Qlt_not_le _ _ H E).
Qed.

Lemma Qltb_false (x y : Q) : Qltb x y = false <-> (y <= x)%Q.
Proof.
  unfold Qltb. rewrite negb_false_iff. apply Qle_bool_iff.
Qed.


Lemma between_iff (lo hi x : Q) :
  between lo hi x = true <-> (lo <= x)%Q /\ (x <= hi)%Q.
Proof.
  unfold between. rewrite andb_true_iff, !Qle_bool_iff. reflexivity.
Qed.

Lemma in_box_iff (lat lon tol : Q) (z : FireRiskZone.t) :
  in_box lat lon tol z = true <-> box_contains lat lon tol z.
Proof.
  unfold in_box, box_contains.
  rewrite andb_true_iff, !between_iff. tauto.
Qed.

(** The box is symmetric: the zone lies in the box around the point exactly
    when the point lies in the box around the zone. *)
Lemma box_contains_sym (lat lon tol : Q) (z : FireRiskZone.t) :
  box_contains lat lon tol z <-> zone_box_contains z lat lon tol.
Proof.
  unfold box_contains, zone_box_contains.
  split; intros (H1 & H2 & H3 & H4); repeat split; lra.
Qed.

Lemma str_in_iff (v : string) (valid : list string) :
  str_in v valid = true <-> In v valid.
Proof.
  unfold str_in. rewrite existsb_exists. split.
  - intros (x & Hx & E). apply String.eqb_eq in E. now subst.
  - intros H. exists v. split; [exact H | apply String.eqb_refl].
Qed.

Lemma timestamp_geb_total (a b : FireRiskZone.t) :
  timestamp_geb a b = false -> timestamp_geb b a = true.
Proof. unfold timestamp_geb. rewrite Z.leb_gt, Z.leb_le. lia. Qed.

Lemma timestamp_geb_trans (a b c : FireRiskZone.t) :
  timestamp_geb a b = true -> timestamp_geb b c = true ->
  timestamp_geb a c = true.
Proof. unfold timestamp_geb. rewrite !Z.leb_le. lia. Qed.





(** ** The alert test *)

(** For a threshold other than zero the test is the comparison. *)
Lemma should_alert_nonzero (t r : Q) :
  ~ (t == 0)%Q -> (should_alert (Some t) r = true <-> (t <= r)%Q).
Proof.
  intros Hnz. unfold should_alert, truthy_float.
  destruct (Qeq_bool t 0) eqn:E.
  - apply Qeq_bool_iff in E. contradiction.
  - simpl. apply Qle_bool_iff.
Qed.

(** With the threshold 0 the handler stores the new zone and no alert. *)
Lemma predict_new_zone_zero_threshold (format_2f : float -> string)
  (db : Session) (latitude longitude : float)
  (request_region_name : option string) (current_user : User.t)
  (now : datetime) (d : Draws) :
  User.alert_threshold current_user = Some 0%Q ->
  alerts (snd (predict_new_zone format_2f db latitude longitude
                 request_region_name current_user now d))
  = alerts db.
Proof.
  intros Ht. unfold predict_new_zone. cbv zeta. rewrite Ht.
  now destruct (FireRiskZoneCreate _).
Qed.

(** C1: the alert test of the prediction handler against the comparison
    [risk_level >= threshold]. At the threshold 0 the test is false for
    every risk level, although the comparison holds for each risk level of
    the range; at every other threshold the test is the comparison, equality
    included. *)
Theorem should_alert_zero_threshold (r : Q) :
  should_alert (Some 0%Q) r = false
  /\ forall t, ~ (t == 0)%Q ->
                (should_alert (Some t) r = true <-> (t <= r)%Q).
Proof.
  split.
  - reflexivity.
  - intros t Ht. now apply should_alert_nonzero.
Qed.

(** ** Lookup by coordinates *)

(** The zone returned is stored, lies in the box and is the most recent
    one there. *)
Lemma get_fire_risk_zone_by_coords_Some
  (db : Session) (lat lon tol : Q) (z : FireRiskZone.t) :
  get_fire_risk_zone_by_coords db lat lon tol = Some z ->
  In z (fire_risk_zones db)
  /\ box_contains lat lon tol z
  /\ forall z', In z' (fire_risk_zones db) ->
                box_contains lat lon tol z' ->
                FireRiskZone.timestamp z' <= FireRiskZone.timestamp z.
Proof.
  unfold get_fire_risk_zone_by_coords. intros Hz.
  apply (first_order_by_desc_max timestamp_geb
           timestamp_geb_total timestamp_geb_trans) in Hz.
  destruct Hz as [Hin Hmax].
  apply filter_In in Hin. destruct Hin as [Hin Hbox].
  split; [exact Hin|]. split; [now apply in_box_iff|].
  intros z' Hin' Hbox'.
  destruct (Hmax z') as [Hge | ->].
  - apply filter_In. split; [exact Hin' | now apply in_box_iff].
  - unfold timestamp_geb in Hge. now apply Z.leb_le.
  - lia.
Qed.

(** A stored zone in the box makes the lookup succeed. *)
Lemma get_fire_risk_zone_by_coords_hit
  (db : Session) (lat lon tol : Q) (z : FireRiskZone.t) :
  In z (fire_risk_zones db) -> box_contains lat lon tol z ->
  exists w, get_fire_risk_zone_by_coords db lat lon tol = Some w.
Proof.
  intros Hin Hbox. unfold get_fire_risk_zone_by_coords.
  destruct (first _) as [w|] eqn:E; [now exists w|].
  apply first_order_by_desc_None in E.
  assert (Hc : In z (filter (in_box lat lon tol) (fire_risk_zones db))).
  { apply filter_In. split; [exact Hin | now apply in_box_iff]. }
  rewrite E in Hc. destruct Hc.
Qed.


(** ** Zone creation *)





Lemma FireRiskZoneCreate_Ok_inv (attrs v : FireRiskZoneBase.t) :
  FireRiskZoneCreate attrs = Ok v -> v = attrs.
Proof.
  unfold FireRiskZoneCreate.
  destruct (error_of _ ++ error_of _); congruence.
Qed.



(** ** Listing zones *)

Lemma filter_andb {A : Type} (f g : A -> bool) (l : list A) :
  filter g (filter f l) = filter (fun x => f x && g x) l.
Proof.
  induction l as [|x l IH]; simpl; [reflexivity|].
  destruct (f x); simpl; [destruct (g x)|]; now rewrite IH.
Qed.

Lemma filter_all {A : Type} (l : list A) : filter (fun _ => true) l = l.
Proof. induction l as [|x l IH]; simpl; congruence. Qed.

(** An optional filter on a number or a date. *)
Lemma filter_opt {A B : Type} (o : option B) (p : B -> A -> bool)
  (q : list A) :
  match o with
  | Some m => filter (p m) q
  | None => q
  end
  = filter (fun x => match o with Some m => p m x | None => true end) q.
Proof. destruct o; [reflexivity | now rewrite filter_all]. Qed.

(** An optional filter on a string, applied when the string is truthy. *)
Lemma filter_opt_str {A : Type} (o : option string)
  (p : string -> A -> bool) (q : list A) :
  match o with
  | Some s => if truthy_str s then filter (p s) q else q
  | None => q
  end
  = filter (fun x => match given_str o with
                     | Some s => p s x
                     | None => true
                     end) q.
Proof.
  destruct o as [s|]; simpl; [|now rewrite filter_all].
  unfold truthy_str. destruct (String.eqb s ""); simpl;
    [now rewrite filter_all | reflexivity].
Qed.

Lemma get_fire_risk_zones_unfold (ilike : string -> string -> bool)
  (db : Session) (skip lim : Z) (min_risk_level max_risk_level : option float)
  (region_name risk_category : option string) :
  get_fire_risk_zones ilike db skip lim min_risk_level max_risk_level
    region_name risk_category
  = limit lim
      (offset skip
         (order_by_desc risk_level_geb
            (filter (zone_passes ilike min_risk_level max_risk_level
                       region_name risk_category)
                    (fire_risk_zones db)))).
Proof.
  unfold get_fire_risk_zones. cbv zeta.
  rewrite (filter_opt min_risk_level
             (fun m z => Qle_bool m (FireRiskZone.risk_level z))).
  rewrite (filter_opt max_risk_level
             (fun m z => Qle_bool (FireRiskZone.risk_level z) m)).
  rewrite (filter_opt_str region_name
             (fun s z => ilike (FireRiskZone.region_name z) (like_pattern s))).
  rewrite (filter_opt_str risk_category
             (fun c z => String.eqb (FireRiskZone.risk_category z) c)).
  rewrite !filter_andb. do 3 f_equal. apply filter_ext.
  intros z. unfold zone_passes, like_pattern. now rewrite !andb_assoc.
Qed.


(** ** Listing incidents *)





Lemma get_fire_incidents_unfold (ilike : string -> string -> bool)
  (db : Session) (skip lim : Z) (region_name : option string)
  (start_date_from start_date_to : option datetime)
  (status severity : option string) :
  get_fire_incidents ilike db skip lim region_name start_date_from
    start_date_to status severity
  = limit lim
      (offset skip
         (order_by_desc start_date_geb
            (incident_query ilike db region_name start_date_from
               start_date_to status severity))).
Proof.
  unfold get_fire_incidents, incident_query. cbv zeta.
  rewrite (filter_opt start_date_from
             (fun d i => d <=? FireIncident.start_date i)).
  rewrite (filter_opt start_date_to
             (fun d i => FireIncident.start_date i <=? d)).
  rewrite (filter_opt_str status
             (fun s i => String.eqb (FireIncident.status i) s)).
  rewrite (filter_opt_str severity
             (fun s i => String.eqb (FireIncident.severity i) s)).
  rewrite !filter_andb. do 3 f_equal.
  assert (Hq : match region_name with
               | Some s =>
                   if truthy_str s
                   then join_region ilike (fire_risk_zones db) s
                          (fire_incidents db)
                   else fire_incidents db
               | None => fire_incidents db
               end
               = match given_str region_name with
                 | Some s =>
                     join_region ilike (fire_risk_zones db) s
                       (fire_incidents db)
                 | None => fire_incidents db
                 end).
  { destruct region_name as [s|]; simpl; [|reflexivity].
    unfold truthy_str. now destruct (String.eqb s ""). }
  rewrite Hq. apply filter_ext.
  intros i. unfold incident_passes. simpl. now rewrite !andb_assoc.
Qed.




(** ** Deleting zones and saved regions *)

Lemma first_filter_Some {A : Type} (p : A -> bool) (l : list A) (x : A) :
  first (filter p l) = Some x -> In x l /\ p x = true.
Proof.
  intros H. apply filter_In. unfold first in H.
  destruct (filter p l) as [|h t]; [discriminate|].
  simpl in H. injection H as ->. now left.
Qed.

Lemma first_filter_None {A : Type} (p : A -> bool) (l : list A) :
  first (filter p l) = None <-> forall x, In x l -> p x = false.
Proof.
  rewrite first_None_iff. split.
  - intros H x Hx. destruct (p x) eqn:E; [|reflexivity].
    assert (Hin : In x (filter p l)) by (apply filter_In; now split).
    rewrite H in Hin. destruct Hin.
  - intros H. induction l as [|x l IH]; simpl; [reflexivity|].
    rewrite (H x (or_introl eq_refl)). apply IH.
    intros y Hy. apply H. now right.
Qed.

Lemma get_fire_risk_zone_absent (db : Session) (zone_id : Z) :
  ~ In zone_id (map FireRiskZone.id (fire_risk_zones db)) ->
  get_fire_risk_zone db zone_id = None.
Proof.
  intros H. apply first_filter_None. intros z Hz.
  apply Z.eqb_neq. intros E. apply H. apply in_map_iff. now exists z.
Qed.

Lemma get_saved_region_absent (db : Session) (region_id : Z) :
  ~ In region_id (map SavedRegion.id (saved_regions db)) ->
  get_saved_region db region_id = None.
Proof.
  intros H. apply first_filter_None. intros r Hr.
  apply Z.eqb_neq. intros E. apply H. apply in_map_iff. now exists r.
Qed.

Lemma get_saved_region_Some (db : Session) (region_id : Z)
  (region : SavedRegion.t) :
  get_saved_region db region_id = Some region ->
  In region (saved_regions db) /\ SavedRegion.id region = region_id.
Proof.
  intros H. apply first_filter_Some in H. destruct H as [Hin E].
  split; [exact Hin | now apply Z.eqb_eq].
Qed.

(** C6: for a stored saved region, the delete handler answers a requester
    who is neither the owner nor a superuser with the 403 error and leaves
    the session as it was; for the owner or a superuser it reports success,
    removes the rows with that key and nothing else, and the region can no
    longer be looked up. *)
Theorem endpoint_delete_saved_region_authz
  (db : Session) (region_id : Z) (region : SavedRegion.t)
  (current_user : User.t) :
  get_saved_region db region_id = Some region ->
  (SavedRegion.user_id region <> User.id current_user
   /\ User.is_superuser current_user = false ->
   exists e,
     endpoint_delete_saved_region db region_id current_user = (Err e, db)
     /\ status_code e = 403
     /\ In region (saved_regions db))
  /\ (SavedRegion.user_id region = User.id current_user
      \/ User.is_superuser current_user = true ->
      exists m db',
        endpoint_delete_saved_region db region_id current_user = (Ok m, db')
        /\ get_saved_region db' region_id = None
        /\ saved_regions db'
           = filter (fun r => negb (SavedRegion.id r =? region_id))
                    (saved_regions db)
        /\ fire_risk_zones db' = fire_risk_zones db
        /\ fire_incidents db' = fire_incidents db
        /\ alerts db' = alerts db).
Proof.
  intros Hget. destruct (get_saved_region_Some _ _ _ Hget) as [Hin Hid].
  unfold endpoint_delete_saved_region. rewrite Hget. split.
  - intros [Hne Hsu]. apply Z.eqb_neq in Hne. rewrite Hne, Hsu. simpl.
    eexists. repeat split. exact Hin.
  - intros Hok.
    assert (E : negb (SavedRegion.user_id region =? User.id current_user)
                && negb (User.is_superuser current_user) = false).
    { destruct Hok as [He | Hs].
      - apply Z.eqb_eq in He. now rewrite He.
      - rewrite Hs. apply andb_false_r. }
    rewrite E. unfold delete_saved_region. rewrite Hget, Hid. simpl.
    eexists. eexists. split; [reflexivity|]. simpl.
    repeat split.
    apply first_filter_None. intros r Hr. apply filter_In in Hr.
    destruct Hr as [_ Hr]. now apply negb_true_iff in Hr.
Qed.

(** C9: deleting a key that is not stored fails and changes nothing. The
    service functions return [false]; the zone handler answers with an error
    for every caller, the 404 one once the caller is admitted as superuser,
    and the region handler answers with the 404 error. *)
Theorem delete_absent_not_found (db : Session) (k : Z) :
  (~ In k (map FireRiskZone.id (fire_risk_zones db)) ->
   delete_fire_risk_zone db k = (false, db)
   /\ forall current_user,
        exists e,
          endpoint_delete_fire_risk_zone db k current_user = (Err e, db)
          /\ (User.is_superuser current_user = true -> status_code e = 404))
  /\ (~ In k (map SavedRegion.id (saved_regions db)) ->
      delete_saved_region db k = (false, db)
      /\ forall current_user,
           exists e,
             endpoint_delete_saved_region db k current_user = (Err e, db)
             /\ status_code e = 404).
Proof.
  split; intros H.
  - apply get_fire_risk_zone_absent in H. split.
    + unfold delete_fire_risk_zone. now rewrite H.
    + intros u. unfold endpoint_delete_fire_risk_zone,
        get_current_active_superuser.
      destruct (User.is_superuser u); simpl.
      * rewrite H. eexists. split; [reflexivity|]. reflexivity.
      * eexists. split; [reflexivity|]. discriminate.
  - apply get_saved_region_absent in H. split.
    + unfold delete_saved_region. now rewrite H.
    + intros u. unfold endpoint_delete_saved_region. rewrite H.
      eexists. split; reflexivity.
Qed.

(** ** Saved regions of a user *)


(** ** The prediction handler *)


(** ** Alerts *)

Lemma orphan_alert_key_flags (k : Z) (a : Alert.t) :
  key_flags (orphan_alert k a) = key_flags a.
Proof.
  unfold orphan_alert. now destruct (opt_Z_eqb (Alert.risk_zone_id a) k).
Qed.

Lemma predict_new_zone_alerts (format_2f : float -> string) (db : Session)
  (latitude longitude : float) (request_region_name : option string)
  (current_user : User.t) (now : datetime) (d : Draws) :
  exists new,
    map key_flags
      (alerts (snd (predict_new_zone format_2f db latitude longitude
                      request_region_name current_user now d)))
    = map key_flags (alerts db) ++ new
    /\ Forall unread_unsent new.
Proof.
  unfold predict_new_zone. cbv zeta.
  destruct (FireRiskZoneCreate _) as [v|e]; simpl.
  - destruct (should_alert _ _); simpl.
    + rewrite map_app. simpl. eexists. split; [reflexivity|].
      repeat constructor.
    + exists []. rewrite app_nil_r. split; [reflexivity | constructor].
  - exists []. rewrite app_nil_r. split; [reflexivity | constructor].
Qed.

(** One operation of the core keeps the key and the flags of every stored
    alert and adds only unread, unsent alerts. *)
Lemma run_op_alerts (format_2f : float -> string) (now : datetime)
  (op : core_op) (db : Session) :
  exists new,
    map key_flags (alerts (run_op format_2f now op db))
    = map key_flags (alerts db) ++ new
    /\ Forall unread_unsent new.
Proof.
  assert (Hsame : forall db', alerts db' = alerts db ->
            exists new,
              map key_flags (alerts db') = map key_flags (alerts db) ++ new
              /\ Forall unread_unsent new).
  { intros db' ->. exists []. rewrite app_nil_r.
    split; [reflexivity | constructor]. }
  destruct op; simpl.
  - apply Hsame. unfold create_zone.
    now destruct (FireRiskZoneCreate attrs).
  - apply Hsame. unfold update_fire_risk_zone.
    now destruct (get_fire_risk_zone db zone_id).
  - unfold delete_fire_risk_zone.
    destruct (get_fire_risk_zone db zone_id); simpl.
    + exists []. rewrite app_nil_r, map_map.
      split; [|constructor]. apply map_ext. intros a.
      apply orphan_alert_key_flags.
    + now apply Hsame.
  - apply Hsame. unfold create_incident.
    now destruct (FireIncidentCreate attrs).
  - apply Hsame. unfold save_region.
    now destruct (SavedRegionCreate attrs).
  - apply Hsame. unfold delete_saved_region.
    now destruct (get_saved_region db region_id).
  - unfold predict_fire_risk_zone.
    destruct (get_fire_risk_zone_by_coords _ _ _ _) as [w|].
    + destruct (_ <? _).
      * now apply Hsame.
      * apply predict_new_zone_alerts.
    + apply predict_new_zone_alerts.
  - rewrite map_app. simpl. eexists. split; [reflexivity|].
    repeat constructor.
Qed.

(** C8: [create_alert_for_user] appends to the alert table a record that
    carries the given user, zone, risk level and message with the three
    flags false; and no run of the core's operations changes the flags of a
    stored alert: after the run the table shows the keys and flags it had
    before, followed by alerts whose three flags are false. *)
Theorem create_alert_for_user_spec (format_2f : float -> string)
  (db : Session) (user_id risk_zone_id : Z) (risk_level : Q)
  (message : string) (now : datetime) (ops : list (datetime * core_op)) :
  (exists alert,
     create_alert_for_user db user_id risk_zone_id risk_level message now
     = (alert,
        mkSession (fire_risk_zones db) (fire_incidents db) (saved_regions db)
                  (alerts db ++ [alert]))
     /\ Alert.user_id alert = user_id
     /\ Alert.risk_zone_id alert = Some risk_zone_id
     /\ Alert.risk_level alert = risk_level
     /\ Alert.message alert = message
     /\ Alert.is_read alert = false
     /\ Alert.is_sent_email alert = false
     /\ Alert.is_sent_sms alert = false)
  /\ (exists new,
        map key_flags (alerts (run_ops format_2f ops db))
        = map key_flags (alerts db) ++ new
        /\ Forall unread_unsent new).
Proof.
  split.
  - eexists. split; [reflexivity|]. simpl. repeat split.
  - clear. revert db. induction ops as [|[now op] rest IH]; intros db; simpl.
    + exists []. rewrite app_nil_r. split; [reflexivity | constructor].
    + destruct (IH (run_op format_2f now op db)) as (new2 & E2 & F2).
      destruct (run_op_alerts format_2f now op db) as (new1 & E1 & F1).
      exists (new1 ++ new2). rewrite E2, E1, app_assoc.
      split; [reflexivity|]. apply Forall_app. now split.
Qed.

(** ** Examples on the sample data *)

Example format_2f_exact_sample :
  format_2f_exact (3405 # 100) = "34.05"%string
  /\ format_2f_exact (-118245 # 1000) = "-118.24"%string
  /\ format_2f_exact (9 # 10) = "0.90"%string.
Proof. repeat split. Qed.

Example sqlite_ilike_sample :
  sqlite_ilike "Pine Ridge" "%pine%" = true
  /\ sqlite_ilike "Oak Valley" "%pine%" = false
  /\ sqlite_ilike "Cedar Pines" "%PINE%" = true.
Proof. repeat split. Qed.

(** A user whose threshold is 0 gets no alert for a zone of risk 0.9, while
    a user whose threshold is 0.7 gets one for the same draws. *)
Example predict_zero_threshold_no_alert :
  alerts (snd (predict_fire_risk_zone format_2f_exact sample_db (35 # 1)
                 (-119 # 1) None bob 6000000000 sample_draws)) = []
  /\ map Alert.message
       (alerts (snd (predict_fire_risk_zone format_2f_exact sample_db
                       (35 # 1) (-119 # 1) None alice 6000000000
                       sample_draws)))
     = [("High fire risk detected in Region near 35.00, -119.00. "
         ++ "Risk level: 0.90")%string].
Proof. split; reflexivity. Qed.

(** A zone created with risk level 0.85 and category High is listed under
    [min_risk_level = 0.8] and found at its own coordinates. *)
Example create_then_list_and_find :
  exists z db',
    create_zone sample_db (sample_attrs (85 # 100) "High") 7000 = (Ok z, db')
    /\ In z (get_fire_risk_zones sqlite_ilike db' 0 100 (Some (8 # 10)%Q)
               None None None)
    /\ get_fire_risk_zone_by_coords db' (35 # 1) (-119 # 1) default_tolerance
       = Some z.
Proof.
  eexists. eexists. split; [reflexivity|]. split.
  - vm_compute. right. left. reflexivity.
  - reflexivity.
Qed.

(** An empty string passed as a filter is not applied, and an incident
    whose zone is missing is listed unless a region name is given. *)
Example empty_string_filters :
  map FireRiskZone.id
    (get_fire_risk_zones sqlite_ilike sample_db 0 100 None None None
       (Some ""%string)) = [1; 3; 2]
  /\ map FireIncident.id
       (get_fire_incidents sqlite_ilike sample_db 0 100 (Some ""%string)
          None None None None) = [2; 3; 1]
  /\ map FireIncident.id
       (get_fire_incidents sqlite_ilike sample_db 0 100 (Some "pine"%string)
          None None None None) = [3; 1].
Proof. repeat split. Qed.

(** ** The theorems at work on the sample data *)

Lemma should_alert_zero_threshold_witness :
  should_alert (Some 0%Q) (7 # 10) = false
  /\ should_alert (Some (7 # 10)%Q) (7 # 10) = true.
Proof.
  split.
  - exact (proj1 (should_alert_zero_threshold (7 # 10))).
  - apply (proj2 (should_alert_zero_threshold (7 # 10)) (7 # 10)%Q).
    + discriminate.
    + discriminate.
Defined.




Lemma endpoint_delete_saved_region_authz_witness :
  (exists e,
      endpoint_delete_saved_region sample_db 1 bob = (Err e, sample_db)
      /\ status_code e = 403
      /\ In region_a (saved_regions sample_db))
  /\ (exists m db',
         endpoint_delete_saved_region sample_db 1 alice = (Ok m, db')
         /\ get_saved_region db' 1 = None
         /\ saved_regions db'
            = filter (fun r => negb (SavedRegion.id r =? 1))
                     (saved_regions sample_db)
         /\ fire_risk_zones db' = fire_risk_zones sample_db
         /\ fire_incidents db' = fire_incidents sample_db
         /\ alerts db' = alerts sample_db).
Proof.
  split.
  - apply (proj1 (endpoint_delete_saved_region_authz sample_db 1 region_a
                    bob eq_refl)).
    split; [discriminate | reflexivity].
  - apply (proj2 (endpoint_delete_saved_region_authz sample_db 1 region_a
                    alice eq_refl)).
    left. reflexivity.
Defined.


Lemma delete_absent_not_found_witness :
  (delete_fire_risk_zone sample_db 42 = (false, sample_db)
   /\ forall current_user,
        exists e,
          endpoint_delete_fire_risk_zone sample_db 42 current_user
          = (Err e, sample_db)
          /\ (User.is_superuser current_user = true -> status_code e = 404))
  /\ (delete_saved_region sample_db 42 = (false, sample_db)
      /\ forall current_user,
           exists e,
             endpoint_delete_saved_region sample_db 42 current_user
             = (Err e, sample_db)
             /\ status_code e = 404).
Proof.
  split.
  - apply (proj1 (delete_absent_not_found sample_db 42)).
    simpl. intros [H | [H | [H | H]]]; try discriminate H. exact H.
  - apply (proj2 (delete_absent_not_found sample_db 42)).
    simpl. intros [H | [H | [H | H]]]; try discriminate H. exact H.
Defined.

(** ** Keys and lookups *)

Lemma next_id_gt (ids : list Z) (k : Z) : In k ids -> k < next_id ids.
Proof.
  unfold next_id. induction ids as [|j ids IH]; cbn [fold_right In];
    [tauto|].
  intros [-> | H]; [lia|]. specialize (IH H). lia.
Qed.

Lemma next_id_fresh (ids : list Z) : ~ In (next_id ids) ids.
Proof. intros H. apply next_id_gt in H. lia. Qed.

Lemma NoDup_map_filter {A : Type} (key : A -> Z) (p : A -> bool)
  (l : list A) :
  NoDup (map key l) -> NoDup (map key (filter p l)).
Proof.
  induction l as [|x l IH]; simpl; intros H; [constructor|].
  inversion H as [|? ? Hx Hl]; subst.
  destruct (p x); simpl; [|now apply IH].
  constructor; [|now apply IH].
  intros Hin. apply Hx. apply in_map_iff in Hin.
  destruct Hin as (y & Ey & Hy). apply filter_In in Hy.
  apply in_map_iff. exists y. tauto.
Qed.

Lemma NoDup_map_snoc {A : Type} (key : A -> Z) (l : list A) (x : A) :
  NoDup (map key l) -> ~ In (key x) (map key l) ->
  NoDup (map key (l ++ [x])).
Proof.
  intros Hl Hx. rewrite map_app. simpl.
  apply NoDup_app; [exact Hl | repeat constructor; tauto |].
  intros k Hk [<- | []]. exact (Hx Hk).
Qed.

Lemma map_key_preserved {A : Type} (key : A -> Z) (g : A -> A)
  (l : list A) :
  (forall x, key (g x) = key x) -> map key (map g l) = map key l.
Proof.
  intros H. rewrite map_map. apply map_ext. exact H.
Qed.

Lemma NoDup_key_inj {A : Type} (key : A -> Z) (l : list A) (x y : A) :
  NoDup (map key l) -> In x l -> In y l -> key x = key y -> x = y.
Proof.
  induction l as [|a l IH]; simpl; intros Hnd Hx Hy E; [tauto|].
  inversion Hnd as [|? ? Ha Hl]; subst.
  destruct Hx as [-> | Hx], Hy as [-> | Hy].
  - reflexivity.
  - exfalso. apply Ha. rewrite E. now apply in_map.
  - exfalso. apply Ha. rewrite <- E. now apply in_map.
  - now apply IH.
Qed.

(** The rows of a key in a table where the rows of key [k] are replaced by
    [y], itself of key [k]. *)
Lemma filter_key_replace {A : Type} (key : A -> Z) (k k' : Z) (y : A)
  (l : list A) :
  key y = k ->
  filter (fun x => key x =? k')
         (map (fun x => if key x =? k then y else x) l)
  = if k =? k'
    then map (fun _ => y) (filter (fun x => key x =? k) l)
    else filter (fun x => key x =? k') l.
Proof.
  intros Ey. induction l as [|x l IH]; simpl.
  - now destruct (k =? k').
  - destruct (key x =? k) eqn:Exk.
    + apply Z.eqb_eq in Exk. rewrite Ey, IH.
      destruct (k =? k') eqn:Ekk; simpl.
      * reflexivity.
      * rewrite Exk, Ekk. reflexivity.
    + rewrite IH. destruct (k =? k') eqn:Ekk.
      * apply Z.eqb_eq in Ekk. subst k'. rewrite Exk. reflexivity.
      * reflexivity.
Qed.

Lemma first_map_const {A : Type} (y : A) (l : list A) :
  first (map (fun _ => y) l) = option_map (fun _ => y) (first l).
Proof. now destruct l. Qed.

Lemma filter_filter_neg_key {A : Type} (key : A -> Z) (k k' : Z)
  (l : list A) :
  filter (fun x => key x =? k') (filter (fun x => negb (key x =? k)) l)
  = if k =? k' then [] else filter (fun x => key x =? k') l.
Proof.
  induction l as [|x l IH]; simpl; [now destruct (k =? k')|].
  destruct (key x =? k) eqn:Exk; simpl.
  - rewrite IH. apply Z.eqb_eq in Exk. subst k.
    destruct (key x =? k'); reflexivity.
  - rewrite IH. destruct (k =? k') eqn:Ekk.
    + apply Z.eqb_eq in Ekk. subst k'. now rewrite Exk.
    + reflexivity.
Qed.

Lemma setattr_id (z : FireRiskZone.t) (f : zone_assignment) :
  FireRiskZone.id (setattr z f) = FireRiskZone.id z.
Proof. destruct z, f; reflexivity. Qed.


Lemma fold_setattr_id (l : list zone_assignment) (z : FireRiskZone.t) :
  FireRiskZone.id (fold_left setattr l z) = FireRiskZone.id z.
Proof.
  revert z. induction l as [|f l IH]; intros z; simpl; [reflexivity|].
  now rewrite IH, setattr_id.
Qed.


Lemma get_fire_risk_zone_Some (db : Session) (k : Z) (z : FireRiskZone.t) :
  get_fire_risk_zone db k = Some z ->
  In z (fire_risk_zones db) /\ FireRiskZone.id z = k.
Proof.
  intros H. apply first_filter_Some in H. destruct H as [Hin E].
  split; [exact Hin | now apply Z.eqb_eq].
Qed.

(** X1: the zone that [create_fire_risk_zone] returns gets a key no stored
    zone has, can be looked up under that key at once, and the lookup of
    every other key answers as before. *)
Theorem create_fire_risk_zone_then_get
  (db : Session) (fire_risk_in : FireRiskZoneBase.t) (now : datetime) :
  ~ In (FireRiskZone.id (fst (create_fire_risk_zone db fire_risk_in now)))
       (map FireRiskZone.id (fire_risk_zones db))
  /\ get_fire_risk_zone (snd (create_fire_risk_zone db fire_risk_in now))
       (FireRiskZone.id (fst (create_fire_risk_zone db fire_risk_in now)))
     = Some (fst (create_fire_risk_zone db fire_risk_in now))
  /\ forall k,
       k <> FireRiskZone.id (fst (create_fire_risk_zone db fire_risk_in now))
       -> get_fire_risk_zone
            (snd (create_fire_risk_zone db fire_risk_in now)) k
          = get_fire_risk_zone db k.
Proof.
  simpl. set (ids := map FireRiskZone.id (fire_risk_zones db)).
  split; [apply next_id_fresh|]. split.
  - unfold get_fire_risk_zone. simpl. rewrite filter_app. simpl.
    rewrite Z.eqb_refl.
    assert (E : filter (fun z => FireRiskZone.id z =? next_id ids)
                       (fire_risk_zones db) = []).
    { apply first_None_iff. apply first_filter_None. intros z Hz.
      apply Z.eqb_neq. intros E. apply (next_id_fresh ids).
      rewrite <- E. now apply in_map. }
    rewrite E. reflexivity.
  - intros k Hk. unfold get_fire_risk_zone. simpl. rewrite filter_app.
    simpl. apply Z.eqb_neq in Hk. rewrite Z.eqb_sym in Hk. rewrite Hk.
    now rewrite app_nil_r.
Qed.


Lemma orphan_incident_id (k : Z) (i : FireIncident.t) :
  FireIncident.id (orphan_incident k i) = FireIncident.id i.
Proof.
  unfold orphan_incident.
  now destruct (opt_Z_eqb (FireIncident.risk_zone_id i) k).
Qed.

Lemma orphan_incident_ref (k : Z) (i : FireIncident.t) :
  FireIncident.risk_zone_id (orphan_incident k i) <> Some k
  /\ (FireIncident.risk_zone_id i <> Some k -> orphan_incident k i = i)
  /\ (FireIncident.risk_zone_id (orphan_incident k i) = None
      \/ FireIncident.risk_zone_id (orphan_incident k i)
         = FireIncident.risk_zone_id i).
Proof.
  unfold orphan_incident.
  destruct (FireIncident.risk_zone_id i) as [j|] eqn:E; simpl.
  - destruct (j =? k) eqn:Ejk; simpl.
    + apply Z.eqb_eq in Ejk. subst j.
      repeat split; [discriminate | tauto | now left].
    + apply Z.eqb_neq in Ejk. rewrite E.
      repeat split; [congruence | now right].
  - rewrite E. repeat split; [discriminate | now right].
Qed.

Lemma orphan_alert_ref (k : Z) (a : Alert.t) :
  Alert.risk_zone_id (orphan_alert k a) <> Some k
  /\ (Alert.risk_zone_id a <> Some k -> orphan_alert k a = a)
  /\ (Alert.risk_zone_id (orphan_alert k a) = None
      \/ Alert.risk_zone_id (orphan_alert k a) = Alert.risk_zone_id a).
Proof.
  unfold orphan_alert.
  destruct (Alert.risk_zone_id a) as [j|] eqn:E; simpl.
  - destruct (j =? k) eqn:Ejk; simpl.
    + apply Z.eqb_eq in Ejk. subst j.
      repeat split; [discriminate | tauto | now left].
    + apply Z.eqb_neq in Ejk. rewrite E.
      repeat split; [congruence | now right].
  - rewrite E. repeat split; [discriminate | now right].
Qed.


(** ** Lookup by coordinates: edges *)


(** X5: widening the tolerance never loses a hit: when the lookup finds a
    zone with some tolerance, it finds one with every larger tolerance, and
    that one is at least as recent. *)
Theorem get_fire_risk_zone_by_coords_widen
  (db : Session) (latitude longitude tol tol' : Q) (z : FireRiskZone.t) :
  (tol <= tol')%Q ->
  get_fire_risk_zone_by_coords db latitude longitude tol = Some z ->
  exists z',
    get_fire_risk_zone_by_coords db latitude longitude tol' = Some z'
    /\ FireRiskZone.timestamp z <= FireRiskZone.timestamp z'.
Proof.
  intros Ht Hz. apply get_fire_risk_zone_by_coords_Some in Hz.
  destruct Hz as (Hin & (H1 & H2 & H3 & H4) & _).
  assert (Hbox : box_contains latitude longitude tol' z)
    by (unfold box_contains; repeat split; lra).
  destruct (get_fire_risk_zone_by_coords_hit db latitude longitude tol' z
              Hin Hbox) as [z' Hz'].
  exists z'. split; [exact Hz'|].
  apply get_fire_risk_zone_by_coords_Some in Hz'.
  destruct Hz' as (_ & _ & Hmax). now apply Hmax.
Qed.

(** X6: a zone created at a clock reading later than every stored timestamp
    is what the lookup by coordinates returns at the zone's own coordinates,
    for every tolerance that is not negative. *)
Theorem create_fire_risk_zone_then_find
  (db : Session) (fire_risk_in : FireRiskZoneBase.t) (now : datetime)
  (tolerance : Q) :
  (forall z, In z (fire_risk_zones db) -> FireRiskZone.timestamp z < now) ->
  (0 <= tolerance)%Q ->
  get_fire_risk_zone_by_coords
    (snd (create_fire_risk_zone db fire_risk_in now))
    (FireRiskZoneBase.latitude fire_risk_in)
    (FireRiskZoneBase.longitude fire_risk_in) tolerance
  = Some (fst (create_fire_risk_zone db fire_risk_in now)).
Proof.
  intros Hold Htol.
  set (z := fst (create_fire_risk_zone db fire_risk_in now)).
  set (db' := snd (create_fire_risk_zone db fire_risk_in now)).
  assert (Hin : In z (fire_risk_zones db')).
  { unfold db', z. simpl. apply in_or_app. right. now left. }
  assert (Hbox : box_contains (FireRiskZoneBase.latitude fire_risk_in)
                   (FireRiskZoneBase.longitude fire_risk_in) tolerance z).
  { unfold box_contains, z. simpl. repeat split; lra. }
  destruct (get_fire_risk_zone_by_coords_hit db' _ _ _ z Hin Hbox)
    as [w Hw].
  rewrite Hw. f_equal.
  apply get_fire_risk_zone_by_coords_Some in Hw.
  destruct Hw as (Hwin & _ & Hmax).
  specialize (Hmax z Hin Hbox).
  unfold db' in Hwin. simpl in Hwin. apply in_app_or in Hwin.
  destruct Hwin as [Hw | [Hw | []]].
  - specialize (Hold w Hw). unfold z in Hmax. simpl in Hmax. lia.
  - now subst w.
Qed.

(** ** Pages *)

Lemma firstn_tile {A : Type} (a b : nat) (l : list A) :
  firstn a l ++ firstn b (skipn a l) = firstn (a + b) l.
Proof.
  revert l. induction a as [|a IH]; intros l; simpl; [reflexivity|].
  destruct l as [|x l]; simpl.
  - now rewrite firstn_nil.
  - now rewrite IH.
Qed.

Lemma limit_offset_tile {A : Type} (skip a b : Z) (rows : list A) :
  0 <= skip -> 0 <= a -> 0 <= b ->
  limit a (offset skip rows) ++ limit b (offset (skip + a) rows)
  = limit (a + b) (offset skip rows).
Proof.
  intros Hs Ha Hb. unfold limit, offset.
  assert (Ea : (a <? 0) = false) by (apply Z.ltb_ge; lia).
  assert (Eb : (b <? 0) = false) by (apply Z.ltb_ge; lia).
  assert (Eab : (a + b <? 0) = false) by (apply Z.ltb_ge; lia).
  rewrite Ea, Eb, Eab, !Z2Nat.inj_add by lia.
  rewrite (Nat.add_comm (Z.to_nat skip)), <- skipn_skipn.
  apply firstn_tile.
Qed.

Lemma limit_offset_length {A : Type} (skip lim : Z) (rows : list A) :
  0 <= lim ->
  (List.length (limit lim (offset skip rows)) <= Z.to_nat lim)%nat.
Proof.
  intros Hl. unfold limit.
  assert (E : (lim <? 0) = false) by (apply Z.ltb_ge; lia).
  rewrite E. apply firstn_le_length.
Qed.

Lemma limit_offset_past_end {A : Type} (skip lim : Z) (rows : list A) :
  (List.length rows <= Z.to_nat skip)%nat ->
  limit lim (offset skip rows) = [].
Proof.
  intros H. unfold limit, offset. rewrite (skipn_all2 rows H).
  destruct (lim <? 0); [reflexivity | apply firstn_nil].
Qed.

Lemma limit_offset_nil {A : Type} (skip lim : Z) :
  limit lim (offset skip (@nil A)) = [].
Proof. apply limit_offset_past_end. simpl. lia. Qed.

(** X7: consecutive pages of a listing fit together: for an offset and two
    page sizes that are not negative, the page of size [a] at [skip]
    followed by the page of size [b] at [skip + a] is the page of size
    [a + b] at [skip]. This holds for the listings of zones, of incidents,
    of a user's saved regions and of a user's alerts, under any filters. *)
Theorem listing_pages_tile (ilike : string -> string -> bool)
  (db : Session) (skip a b : Z)
  (min_risk_level max_risk_level : option float)
  (region_name risk_category : option string)
  (start_date_from start_date_to : option datetime)
  (status severity : option string) (user_id : Z) (is_read : option bool)
  (current_user : User.t) :
  0 <= skip -> 0 <= a -> 0 <= b ->
  get_fire_risk_zones ilike db skip a min_risk_level max_risk_level
    region_name risk_category
  ++ get_fire_risk_zones ilike db (skip + a) b min_risk_level max_risk_level
       region_name risk_category
  = get_fire_risk_zones ilike db skip (a + b) min_risk_level max_risk_level
      region_name risk_category
  /\ get_fire_incidents ilike db skip a region_name start_date_from
       start_date_to status severity
     ++ get_fire_incidents ilike db (skip + a) b region_name start_date_from
          start_date_to status severity
     = get_fire_incidents ilike db skip (a + b) region_name start_date_from
         start_date_to status severity
  /\ get_saved_regions_by_user db user_id skip a
     ++ get_saved_regions_by_user db user_id (skip + a) b
     = get_saved_regions_by_user db user_id skip (a + b)
  /\ read_alerts db skip a is_read current_user
     ++ read_alerts db (skip + a) b is_read current_user
     = read_alerts db skip (a + b) is_read current_user.
Proof.
  intros Hs Ha Hb. repeat split.
  - rewrite !get_fire_risk_zones_unfold. now apply limit_offset_tile.
  - rewrite !get_fire_incidents_unfold. now apply limit_offset_tile.
  - unfold get_saved_regions_by_user. now apply limit_offset_tile.
  - unfold read_alerts. cbv zeta. now apply limit_offset_tile.
Qed.

(** X8: a listing with a limit that is not negative never holds more rows
    than the limit, and it is empty when the offset is not smaller than the
    number of rows of the table; this holds for zones, incidents, saved
    regions and alerts. *)
Theorem listing_page_bounds (ilike : string -> string -> bool)
  (db : Session) (skip lim : Z)
  (min_risk_level max_risk_level : option float)
  (region_name risk_category : option string)
  (start_date_from start_date_to : option datetime)
  (status severity : option string) (user_id : Z) (is_read : option bool)
  (current_user : User.t) :
  (0 <= lim ->
   (List.length
      (get_fire_risk_zones ilike db skip lim min_risk_level max_risk_level
         region_name risk_category) <= Z.to_nat lim)%nat
   /\ (List.length
         (get_fire_incidents ilike db skip lim region_name start_date_from
            start_date_to status severity) <= Z.to_nat lim)%nat
   /\ (List.length (get_saved_regions_by_user db user_id skip lim)
       <= Z.to_nat lim)%nat
   /\ (List.length (read_alerts db skip lim is_read current_user)
       <= Z.to_nat lim)%nat)
  /\ ((List.length (fire_risk_zones db) <= Z.to_nat skip)%nat ->
      get_fire_risk_zones ilike db skip lim min_risk_level max_risk_level
        region_name risk_category = [])
  /\ ((List.length (saved_regions db) <= Z.to_nat skip)%nat ->
      get_saved_regions_by_user db user_id skip lim = [])
  /\ ((List.length (alerts db) <= Z.to_nat skip)%nat ->
      read_alerts db skip lim is_read current_user = []).
Proof.
  split; [|split; [|split]].
  - intros Hl. repeat split.
    + rewrite get_fire_risk_zones_unfold. now apply limit_offset_length.
    + rewrite get_fire_incidents_unfold. now apply limit_offset_length.
    + unfold get_saved_regions_by_user. now apply limit_offset_length.
    + unfold read_alerts. cbv zeta. now apply limit_offset_length.
  - intros H. rewrite get_fire_risk_zones_unfold.
    apply limit_offset_past_end.
    rewrite (Permutation_length (order_by_desc_perm _ _)).
    eapply Nat.le_trans; [apply filter_length_le | exact H].
  - intros H. unfold get_saved_regions_by_user.
    apply limit_offset_past_end.
    eapply Nat.le_trans; [apply filter_length_le | exact H].
  - intros H. unfold read_alerts. cbv zeta.
    apply limit_offset_past_end.
    rewrite (Permutation_length (order_by_desc_perm _ _)).
    destruct is_read as [v|].
    + eapply Nat.le_trans; [apply filter_length_le|].
      eapply Nat.le_trans; [apply filter_length_le | exact H].
    + eapply Nat.le_trans; [apply filter_length_le | exact H].
Qed.

(** X9: a zone listing whose [max_risk_level] is below its
    [min_risk_level] is empty, whatever is stored and whatever the other
    filters, the offset and the limit are. *)
Theorem get_fire_risk_zones_empty_range (ilike : string -> string -> bool)
  (db : Session) (skip lim : Z) (lo hi : Q)
  (region_name risk_category : option string) :
  (hi < lo)%Q ->
  get_fire_risk_zones ilike db skip lim (Some lo) (Some hi) region_name
    risk_category = [].
Proof.
  intros H. rewrite get_fire_risk_zones_unfold.
  assert (E : filter (zone_passes ilike (Some lo) (Some hi) region_name
                        risk_category) (fire_risk_zones db) = []).
  { apply first_None_iff. apply first_filter_None. intros z _.
    unfold zone_passes.
    destruct (Qle_bool lo (FireRiskZone.risk_level z)) eqn:E1;
      [|reflexivity].
    destruct (Qle_bool (FireRiskZone.risk_level z) hi) eqn:E2;
      [|reflexivity].
    apply Qle_bool_iff in E1. apply Qle_bool_iff in E2. exfalso. lra. }
  rewrite E. simpl. apply limit_offset_nil.
Qed.

(** ** The prediction handler on a location without a recent zone *)





(** What the handler returns is stored and lies in the default box. *)
Lemma predict_fire_risk_zone_Ok (format_2f : float -> string)
  (db db1 : Session) (latitude longitude : Q)
  (request_region_name : option string) (current_user : User.t)
  (now : datetime) (d : Draws) (z : FireRiskZone.t) :
  predict_fire_risk_zone format_2f db latitude longitude
    request_region_name current_user now d = (Ok z, db1) ->
  In z (fire_risk_zones db1)
  /\ box_contains latitude longitude default_tolerance z.
Proof.
  assert (Hnew :
    predict_new_zone format_2f db latitude longitude request_region_name
      current_user now d = (Ok z, db1) ->
    In z (fire_risk_zones db1)
    /\ box_contains latitude longitude default_tolerance z).
  { unfold predict_new_zone. cbv zeta.
    destruct (FireRiskZoneCreate _) as [v|e] eqn:Ev; [|discriminate].
    apply FireRiskZoneCreate_Ok_inv in Ev. subst v.
    destruct (should_alert _ _); simpl; intros H;
      injection H as <- <-; simpl;
      (split; [apply in_or_app; right; now left|]);
      unfold box_contains, default_tolerance; simpl; repeat split; lra. }
  unfold predict_fire_risk_zone.
  destruct (get_fire_risk_zone_by_coords db latitude longitude
              default_tolerance) as [w|] eqn:E; [|exact Hnew].
  destruct (_ <? _); [|exact Hnew].
  intros H. injection H as <- <-.
  apply get_fire_risk_zone_by_coords_Some in E. tauto.
Qed.

(** X11: a prediction is served again for the next hour: after the handler
    has returned a zone for a location, a later request for the same
    location made less than one hour after that zone's timestamp returns a
    stored zone at least as recent and leaves the session as it is, for any
    user, region name and draws. *)
Theorem predict_fire_risk_zone_twice (format_2f : float -> string)
  (db db1 : Session) (latitude longitude : Q)
  (request_region_name request_region_name' : option string)
  (current_user current_user' : User.t) (now now' : datetime)
  (d d' : Draws) (z : FireRiskZone.t) :
  predict_fire_risk_zone format_2f db latitude longitude
    request_region_name current_user now d = (Ok z, db1) ->
  now' - timedelta_hours 1 < FireRiskZone.timestamp z ->
  exists w,
    predict_fire_risk_zone format_2f db1 latitude longitude
      request_region_name' current_user' now' d' = (Ok w, db1)
    /\ FireRiskZone.timestamp z <= FireRiskZone.timestamp w.
Proof.
  intros H1 Hrecent.
  destruct (predict_fire_risk_zone_Ok _ _ _ _ _ _ _ _ _ _ H1)
    as [Hin Hbox].
  destruct (get_fire_risk_zone_by_coords_hit db1 latitude longitude
              default_tolerance z Hin Hbox) as [w Hw].
  pose proof (get_fire_risk_zone_by_coords_Some _ _ _ _ _ Hw)
    as (_ & _ & Hmax).
  specialize (Hmax z Hin Hbox).
  exists w. unfold predict_fire_risk_zone. rewrite Hw.
  assert (E : (now' - timedelta_hours 1 <? FireRiskZone.timestamp w) = true)
    by (apply Z.ltb_lt; lia).
  rewrite E. split; [reflexivity | exact Hmax].
Qed.

(** ** Fire spread *)

Lemma min_one_le (x : Q) : (min_one x <= 1)%Q.
Proof.
  unfold min_one. destruct (Qltb x 1) eqn:E.
  - apply Qltb_true in E. lra.
  - lra.
Qed.

Lemma min_one_mono (x y : Q) : (x <= y)%Q -> (min_one x <= min_one y)%Q.
Proof.
  intros H. unfold min_one.
  destruct (Qltb x 1) eqn:Ex, (Qltb y 1) eqn:Ey;
    try apply Qltb_true in Ex; try apply Qltb_true in Ey;
    try apply Qltb_false in Ex; try apply Qltb_false in Ey; lra.
Qed.

Lemma min_one_ge (r x : Q) : (r <= 1)%Q -> (r <= x)%Q -> (r <= min_one x)%Q.
Proof.
  intros Hr Hx. unfold min_one. now destruct (Qltb x 1).
Qed.

Section SpreadFacts.
Variable radians : float -> float.
Variable cos : float -> float.
Variable sin : float -> float.
Variable isoformat : datetime -> string.

Lemma spread_loop_length (zone_risk distance angle_rad : float)
  (current_time : datetime) (jitter : Z -> float * float) (n : nat)
  (hour : Z) (lat lng : float) :
  List.length (spread_loop cos sin isoformat zone_risk distance angle_rad
                 current_time jitter n hour lat lng) = n.
Proof.
  revert hour lat lng. induction n as [|n IH]; intros hour lat lng; simpl.
  - reflexivity.
  - now rewrite IH.
Qed.

Lemma spread_loop_nth (zone_risk distance angle_rad : float)
  (current_time : datetime) (jitter : Z -> float * float) (n : nat)
  (hour : Z) (lat lng : float) (k : nat) (p : SpreadPoint) :
  nth_error (spread_loop cos sin isoformat zone_risk distance angle_rad
               current_time jitter n hour lat lng) k = Some p ->
  point_risk_level p
  = min_one (zone_risk + inject_Z (hour + Z.of_nat k) * (1 # 100))%Q
  /\ point_timestamp p
     = isoformat (current_time + timedelta_hours (hour + Z.of_nat k)).
Proof.
  revert hour lat lng k.
  induction n as [|n IH]; intros hour lat lng k; simpl.
  - destruct k; discriminate.
  - destruct k as [|k]; simpl.
    + intros H. injection H as <-. simpl. rewrite Z.add_0_r. now split.
    + intros H. apply IH in H.
      replace (hour + Z.pos (Pos.of_succ_nat k))
        with (hour + 1 + Z.of_nat k) by lia.
      exact H.
Qed.

(** X12: [predict_fire_spread] answers 404 for a zone key that is not
    stored. For a stored zone it echoes the zone and returns one point per
    hour of [hours_ahead], none when that is zero or negative; the point of
    hour h carries the risk level min(1, zone risk + h/100) and the
    timestamp of the request plus h hours, so the risk levels never exceed
    1, never decrease from one hour to the next, and are never below the
    risk level of a zone whose own level is at most 1. *)
Theorem predict_fire_spread_points (db : Session)
  (request : FireSpreadRequest.t) (current_time : datetime)
  (wind_direction : float) (jitter : Z -> float * float) :
  (get_fire_risk_zone db (FireSpreadRequest.zone_id request) = None ->
   exists e,
     predict_fire_spread radians cos sin isoformat db request current_time
       wind_direction jitter = Err e
     /\ status_code e = 404)
  /\ (forall zone,
        get_fire_risk_zone db (FireSpreadRequest.zone_id request)
        = Some zone ->
        exists r,
          predict_fire_spread radians cos sin isoformat db request
            current_time wind_direction jitter = Ok r
          /\ original_id (original_zone r) = FireSpreadRequest.zone_id request
          /\ original_risk_level (original_zone r)
             = FireRiskZone.risk_level zone
          /\ wind_direction_degrees r = wind_direction
          /\ List.length (spread_points r)
             = Z.to_nat (FireSpreadRequest.hours_ahead request)
          /\ (forall k p,
                nth_error (spread_points r) k = Some p ->
                point_risk_level p
                = min_one (FireRiskZone.risk_level zone
                           + inject_Z (1 + Z.of_nat k) * (1 # 100))%Q
                /\ point_timestamp p
                   = isoformat (current_time
                                + timedelta_hours (1 + Z.of_nat k))
                /\ (point_risk_level p <= 1)%Q
                /\ ((FireRiskZone.risk_level zone <= 1)%Q ->
                    (FireRiskZone.risk_level zone <= point_risk_level p)%Q))
          /\ (forall j k p q,
                (j <= k)%nat ->
                nth_error (spread_points r) j = Some p ->
                nth_error (spread_points r) k = Some q ->
                (point_risk_level p <= point_risk_level q)%Q)).
Proof.
  split.
  - intros H. unfold predict_fire_spread. rewrite H.
    eexists. split; reflexivity.
  - intros zone Hz. destruct (get_fire_risk_zone_Some _ _ _ Hz) as [_ Hid].
    unfold predict_fire_spread. rewrite Hz. cbv zeta.
    eexists. split; [reflexivity|]. simpl.
    split; [exact Hid|]. split; [reflexivity|]. split; [reflexivity|].
    split; [apply spread_loop_length|]. split.
    + intros k p Hp. apply spread_loop_nth in Hp. destruct Hp as [Hr Ht].
      split; [exact Hr|]. split; [exact Ht|].
      rewrite Hr. split; [apply min_one_le|].
      intros Hle. apply min_one_ge; [exact Hle|].
      assert (0 <= inject_Z (1 + Z.of_nat k))%Q.
      { change 0%Q with (inject_Z 0). rewrite <- Zle_Qle. lia. }
      nra.
    + intros j k p q Hjk Hp Hq.
      apply spread_loop_nth in Hp. apply spread_loop_nth in Hq.
      destruct Hp as [-> _], Hq as [-> _].
      apply min_one_mono.
      assert (inject_Z (1 + Z.of_nat j) <= inject_Z (1 + Z.of_nat k))%Q
        by (rewrite <- Zle_Qle; lia).
      lra.
Qed.

(** X13: a zone whose wind speed is missing or zero spreads with the wind
    factor 0.1, the factor of a wind speed of 1: the reported maximum
    spread distance is 0.1 times twice the zone's risk level times
    [hours_ahead]; for any other wind speed w the factor is w/10. *)
Theorem predict_fire_spread_wind (db : Session)
  (request : FireSpreadRequest.t) (current_time : datetime)
  (wind_direction : float) (jitter : Z -> float * float)
  (zone : FireRiskZone.t) :
  get_fire_risk_zone db (FireSpreadRequest.zone_id request) = Some zone ->
  exists r,
    predict_fire_spread radians cos sin isoformat db request current_time
      wind_direction jitter = Ok r
    /\ (FireRiskZone.wind_speed zone = None ->
        max_spread_distance_km r
        = ((1 # 10) * (FireRiskZone.risk_level zone * 2)
           * inject_Z (FireSpreadRequest.hours_ahead request))%Q)
    /\ (forall w,
          FireRiskZone.wind_speed zone = Some w -> (w == 0)%Q ->
          max_spread_distance_km r
          = ((1 # 10) * (FireRiskZone.risk_level zone * 2)
             * inject_Z (FireSpreadRequest.hours_ahead request))%Q)
    /\ (forall w,
          FireRiskZone.wind_speed zone = Some w -> ~ (w == 0)%Q ->
          max_spread_distance_km r
          = ((w / 10) * (FireRiskZone.risk_level zone * 2)
             * inject_Z (FireSpreadRequest.hours_ahead request))%Q).
Proof.
  intros Hz. unfold predict_fire_spread. rewrite Hz. cbv zeta.
  eexists. split; [reflexivity|]. simpl. repeat split.
  - intros ->. reflexivity.
  - intros w -> Hw. unfold wind_factor_of, truthy_float.
    apply Qeq_bool_iff in Hw. now rewrite Hw.
  - intros w -> Hw. unfold wind_factor_of, truthy_float.
    destruct (Qeq_bool w 0) eqn:E; [|reflexivity].
    apply Qeq_bool_iff in E. contradiction.
Qed.

End SpreadFacts.

(** ** Incident handlers *)

Lemma superuser_admitted (u : User.t) :
  User.is_superuser u = true -> get_current_active_superuser u = Ok u.
Proof. intros H. unfold get_current_active_superuser. now rewrite H. Qed.

Lemma superuser_refused (u : User.t) :
  User.is_superuser u = false ->
  exists e, get_current_active_superuser u = Err e /\ status_code e = 403.
Proof.
  intros H. unfold get_current_active_superuser. rewrite H.
  eexists. split; reflexivity.
Qed.

Lemma get_fire_incident_Some (db : Session) (k : Z) (i : FireIncident.t) :
  get_fire_incident db k = Some i ->
  In i (fire_incidents db) /\ FireIncident.id i = k.
Proof.
  intros H. apply first_filter_Some in H. destruct H as [Hin E].
  split; [exact Hin | now apply Z.eqb_eq].
Qed.

(** X14: the incident-creation handler, for a superuser, refuses an
    incident whose [risk_zone_id] is not a stored zone key with a 404 that
    names the key and stores nothing; otherwise it appends the incident
    under a key no stored incident has, the incident designates the stored
    zone, can be read back under its key, and the other tables are
    untouched. *)
Theorem endpoint_create_fire_incident_spec (db : Session)
  (incident_in : FireIncidentBase.t) (current_user : User.t) :
  User.is_superuser current_user = true ->
  (get_fire_risk_zone db (FireIncidentBase.risk_zone_id incident_in) = None ->
   endpoint_create_fire_incident db incident_in current_user
   = (Err (zone_not_found (FireIncidentBase.risk_zone_id incident_in)), db))
  /\ (forall zone,
        get_fire_risk_zone db (FireIncidentBase.risk_zone_id incident_in)
        = Some zone ->
        exists incident,
          endpoint_create_fire_incident db incident_in current_user
          = (Ok incident,
             mkSession (fire_risk_zones db)
                       (fire_incidents db ++ [incident])
                       (saved_regions db) (alerts db))
          /\ ~ In (FireIncident.id incident)
                  (map FireIncident.id (fire_incidents db))
          /\ FireIncident.risk_zone_id incident
             = Some (FireRiskZone.id zone)
          /\ In zone (fire_risk_zones db)
          /\ read_fire_incident
               (mkSession (fire_risk_zones db)
                          (fire_incidents db ++ [incident])
                          (saved_regions db) (alerts db))
               (FireIncident.id incident)
             = Ok incident).
Proof.
  intros Hsu. unfold endpoint_create_fire_incident.
  rewrite (superuser_admitted _ Hsu). split.
  - intros H. now rewrite H.
  - intros zone Hz. rewrite Hz.
    destruct (get_fire_risk_zone_Some _ _ _ Hz) as [Hin Hid].
    eexists. split; [reflexivity|]. simpl.
    set (ids := map FireIncident.id (fire_incidents db)).
    split; [apply next_id_fresh|]. split; [now rewrite Hid|].
    split; [exact Hin|].
    unfold read_fire_incident, get_fire_incident. simpl.
    rewrite filter_app. simpl. rewrite Z.eqb_refl.
    assert (E : filter (fun i => FireIncident.id i =? next_id ids)
                       (fire_incidents db) = []).
    { apply first_None_iff. apply first_filter_None. intros i Hi.
      apply Z.eqb_neq. intros E. apply (next_id_fresh ids).
      rewrite <- E. now apply in_map. }
    rewrite E. reflexivity.
Qed.

(** X15: the incident-update handler, for a superuser, answers 404 and
    changes nothing when the incident key is not stored, or when the update
    sets a [risk_zone_id] that differs from the stored one and is not a
    stored zone key. Otherwise it stores and returns the incident with the
    set fields replaced and the unset ones kept: the key is unchanged, the
    incident reads back under its key, every other key reads as before, the
    zone it designates afterwards is the one it designated before or a
    stored zone, and the other tables are untouched. *)
Theorem endpoint_update_fire_incident_spec (db : Session)
  (incident_id : Z) (incident_in : FireIncidentUpdate.t)
  (current_user : User.t) :
  User.is_superuser current_user = true ->
  (get_fire_incident db incident_id = None ->
   exists e,
     endpoint_update_fire_incident db incident_id incident_in current_user
     = (Err e, db) /\ status_code e = 404)
  /\ (forall incident,
        get_fire_incident db incident_id = Some incident ->
        (forall k,
            update_risk_zone_id incident_in = Some k ->
            FireIncident.risk_zone_id incident <> Some k ->
            get_fire_risk_zone db k = None ->
            endpoint_update_fire_incident db incident_id incident_in
              current_user
            = (Err (zone_not_found k), db))
        /\ ((forall k,
                update_risk_zone_id incident_in = Some k ->
                FireIncident.risk_zone_id incident = Some k
                \/ get_fire_risk_zone db k <> None) ->
            exists updated db',
              endpoint_update_fire_incident db incident_id incident_in
                current_user = (Ok updated, db')
              /\ updated = apply_incident_update incident_in incident
              /\ FireIncident.id updated = incident_id
              /\ get_fire_incident db' incident_id = Some updated
              /\ (forall k, k <> incident_id ->
                    get_fire_incident db' k = get_fire_incident db k)
              /\ (forall k,
                    FireIncident.risk_zone_id updated = Some k ->
                    FireIncident.risk_zone_id incident = Some k
                    \/ In k (map FireRiskZone.id (fire_risk_zones db)))
              /\ fire_risk_zones db' = fire_risk_zones db
              /\ saved_regions db' = saved_regions db
              /\ alerts db' = alerts db)).
Proof.
  intros Hsu. unfold endpoint_update_fire_incident.
  rewrite (superuser_admitted _ Hsu). split.
  - intros H. rewrite H. eexists. split; reflexivity.
  - intros incident Hi. rewrite Hi.
    destruct (get_fire_incident_Some _ _ _ Hi) as [Hin Hid]. split.
    + intros k Hk Hne Hz. rewrite Hk.
      assert (E : opt_Z_eqb (FireIncident.risk_zone_id incident) k = false).
      { unfold opt_Z_eqb.
        destruct (FireIncident.risk_zone_id incident) as [j|];
          [|reflexivity].
        apply Z.eqb_neq. congruence. }
      rewrite E, Hz. reflexivity.
    + intros Hok.
      assert (E : match update_risk_zone_id incident_in with
                  | Some k =>
                      if negb (opt_Z_eqb (FireIncident.risk_zone_id incident)
                                         k)
                      then match get_fire_risk_zone db k with
                           | None => Some k
                           | Some _ => None
                           end
                      else None
                  | None => None
                  end = None).
      { destruct (update_risk_zone_id incident_in) as [k|] eqn:Ek;
          [|reflexivity].
        destruct (Hok k eq_refl) as [Hsame | Hex].
        - rewrite Hsame. simpl. now rewrite Z.eqb_refl.
        - destruct (negb _); [|reflexivity].
          now destruct (get_fire_risk_zone db k). }
      rewrite E.
      remember (apply_incident_update incident_in incident) as updated
        eqn:Eupd.
      assert (Hid' : FireIncident.id updated = incident_id)
        by (rewrite Eupd; exact Hid).
      eexists. eexists. split; [reflexivity|]. split; [reflexivity|].
      split; [exact Hid'|]. unfold store_incident.
      cbn [fire_risk_zones fire_incidents saved_regions alerts].
      rewrite Hid'.
      split; [|split; [|split; [|repeat split]]].
      * unfold get_fire_incident.
        cbn [fire_risk_zones fire_incidents saved_regions alerts].
        rewrite (filter_key_replace FireIncident.id incident_id incident_id
                   updated _ Hid').
        rewrite Z.eqb_refl, first_map_const.
        unfold get_fire_incident in Hi. now rewrite Hi.
      * intros k Hk. unfold get_fire_incident.
        cbn [fire_risk_zones fire_incidents saved_regions alerts].
        rewrite (filter_key_replace FireIncident.id incident_id k
                   updated _ Hid').
        apply not_eq_sym, Z.eqb_neq in Hk. now rewrite Hk.
      * intros k Hk. rewrite Eupd in Hk. unfold apply_incident_update in Hk.
        simpl in Hk. unfold set_or_keep in Hk.
        destruct (FireIncidentUpdate.risk_zone_id incident_in)
          as [[j|]|] eqn:Ej.
        -- injection Hk as ->.
           assert (Hu : update_risk_zone_id incident_in = Some k)
             by (unfold update_risk_zone_id; now rewrite Ej).
           destruct (Hok k Hu) as [Hsame | Hex]; [now left|].
           right. destruct (get_fire_risk_zone db k) as [z|] eqn:Ez;
             [|congruence].
           destruct (get_fire_risk_zone_Some _ _ _ Ez) as [Hz <-].
           now apply in_map.
        -- discriminate.
        -- now left.
Qed.

(** X16: the incident-delete handler, for a superuser, answers 404 and
    changes nothing when the key is not stored; for a stored key it reports
    success, the key no longer reads an incident, every other key reads as
    before, and zones, saved regions and alerts are untouched. *)
Theorem endpoint_delete_fire_incident_spec (db : Session)
  (incident_id : Z) (current_user : User.t) :
  User.is_superuser current_user = true ->
  (get_fire_incident db incident_id = None ->
   exists e,
     endpoint_delete_fire_incident db incident_id current_user = (Err e, db)
     /\ status_code e = 404)
  /\ (forall incident,
        get_fire_incident db incident_id = Some incident ->
        exists m db',
          endpoint_delete_fire_incident db incident_id current_user
          = (Ok m, db')
          /\ (exists e, read_fire_incident db' incident_id = Err e
                        /\ status_code e = 404)
          /\ (forall k, k <> incident_id ->
                read_fire_incident db' k = read_fire_incident db k)
          /\ fire_risk_zones db' = fire_risk_zones db
          /\ saved_regions db' = saved_regions db
          /\ alerts db' = alerts db).
Proof.
  intros Hsu. unfold endpoint_delete_fire_incident.
  rewrite (superuser_admitted _ Hsu). split.
  - intros H. rewrite H. eexists. split; reflexivity.
  - intros incident Hi. rewrite Hi.
    destruct (get_fire_incident_Some _ _ _ Hi) as [_ Hid]. rewrite Hid.
    eexists. eexists. split; [reflexivity|].
    unfold read_fire_incident, get_fire_incident. simpl.
    split; [|split; [|repeat split]].
    + rewrite (filter_filter_neg_key FireIncident.id incident_id
                 incident_id).
      rewrite Z.eqb_refl. simpl. eexists. split; reflexivity.
    + intros k Hk.
      rewrite (filter_filter_neg_key FireIncident.id incident_id k).
      apply not_eq_sym, Z.eqb_neq in Hk. now rewrite Hk.
Qed.

(** X17: a requester who is not a superuser is refused with the 403 error
    by each of the six handlers that create, update or delete zones and
    incidents, and the session is left as it was. *)
Theorem superuser_handlers_refuse (db : Session) (current_user : User.t)
  (now : datetime) (k : Z) (fire_risk_in : FireRiskZoneBase.t)
  (update_data : list zone_assignment) (incident_in : FireIncidentBase.t)
  (incident_update : FireIncidentUpdate.t) :
  User.is_superuser current_user = false ->
  exists e,
    status_code e = 403
    /\ endpoint_create_fire_risk_zone db fire_risk_in current_user now
       = (Err e, db)
    /\ endpoint_update_fire_risk_zone db k update_data current_user
       = (Err e, db)
    /\ endpoint_delete_fire_risk_zone db k current_user = (Err e, db)
    /\ endpoint_create_fire_incident db incident_in current_user
       = (Err e, db)
    /\ endpoint_update_fire_incident db k incident_update current_user
       = (Err e, db)
    /\ endpoint_delete_fire_incident db k current_user = (Err e, db).
Proof.
  intros H. destruct (superuser_refused _ H) as (e & He & Hc).
  exists e. split; [exact Hc|].
  unfold endpoint_create_fire_risk_zone, endpoint_update_fire_risk_zone,
    endpoint_delete_fire_risk_zone, endpoint_create_fire_incident,
    endpoint_update_fire_incident, endpoint_delete_fire_incident.
  rewrite He. repeat split.
Qed.

(** X18: the incident listing handler returns one dictionary per incident
    of the service listing, in the same order and with the same key, and
    the dictionary reports [area_affected] as null exactly when the stored
    area is missing or zero. *)
Theorem read_fire_incidents_dicts (ilike : string -> string -> bool)
  (isoformat : datetime -> string) (db : Session) (skip lim : Z)
  (region_name : option string)
  (start_date_from start_date_to : option datetime)
  (status severity : option string) :
  map dict_id
    (read_fire_incidents ilike isoformat db skip lim region_name
       start_date_from start_date_to status severity)
  = map FireIncident.id
      (get_fire_incidents ilike db skip lim region_name start_date_from
         start_date_to status severity)
  /\ forall incident,
       (dict_area_affected (incident_dict isoformat incident) = None
        <-> FireIncident.area_affected incident = None
            \/ exists x, FireIncident.area_affected incident = Some x
                         /\ (x == 0)%Q)
       /\ (forall x, FireIncident.area_affected incident = Some x ->
                     ~ (x == 0)%Q ->
                     dict_area_affected (incident_dict isoformat incident)
                     = Some x).
Proof.
  split.
  - unfold read_fire_incidents. rewrite map_map. reflexivity.
  - intros incident. unfold incident_dict. simpl. unfold truthy_float.
    destruct (FireIncident.area_affected incident) as [x|].
    + destruct (Qeq_bool x 0) eqn:E; simpl.
      * apply Qeq_bool_iff in E. split.
        -- split; [intros _; right; now exists x | reflexivity].
        -- intros y Hy. injection Hy as <-. contradiction.
      * split.
        -- split; [discriminate|].
           intros [H | (y & Hy & H0)]; [discriminate|].
           injection Hy as <-. apply Qeq_bool_iff in H0. congruence.
        -- intros y Hy _. exact Hy.
    + split; [split; [now left | reflexivity] | discriminate].
Qed.

(** ** Alert handlers *)

Lemma alert_time_geb_total (a b : Alert.t) :
  alert_time_geb a b = false -> alert_time_geb b a = true.
Proof. unfold alert_time_geb. rewrite Z.leb_gt, Z.leb_le. lia. Qed.

Lemma alert_time_geb_trans (a b c : Alert.t) :
  alert_time_geb a b = true -> alert_time_geb b c = true ->
  alert_time_geb a c = true.
Proof. unfold alert_time_geb. rewrite !Z.leb_le. lia. Qed.

Lemma get_alert_Some (db : Session) (k : Z) (u : User.t) (a : Alert.t) :
  get_alert db k u = Some a ->
  In a (alerts db) /\ Alert.id a = k /\ Alert.user_id a = User.id u.
Proof.
  intros H. apply first_filter_Some in H. destruct H as [Hin E].
  apply andb_true_iff in E. destruct E as [E1 E2].
  repeat split; [exact Hin | now apply Z.eqb_eq | now apply Z.eqb_eq].
Qed.

(** X19: the alert listing is the (skip, limit) page of an ordering, sorted
    by [alert_time] descending, of exactly the requester's stored alerts,
    restricted to those whose read flag equals [is_read] when that is
    given; so every alert it returns belongs to the requester. *)
Theorem read_alerts_spec (db : Session) (skip lim : Z)
  (is_read : option bool) (current_user : User.t) :
  (exists ordering,
      Permutation ordering
        (filter (fun a =>
                   (Alert.user_id a =? User.id current_user)
                   && match is_read with
                      | Some v => Bool.eqb (Alert.is_read a) v
                      | None => true
                      end)
                (alerts db))
      /\ StronglySorted
           (fun a b => Alert.alert_time b <= Alert.alert_time a) ordering
      /\ is_page skip lim ordering
           (read_alerts db skip lim is_read current_user))
  /\ forall a,
       In a (read_alerts db skip lim is_read current_user) ->
       In a (alerts db)
       /\ Alert.user_id a = User.id current_user
       /\ forall v, is_read = Some v -> Alert.is_read a = v.
Proof.
  unfold read_alerts. cbv zeta.
  rewrite (filter_opt is_read (fun v a => Bool.eqb (Alert.is_read a) v)).
  rewrite filter_andb.
  set (q := filter _ (alerts db)).
  split.
  - exists (order_by_desc alert_time_geb q). split; [|split].
    + apply order_by_desc_perm.
    + eapply StronglySorted_weaken;
        [|apply (order_by_desc_sorted alert_time_geb
                   alert_time_geb_total alert_time_geb_trans)].
      intros a b H. now apply Z.leb_le.
    + apply limit_offset_is_page.
  - intros a Ha.
    destruct (limit_offset_is_page skip lim (order_by_desc alert_time_geb q))
      as (pre & post & Heq & _).
    assert (Hin : In a (order_by_desc alert_time_geb q)).
    { rewrite Heq. apply in_or_app. right. apply in_or_app. now left. }
    apply order_by_desc_In in Hin. unfold q in Hin.
    apply filter_In in Hin. destruct Hin as [Hin Hp].
    apply andb_true_iff in Hp. destruct Hp as [Hu Hr].
    split; [exact Hin|]. split; [now apply Z.eqb_eq|].
    intros v ->. now apply eqb_prop.
Qed.

(** X20: an alert key under which the requester owns no stored alert gets
    the 404 answer from the handlers that read, update and delete one
    alert, and neither the update nor the delete changes the session; being
    a superuser makes no difference. *)
Theorem alert_handlers_not_owned (db : Session) (alert_id : Z)
  (alert_in : AlertUpdate.t) (current_user : User.t) :
  (forall a, In a (alerts db) -> Alert.id a = alert_id ->
             Alert.user_id a <> User.id current_user) ->
  read_alert db alert_id current_user = Err alert_not_found
  /\ update_alert db alert_id alert_in current_user
     = (Err alert_not_found, db)
  /\ delete_alert db alert_id current_user = (Err alert_not_found, db)
  /\ status_code alert_not_found = 404.
Proof.
  intros H.
  assert (E : get_alert db alert_id current_user = None).
  { apply first_filter_None. intros a Ha.
    destruct (Alert.id a =? alert_id) eqn:E1; [|reflexivity].
    apply Z.eqb_eq in E1. simpl. apply Z.eqb_neq. now apply H. }
  unfold read_alert, update_alert, delete_alert. rewrite E.
  repeat split.
Qed.

Lemma filter_owned_replace (k u : Z) (y : Alert.t) (l : list Alert.t) :
  Alert.id y = k -> Alert.user_id y = u ->
  filter (fun a => (Alert.id a =? k) && (Alert.user_id a =? u))
         (map (fun a => if Alert.id a =? k then y else a) l)
  = map (fun _ => y) (filter (fun a => Alert.id a =? k) l).
Proof.
  intros Hk Hu. induction l as [|x l IH]; simpl; [reflexivity|].
  destruct (Alert.id x =? k) eqn:E; simpl.
  - rewrite Hk, Hu, !Z.eqb_refl. simpl. now rewrite IH.
  - rewrite E. simpl. exact IH.
Qed.

(** X21: updating an alert the requester owns stores and returns the alert
    with the given flags set and the others kept; its key, owner, zone,
    time, risk level and message are unchanged, it reads back under its
    key, every stored alert with another key is still stored, and the other
    tables are untouched. *)
Theorem update_alert_owned (db : Session) (alert_id : Z)
  (alert_in : AlertUpdate.t) (current_user : User.t) (alert : Alert.t) :
  get_alert db alert_id current_user = Some alert ->
  exists updated db',
    update_alert db alert_id alert_in current_user = (Ok updated, db')
    /\ Alert.id updated = alert_id
    /\ Alert.user_id updated = User.id current_user
    /\ Alert.risk_zone_id updated = Alert.risk_zone_id alert
    /\ Alert.alert_time updated = Alert.alert_time alert
    /\ Alert.risk_level updated = Alert.risk_level alert
    /\ Alert.message updated = Alert.message alert
    /\ (forall v, AlertUpdate.is_read alert_in = Some v ->
                  Alert.is_read updated = v)
    /\ (AlertUpdate.is_read alert_in = None ->
        Alert.is_read updated = Alert.is_read alert)
    /\ (forall v, AlertUpdate.is_sent_email alert_in = Some v ->
                  Alert.is_sent_email updated = v)
    /\ (AlertUpdate.is_sent_email alert_in = None ->
        Alert.is_sent_email updated = Alert.is_sent_email alert)
    /\ (forall v, AlertUpdate.is_sent_sms alert_in = Some v ->
                  Alert.is_sent_sms updated = v)
    /\ (AlertUpdate.is_sent_sms alert_in = None ->
        Alert.is_sent_sms updated = Alert.is_sent_sms alert)
    /\ read_alert db' alert_id current_user = Ok updated
    /\ map Alert.id (alerts db') = map Alert.id (alerts db)
    /\ (forall b, In b (alerts db) -> Alert.id b <> alert_id ->
                  In b (alerts db'))
    /\ fire_risk_zones db' = fire_risk_zones db
    /\ fire_incidents db' = fire_incidents db
    /\ saved_regions db' = saved_regions db.
Proof.
  intros Ha. destruct (get_alert_Some _ _ _ _ Ha) as (Hin & Hid & Hu).
  unfold update_alert. rewrite Ha.
  remember (apply_alert_update alert_in alert) as updated eqn:Eupd.
  assert (Hid' : Alert.id updated = alert_id) by (now rewrite Eupd).
  assert (Hu' : Alert.user_id updated = User.id current_user)
    by (now rewrite Eupd).
  eexists. eexists. split; [reflexivity|].
  split; [exact Hid'|]. split; [exact Hu'|].
  rewrite Hid.
  cbn [fire_risk_zones fire_incidents saved_regions alerts].
  split; [now rewrite Eupd|]. split; [now rewrite Eupd|].
  split; [now rewrite Eupd|]. split; [now rewrite Eupd|].
  split; [intros v Hv; rewrite Eupd; simpl; now rewrite Hv|].
  split; [intros Hv; rewrite Eupd; simpl; now rewrite Hv|].
  split; [intros v Hv; rewrite Eupd; simpl; now rewrite Hv|].
  split; [intros Hv; rewrite Eupd; simpl; now rewrite Hv|].
  split; [intros v Hv; rewrite Eupd; simpl; now rewrite Hv|].
  split; [intros Hv; rewrite Eupd; simpl; now rewrite Hv|].
  split; [|split; [|split; [|repeat split]]].
  - unfold read_alert, get_alert.
    cbn [fire_risk_zones fire_incidents saved_regions alerts].
    rewrite (filter_owned_replace alert_id (User.id current_user) updated
               _ Hid' Hu').
    rewrite first_map_const.
    assert (Hk : first (filter (fun a => Alert.id a =? alert_id)
                               (alerts db)) <> None).
    { rewrite first_None_iff. intros E.
      assert (Hf : In alert (filter (fun a => Alert.id a =? alert_id)
                               (alerts db))).
      { apply filter_In. split; [exact Hin | now apply Z.eqb_eq]. }
      rewrite E in Hf. destruct Hf. }
    destruct (first _); [reflexivity | congruence].
  - rewrite map_map. apply map_ext. intros x.
    destruct (Alert.id x =? alert_id) eqn:E; [|reflexivity].
    apply Z.eqb_eq in E. congruence.
  - intros b Hb Hne. apply in_map_iff. exists b. split; [|exact Hb].
    apply Z.eqb_neq in Hne. now rewrite Hne.
Qed.

(** X22: deleting an alert the requester owns reports success; afterwards
    the key reads no alert, every stored alert with another key is still
    stored and nothing else was added, and the other tables are
    untouched. *)
Theorem delete_alert_owned (db : Session) (alert_id : Z)
  (current_user : User.t) (alert : Alert.t) :
  get_alert db alert_id current_user = Some alert ->
  exists m db',
    delete_alert db alert_id current_user = (Ok m, db')
    /\ read_alert db' alert_id current_user = Err alert_not_found
    /\ (forall b, In b (alerts db') <->
                  In b (alerts db) /\ Alert.id b <> alert_id)
    /\ fire_risk_zones db' = fire_risk_zones db
    /\ fire_incidents db' = fire_incidents db
    /\ saved_regions db' = saved_regions db.
Proof.
  intros Ha. destruct (get_alert_Some _ _ _ _ Ha) as (Hin & Hid & Hu).
  unfold delete_alert. rewrite Ha, Hid.
  eexists. eexists. split; [reflexivity|].
  cbn [fire_risk_zones fire_incidents saved_regions alerts].
  split; [|split; [|repeat split]].
  - unfold read_alert, get_alert.
    cbn [fire_risk_zones fire_incidents saved_regions alerts].
    assert (E : filter (fun a => (Alert.id a =? alert_id)
                                 && (Alert.user_id a
                                     =? User.id current_user))
                       (filter (fun a => negb (Alert.id a =? alert_id))
                               (alerts db)) = []).
    { apply first_None_iff. apply first_filter_None. intros a Ha'.
      apply filter_In in Ha'. destruct Ha' as [_ Hn].
      apply negb_true_iff in Hn. now rewrite Hn. }
    now rewrite E.
  - intros b. rewrite filter_In, negb_true_iff, Z.eqb_neq. reflexivity.
Qed.

Lemma mark_read_twice (u : Z) (a : Alert.t) :
  (fun a => if (Alert.user_id a =? u) && Bool.eqb (Alert.is_read a) false
            then mark_read a else a)
    (if (Alert.user_id a =? u) && Bool.eqb (Alert.is_read a) false
     then mark_read a else a)
  = if (Alert.user_id a =? u) && Bool.eqb (Alert.is_read a) false
    then mark_read a else a.
Proof.
  cbv beta.
  destruct ((Alert.user_id a =? u) && Bool.eqb (Alert.is_read a) false)
    eqn:E.
  - simpl. now rewrite andb_false_r.
  - now rewrite E.
Qed.

(** X23: after [mark_all_alerts_read] every stored alert of the requester
    is read. The alerts of other users and the requester's alerts that were
    read already are unchanged, no alert is added or removed, and only the
    read flag of an alert can change. Marking again changes nothing. *)
Theorem mark_all_alerts_read_spec (db : Session) (current_user : User.t) :
  (forall a, In a (alerts (snd (mark_all_alerts_read db current_user))) ->
             Alert.user_id a = User.id current_user ->
             Alert.is_read a = true)
  /\ (forall a, In a (alerts db) ->
                Alert.user_id a <> User.id current_user
                \/ Alert.is_read a = true ->
                In a (alerts (snd (mark_all_alerts_read db current_user))))
  /\ map (fun a => (Alert.id a, Alert.user_id a, Alert.risk_zone_id a,
                    Alert.alert_time a, Alert.risk_level a, Alert.message a,
                    Alert.is_sent_email a, Alert.is_sent_sms a))
         (alerts (snd (mark_all_alerts_read db current_user)))
     = map (fun a => (Alert.id a, Alert.user_id a, Alert.risk_zone_id a,
                      Alert.alert_time a, Alert.risk_level a,
                      Alert.message a, Alert.is_sent_email a,
                      Alert.is_sent_sms a))
           (alerts db)
  /\ snd (mark_all_alerts_read
            (snd (mark_all_alerts_read db current_user)) current_user)
     = snd (mark_all_alerts_read db current_user)
  /\ fire_risk_zones (snd (mark_all_alerts_read db current_user))
     = fire_risk_zones db
  /\ fire_incidents (snd (mark_all_alerts_read db current_user))
     = fire_incidents db
  /\ saved_regions (snd (mark_all_alerts_read db current_user))
     = saved_regions db.
Proof.
  simpl. split; [|split; [|split; [|split; [|repeat split]]]].
  - intros a Ha Hu. apply in_map_iff in Ha. destruct Ha as (b & Hb & _).
    destruct ((Alert.user_id b =? User.id current_user)
              && Bool.eqb (Alert.is_read b) false) eqn:E.
    + now subst a.
    + subst b. apply Z.eqb_eq in Hu. rewrite Hu in E. simpl in E.
      now destruct (Alert.is_read a).
  - intros a Ha Hc. apply in_map_iff. exists a. split; [|exact Ha].
    destruct Hc as [Hc | Hc].
    + apply Z.eqb_neq in Hc. now rewrite Hc.
    + rewrite Hc. simpl. now rewrite andb_false_r.
  - rewrite map_map. apply map_ext. intros a.
    now destruct ((Alert.user_id a =? User.id current_user)
                  && Bool.eqb (Alert.is_read a) false).
  - f_equal. rewrite map_map. apply map_ext. intros a.
    apply mark_read_twice.
Qed.

(** ** Saved regions: creation *)

(** X24: the handler that saves a region refuses, with the 400 error and
    without storing anything, a request whose [user_id] is not the
    requester's; otherwise it appends the region under a key no stored
    region has, owned by the requester, with the attributes of the request,
    and leaves the other tables untouched. *)
Theorem endpoint_create_saved_region_spec (db : Session)
  (region_in : SavedRegionBase.t) (current_user : User.t) (now : datetime) :
  (SavedRegionBase.user_id region_in <> User.id current_user ->
   exists e,
     endpoint_create_saved_region db region_in current_user now
     = (Err e, db)
     /\ status_code e = 400)
  /\ (SavedRegionBase.user_id region_in = User.id current_user ->
      exists region,
        endpoint_create_saved_region db region_in current_user now
        = (Ok region,
           mkSession (fire_risk_zones db) (fire_incidents db)
                     (saved_regions db ++ [region]) (alerts db))
        /\ ~ In (SavedRegion.id region)
                (map SavedRegion.id (saved_regions db))
        /\ SavedRegion.user_id region = User.id current_user
        /\ SavedRegion.region_name region
           = SavedRegionBase.region_name region_in
        /\ SavedRegion.latitude region = SavedRegionBase.latitude region_in
        /\ SavedRegion.longitude region
           = SavedRegionBase.longitude region_in
        /\ SavedRegion.alert_threshold region
           = SavedRegionBase.alert_threshold region_in
        /\ SavedRegion.created_at region = now).
Proof.
  unfold endpoint_create_saved_region. split.
  - intros H. apply Z.eqb_neq in H. rewrite H. simpl.
    eexists. split; reflexivity.
  - intros H. rewrite H, Z.eqb_refl. simpl.
    eexists. split; [reflexivity|]. simpl.
    split; [apply next_id_fresh|]. repeat split. exact H.
Qed.

(** ** What a served request can do *)

Lemma validate_risk_level_Ok_inv (v w : Q) :
  validate_risk_level v = Ok w -> (0 <= v)%Q /\ (v <= 1)%Q.
Proof.
  unfold validate_risk_level.
  destruct (Qltb v 0) eqn:E0; [discriminate|].
  destruct (Qltb 1 v) eqn:E1; [discriminate|].
  intros _. split; now apply Qltb_false.
Qed.

Lemma validate_risk_category_Ok_inv (v w : string) :
  validate_risk_category v = Ok w -> In v valid_categories.
Proof.
  unfold validate_risk_category.
  destruct (str_in v valid_categories) eqn:E; [|discriminate].
  intros _. now apply str_in_iff.
Qed.

Lemma error_of_nil {A : Type} (r : result string A) :
  error_of r = [] -> exists v, r = Ok v.
Proof. destruct r as [v|e]; [eauto | discriminate]. Qed.

Lemma FireRiskZoneCreate_Ok_valid (attrs v : FireRiskZoneBase.t) :
  FireRiskZoneCreate attrs = Ok v ->
  (0 <= FireRiskZoneBase.risk_level attrs)%Q
  /\ (FireRiskZoneBase.risk_level attrs <= 1)%Q
  /\ In (FireRiskZoneBase.risk_category attrs) valid_categories.
Proof.
  unfold FireRiskZoneCreate.
  destruct (error_of _ ++ error_of _) as [|e l] eqn:E; [|discriminate].
  intros _. apply app_eq_nil in E. destruct E as [E1 E2].
  apply error_of_nil in E1. apply error_of_nil in E2.
  destruct E1 as [w1 E1], E2 as [w2 E2].
  apply validate_risk_level_Ok_inv in E1.
  apply validate_risk_category_Ok_inv in E2. tauto.
Qed.

Lemma FireRiskZoneUpdate_Ok_inv (update_data v : list zone_assignment) :
  FireRiskZoneUpdate update_data = Ok v ->
  v = update_data
  /\ Forall (fun f => validate_zone_assignment f = []) update_data.
Proof.
  unfold FireRiskZoneUpdate.
  destruct (flat_map validate_zone_assignment update_data) as [|e l] eqn:E;
    [|discriminate].
  intros H. injection H as <-. split; [reflexivity|].
  induction update_data as [|f fs IH]; [constructor|].
  simpl in E. apply app_eq_nil in E. destruct E as [E1 E2].
  constructor; [exact E1 | now apply IH].
Qed.

Lemma setattr_valid (z : FireRiskZone.t) (f : zone_assignment) :
  validate_zone_assignment f = [] -> zone_valid z -> zone_valid (setattr z f).
Proof.
  intros Hf (H0 & H1 & Hc). unfold zone_valid.
  destruct z, f; simpl in *; try tauto.
  - apply error_of_nil in Hf. destruct Hf as [w Hw].
    apply validate_risk_level_Ok_inv in Hw. tauto.
  - apply error_of_nil in Hf. destruct Hf as [w Hw].
    apply validate_risk_category_Ok_inv in Hw. tauto.
Qed.

Lemma fold_setattr_valid (l : list zone_assignment) (z : FireRiskZone.t) :
  Forall (fun f => validate_zone_assignment f = []) l ->
  zone_valid z -> zone_valid (fold_left setattr l z).
Proof.
  intros Hl. revert z. induction Hl as [|f l Hf _ IH]; intros z Hz; simpl.
  - exact Hz.
  - apply IH. now apply setattr_valid.
Qed.

Lemma predict_new_zone_change (format_2f : float -> string) (db : Session)
  (latitude longitude : float) (request_region_name : option string)
  (current_user : User.t) (now : datetime) (d : Draws) :
  change current_user db
    (snd (predict_new_zone format_2f db latitude longitude
            request_region_name current_user now d)).
Proof.
  unfold predict_new_zone. cbv zeta.
  destruct (FireRiskZoneCreate _) as [v|e] eqn:Ev; [|apply change_none].
  pose proof (FireRiskZoneCreate_Ok_valid _ _ Ev) as Hvalid.
  apply FireRiskZoneCreate_Ok_inv in Ev. subst v.
  destruct (should_alert _ _); simpl.
  - apply change_add_zone; [reflexivity | exact Hvalid |].
    right. eexists. repeat split.
  - match goal with
    | |- change _ _ (mkSession (_ ++ [?z]) _ _ _) =>
        pose proof (change_add_zone current_user db z [] eq_refl Hvalid
                      (or_introl eq_refl)) as H
    end.
    now rewrite app_nil_r in H.
Qed.

Lemma update_incident_reference (db : Session)
  (incident_in : FireIncidentUpdate.t) (incident : FireIncident.t) :
  match update_risk_zone_id incident_in with
  | Some k =>
      if negb (opt_Z_eqb (FireIncident.risk_zone_id incident) k)
      then match get_fire_risk_zone db k with
           | None => Some k
           | Some _ => None
           end
      else None
  | None => None
  end = None ->
  forall j,
    FireIncident.risk_zone_id (apply_incident_update incident_in incident)
    = Some j ->
    FireIncident.risk_zone_id incident = Some j
    \/ In j (map FireRiskZone.id (fire_risk_zones db)).
Proof.
  intros Hcheck j Hj. simpl in Hj. unfold set_or_keep in Hj.
  unfold update_risk_zone_id in Hcheck.
  destruct (FireIncidentUpdate.risk_zone_id incident_in) as [[k|]|].
  - injection Hj as ->.
    destruct (opt_Z_eqb (FireIncident.risk_zone_id incident) j) eqn:E.
    + left. unfold opt_Z_eqb in E.
      destruct (FireIncident.risk_zone_id incident) as [i|];
        [|discriminate].
      apply Z.eqb_eq in E. now subst.
    + simpl in Hcheck.
      destruct (get_fire_risk_zone db j) as [z|] eqn:Ez; [|discriminate].
      right. destruct (get_fire_risk_zone_Some _ _ _ Ez) as [Hz <-].
      now apply in_map.
  - discriminate.
  - now left.
Qed.

(** Every served request is one of the changes. *)
Lemma serve_change (format_2f : float -> string) (now : datetime)
  (u : User.t) (req : request) (db : Session) :
  change u db (serve format_2f now u req db).
Proof.
  destruct req; simpl.
  - (* PredictZone *)
    unfold predict_fire_risk_zone.
    destruct (get_fire_risk_zone_by_coords _ _ _ _) as [w|].
    + destruct (_ <? _); [apply change_none|].
      apply predict_new_zone_change.
    + apply predict_new_zone_change.
  - (* CreateZone *)
    destruct (FireRiskZoneCreate attrs) as [v|e] eqn:Ev; [|apply change_none].
    pose proof (FireRiskZoneCreate_Ok_valid _ _ Ev) as Hvalid.
    apply FireRiskZoneCreate_Ok_inv in Ev. subst v.
    unfold endpoint_create_fire_risk_zone, get_current_active_superuser.
    destruct (User.is_superuser u); simpl; [|apply change_none].
    match goal with
    | |- change _ _ (mkSession (_ ++ [?z]) _ _ _) =>
        pose proof (change_add_zone u db z [] eq_refl Hvalid
                      (or_introl eq_refl)) as H
    end.
    now rewrite app_nil_r in H.
  - (* UpdateZone *)
    destruct (FireRiskZoneUpdate update_data) as [v|e] eqn:Ev;
      [|apply change_none].
    apply FireRiskZoneUpdate_Ok_inv in Ev. destruct Ev as [-> Hok].
    unfold endpoint_update_fire_risk_zone, get_current_active_superuser.
    destruct (User.is_superuser u) eqn:Hsu; simpl; [|apply change_none].
    destruct (get_fire_risk_zone db zone_id) as [z|] eqn:Hz;
      [|apply change_none].
    unfold update_fire_risk_zone. rewrite Hz. simpl.
    destruct (get_fire_risk_zone_Some _ _ _ Hz) as [Hin _].
    apply (change_update_zone u db (FireRiskZone.id z) z); auto.
    + apply fold_setattr_id.
    + now apply fold_setattr_valid.
  - (* DeleteZone *)
    unfold endpoint_delete_fire_risk_zone, get_current_active_superuser.
    destruct (User.is_superuser u) eqn:Hsu; simpl; [|apply change_none].
    destruct (get_fire_risk_zone db zone_id) as [z|] eqn:Hz;
      [|apply change_none].
    unfold delete_fire_risk_zone. rewrite Hz. simpl.
    now apply change_delete_zone.
  - (* CreateIncident *)
    destruct (FireIncidentCreate attrs) as [v|e] eqn:Ev; [|apply change_none].
    unfold endpoint_create_fire_incident, get_current_active_superuser.
    destruct (User.is_superuser u) eqn:Hsu; simpl; [|apply change_none].
    destruct (get_fire_risk_zone db (FireIncidentBase.risk_zone_id v))
      as [z|] eqn:Hz; [|apply change_none].
    simpl. destruct (get_fire_risk_zone_Some _ _ _ Hz) as [Hin Hid].
    apply (change_add_incident u db _ (FireIncidentBase.risk_zone_id v));
      auto.
    rewrite <- Hid. now apply in_map.
  - (* UpdateIncident *)
    destruct (FireIncidentUpdate_new attrs) as [v|e] eqn:Ev;
      [|apply change_none].
    unfold endpoint_update_fire_incident, get_current_active_superuser.
    destruct (User.is_superuser u) eqn:Hsu; simpl; [|apply change_none].
    destruct (get_fire_incident db incident_id) as [i|] eqn:Hi;
      [|apply change_none].
    match goal with
    | |- context [match ?m with Some k => _ | None => _ end] =>
        destruct m as [k|] eqn:Hm
    end; [apply change_none|].
    simpl. unfold store_incident.
    destruct (get_fire_incident_Some _ _ _ Hi) as [Hin _].
    apply (change_update_incident u db (FireIncident.id i) i); auto.
    now apply update_incident_reference.
  - (* DeleteIncident *)
    unfold endpoint_delete_fire_incident, get_current_active_superuser.
    destruct (User.is_superuser u) eqn:Hsu; simpl; [|apply change_none].
    destruct (get_fire_incident db incident_id) as [i|] eqn:Hi;
      [|apply change_none].
    simpl. now apply change_delete_incident.
  - (* CreateSavedRegion *)
    destruct (SavedRegionCreate attrs) as [v|e] eqn:Ev; [|apply change_none].
    unfold endpoint_create_saved_region.
    destruct (SavedRegionBase.user_id v =? User.id u) eqn:E; simpl;
      [|apply change_none].
    apply change_add_region; [reflexivity|]. now apply Z.eqb_eq.
  - (* DeleteSavedRegion *)
    unfold endpoint_delete_saved_region.
    destruct (get_saved_region db region_id) as [r|] eqn:Hr;
      [|apply change_none].
    destruct (negb (SavedRegion.user_id r =? User.id u)
              && negb (User.is_superuser u)) eqn:E; [apply change_none|].
    unfold delete_saved_region. rewrite Hr. simpl.
    destruct (get_saved_region_Some _ _ _ Hr) as [Hin _].
    apply (change_delete_region u db (SavedRegion.id r) r); auto.
    apply andb_false_iff in E. destruct E as [E | E].
    + left. apply negb_false_iff in E. now apply Z.eqb_eq.
    + right. now apply negb_false_iff in E.
  - (* UpdateAlert *)
    unfold update_alert.
    destruct (get_alert db alert_id u) as [a|] eqn:Ha; [|apply change_none].
    simpl. destruct (get_alert_Some _ _ _ _ Ha) as (Hin & _ & Hu).
    apply (change_update_alert u db (Alert.id a) a); auto.
  - (* DeleteAlert *)
    unfold delete_alert.
    destruct (get_alert db alert_id u) as [a|] eqn:Ha; [|apply change_none].
    simpl. destruct (get_alert_Some _ _ _ _ Ha) as (Hin & _ & Hu).
    apply (change_delete_alert u db (Alert.id a) a); auto.
  - (* MarkAllAlertsRead *)
    apply change_mark_read.
Qed.

(** ** Invariants of the served requests *)

Lemma change_keys_unique (u : User.t) (db db' : Session) :
  change u db db' -> keys_unique db -> keys_unique db'.
Proof.
  intros Hc (Hz & Hi & Hr & Ha).
  destruct Hc; unfold keys_unique;
    cbn [fire_risk_zones fire_incidents saved_regions alerts].
  - tauto.
  - repeat split; try assumption.
    + apply NoDup_map_snoc; [exact Hz|].
      rewrite H. apply next_id_fresh.
    + destruct H1 as [-> | (a & -> & Hid & _)].
      * now rewrite app_nil_r.
      * apply NoDup_map_snoc; [exact Ha|].
        rewrite Hid. apply next_id_fresh.
  - repeat split; try assumption.
    rewrite map_key_preserved; [exact Hz|].
    intros x. destruct (FireRiskZone.id x =? k) eqn:E; [|reflexivity].
    apply Z.eqb_eq in E. congruence.
  - repeat split; try assumption.
    + now apply NoDup_map_filter.
    + rewrite map_key_preserved; [exact Hi | apply orphan_incident_id].
    + rewrite map_key_preserved; [exact Ha|].
      intros a. unfold orphan_alert.
      now destruct (opt_Z_eqb (Alert.risk_zone_id a) k).
  - repeat split; try assumption.
    apply NoDup_map_snoc; [exact Hi|]. rewrite H0. apply next_id_fresh.
  - repeat split; try assumption.
    rewrite map_key_preserved; [exact Hi|].
    intros x. destruct (FireIncident.id x =? k) eqn:E; [|reflexivity].
    apply Z.eqb_eq in E. congruence.
  - repeat split; try assumption. now apply NoDup_map_filter.
  - repeat split; try assumption.
    apply NoDup_map_snoc; [exact Hr|]. rewrite H. apply next_id_fresh.
  - repeat split; try assumption. now apply NoDup_map_filter.
  - repeat split; try assumption.
    rewrite map_key_preserved; [exact Ha|].
    intros x. destruct (Alert.id x =? k) eqn:E; [|reflexivity].
    apply Z.eqb_eq in E. congruence.
  - repeat split; try assumption. now apply NoDup_map_filter.
  - repeat split; try assumption.
    rewrite map_key_preserved; [exact Ha|].
    intros a. now destruct ((Alert.user_id a =? User.id u)
                            && Bool.eqb (Alert.is_read a) false).
Qed.

(** X25: primary keys stay distinct: when the keys of each of the four
    tables are distinct, they are distinct again after any sequence of
    served requests, by any users, at any clock readings. *)
Theorem serve_all_keys_unique (format_2f : float -> string)
  (log : list (datetime * User.t * request)) (db : Session) :
  keys_unique db -> keys_unique (serve_all format_2f log db).
Proof.
  revert db. induction log as [|[[now u] req] rest IH]; intros db H; simpl.
  - exact H.
  - apply IH. eapply change_keys_unique; [apply serve_change | exact H].
Qed.



Lemma in_filter_neg_key {A : Type} (key : A -> Z) (k j : Z) (l : list A) :
  In j (map key l) -> j <> k ->
  In j (map key (filter (fun x => negb (key x =? k)) l)).
Proof.
  intros Hj Hne. apply in_map_iff in Hj. destruct Hj as (x & <- & Hx).
  apply in_map_iff. exists x. split; [reflexivity|].
  apply filter_In. split; [exact Hx|].
  apply negb_true_iff. now apply Z.eqb_neq.
Qed.

Lemma change_references_valid (u : User.t) (db db' : Session) :
  change u db db' -> references_valid db -> references_valid db'.
Proof.
  intros Hc [Hi Ha].
  destruct Hc; unfold references_valid;
    cbn [fire_risk_zones fire_incidents saved_regions alerts].
  - tauto.
  - split.
    + intros i k Hin Hk. rewrite map_app. apply in_or_app. left. eauto.
    + intros a k Hin Hk. rewrite map_app. apply in_or_app.
      apply in_app_or in Hin. destruct Hin as [Hin | Hin]; [left; eauto|].
      right. destruct H1 as [-> | (b & -> & _ & _ & Hb & _)];
        [destruct Hin|].
      destruct Hin as [<- | []]. simpl. left. congruence.
  - assert (E : map FireRiskZone.id
                  (map (fun x => if FireRiskZone.id x =? k then z' else x)
                       (fire_risk_zones db))
                = map FireRiskZone.id (fire_risk_zones db)).
    { apply map_key_preserved. intros x.
      destruct (FireRiskZone.id x =? k) eqn:E; [|reflexivity].
      apply Z.eqb_eq in E. congruence. }
    rewrite E. tauto.
  - split.
    + intros i j Hin Hj. apply in_map_iff in Hin.
      destruct Hin as (i0 & <- & Hin).
      destruct (orphan_incident_ref k i0) as (Hne & _ & [Hn | He]).
      * congruence.
      * apply in_filter_neg_key; [|congruence].
        apply (Hi i0); congruence.
    + intros a j Hin Hj. apply in_map_iff in Hin.
      destruct Hin as (a0 & <- & Hin).
      destruct (orphan_alert_ref k a0) as (Hne & _ & [Hn | He]).
      * congruence.
      * apply in_filter_neg_key; [|congruence].
        apply (Ha a0); congruence.
  - split; [|exact Ha].
    intros x j Hin Hj. apply in_app_or in Hin. destruct Hin as [Hin | Hin].
    + eauto.
    + destruct Hin as [<- | []]. congruence.
  - split; [|exact Ha].
    intros x j Hin Hj. apply in_map_iff in Hin.
    destruct Hin as (y & Hy & Hin).
    destruct (FireIncident.id y =? k).
    + subst x. destruct (H3 j Hj) as [Hold | Hnew]; [eauto | exact Hnew].
    + subst x. eauto.
  - split; [|exact Ha].
    intros x j Hin Hj. apply filter_In in Hin. destruct Hin as [Hin _]. eauto.
  - tauto.
  - tauto.
  - split; [exact Hi|].
    intros x j Hin Hj. apply in_map_iff in Hin.
    destruct Hin as (y & Hy & Hin).
    destruct (Alert.id y =? k).
    + subst x. apply (Ha a); congruence.
    + subst x. eauto.
  - split; [exact Hi|].
    intros x j Hin Hj. apply filter_In in Hin. destruct Hin as [Hin _]. eauto.
  - split; [exact Hi|].
    intros x j Hin Hj. apply in_map_iff in Hin.
    destruct Hin as (y & Hy & Hin).
    destruct ((Alert.user_id y =? User.id u)
              && Bool.eqb (Alert.is_read y) false).
    + subst x. simpl in Hj. eauto.
    + subst x. eauto.
Qed.

(** X27: no dangling reference arises: when every incident and every alert
    that designates a zone designates a stored one, this is so again after
    any sequence of served requests. Creating or updating an incident is
    refused unless its zone is stored, and deleting a zone leaves the
    incidents and alerts that designated it without a zone. *)
Theorem serve_all_references_valid (format_2f : float -> string)
  (log : list (datetime * User.t * request)) (db : Session) :
  references_valid db -> references_valid (serve_all format_2f log db).
Proof.
  revert db. induction log as [|[[now u] req] rest IH]; intros db H; simpl.
  - exact H.
  - apply IH. eapply change_references_valid; [apply serve_change | exact H].
Qed.

(** ** What other users cannot do *)

Lemma map_filter_stable {A B : Type} (p : A -> bool) (c : A -> B)
  (g : A -> A) (l : list A) :
  (forall x, In x l -> p (g x) = p x) ->
  (forall x, In x l -> p x = true -> c (g x) = c x) ->
  map c (filter p (map g l)) = map c (filter p l).
Proof.
  induction l as [|x l IH]; intros Hp Hc; simpl; [reflexivity|].
  rewrite (Hp x (or_introl eq_refl)).
  destruct (p x) eqn:E; simpl.
  - rewrite (Hc x (or_introl eq_refl) E). f_equal.
    apply IH; intros y Hy; [apply Hp | apply Hc]; now right.
  - apply IH; intros y Hy; [apply Hp | apply Hc]; now right.
Qed.

Lemma filter_filter_keep {A : Type} (p q : A -> bool) (l : list A) :
  (forall x, In x l -> p x = true -> q x = true) ->
  filter p (filter q l) = filter p l.
Proof.
  intros H. rewrite filter_andb. apply filter_ext_in.
  intros x Hx. destruct (p x) eqn:E.
  - now rewrite (H x Hx E).
  - apply andb_false_r.
Qed.

Lemma change_regions_of_other (u : User.t) (v : Z) (db db' : Session) :
  change u db db' ->
  User.is_superuser u = false -> User.id u <> v ->
  NoDup (map SavedRegion.id (saved_regions db)) ->
  filter (fun r => SavedRegion.user_id r =? v) (saved_regions db')
  = filter (fun r => SavedRegion.user_id r =? v) (saved_regions db).
Proof.
  intros Hc Hsu Hv Hnd.
  destruct Hc; cbn [fire_risk_zones fire_incidents saved_regions alerts];
    try reflexivity.
  - rewrite filter_app. simpl.
    assert (E : (SavedRegion.user_id r =? v) = false)
      by (apply Z.eqb_neq; congruence).
    rewrite E. apply app_nil_r.
  - apply filter_filter_keep. intros x Hx Hxv.
    apply negb_true_iff, Z.eqb_neq. intros Hk.
    apply Z.eqb_eq in Hxv.
    assert (x = r).
    { apply (NoDup_key_inj SavedRegion.id (saved_regions db)); congruence. }
    subst x. destruct H1 as [Ho | Hs]; congruence.
Qed.

(** X28: a user's saved regions are safe from other users who are not
    superusers: with distinct keys at the start, after any sequence of
    requests served for requesters who are not superusers and are not the
    user, the user's saved regions are exactly, and in the same order, what
    they were. *)
Theorem serve_all_regions_of_other (format_2f : float -> string)
  (log : list (datetime * User.t * request)) (db : Session) (v : Z) :
  keys_unique db ->
  Forall (fun e => User.is_superuser (snd (fst e)) = false
                   /\ User.id (snd (fst e)) <> v) log ->
  filter (fun r => SavedRegion.user_id r =? v)
         (saved_regions (serve_all format_2f log db))
  = filter (fun r => SavedRegion.user_id r =? v) (saved_regions db).
Proof.
  intros Hk Hlog. revert db Hk.
  induction Hlog as [|[[now u] req] rest [Hsu Hv] _ IH]; intros db Hk; simpl.
  - reflexivity.
  - simpl in Hsu, Hv.
    pose proof (serve_change format_2f now u req db) as Hc.
    rewrite IH by (eapply change_keys_unique; eassumption).
    eapply change_regions_of_other; try eassumption. apply Hk.
Qed.

Lemma change_alerts_of_other (u : User.t) (v : Z) (db db' : Session) :
  change u db db' ->
  User.id u <> v ->
  NoDup (map Alert.id (alerts db)) ->
  map alert_content (filter (fun a => Alert.user_id a =? v) (alerts db'))
  = map alert_content (filter (fun a => Alert.user_id a =? v) (alerts db)).
Proof.
  intros Hc Hv Hnd.
  assert (Hown : forall a x k,
            In a (alerts db) -> Alert.id a = k ->
            Alert.user_id a = User.id u ->
            In x (alerts db) -> (Alert.user_id x =? v) = true ->
            Alert.id x <> k).
  { intros a x k Ha Hak Hau Hx Hxv Hxk. apply Z.eqb_eq in Hxv.
    assert (x = a).
    { apply (NoDup_key_inj Alert.id (alerts db)); congruence. }
    congruence. }
  destruct Hc; cbn [fire_risk_zones fire_incidents saved_regions alerts];
    try reflexivity.
  - destruct H1 as [-> | (a & -> & _ & Hu & _)].
    + now rewrite app_nil_r.
    + rewrite filter_app. simpl.
      assert (E : (Alert.user_id a =? v) = false)
        by (apply Z.eqb_neq; congruence).
      rewrite E. now rewrite app_nil_r.
  - apply map_filter_stable; intros a _.
    + unfold orphan_alert.
      now destruct (opt_Z_eqb (Alert.risk_zone_id a) k).
    + intros _. unfold orphan_alert.
      now destruct (opt_Z_eqb (Alert.risk_zone_id a) k).
  - apply map_filter_stable.
    + intros x Hx. destruct (Alert.id x =? k) eqn:E; [|reflexivity].
      apply Z.eqb_eq in E.
      assert (x = a).
      { apply (NoDup_key_inj Alert.id (alerts db)); congruence. }
      subst x. rewrite H3, H1. reflexivity.
    + intros x Hx Hxv.
      assert (E : (Alert.id x =? k) = false)
        by (apply Z.eqb_neq; apply (Hown a x k); assumption).
      now rewrite E.
  - f_equal. apply filter_filter_keep. intros x Hx Hxv.
    apply negb_true_iff, Z.eqb_neq. apply (Hown a x k); assumption.
  - apply map_filter_stable.
    + intros x _. now destruct ((Alert.user_id x =? User.id u)
                                && Bool.eqb (Alert.is_read x) false).
    + intros x _ Hxv. apply Z.eqb_eq in Hxv.
      assert (E : (Alert.user_id x =? User.id u) = false)
        by (apply Z.eqb_neq; congruence).
      now rewrite E.
Qed.

(** X29: a user's alerts are safe from every other user, superusers
    included: with distinct keys at the start, after any sequence of
    requests served for requesters other than the user, the user has the
    same alerts in the same order, each with the key, time, risk level,
    message and the three flags it had. *)
Theorem serve_all_alerts_of_other (format_2f : float -> string)
  (log : list (datetime * User.t * request)) (db : Session) (v : Z) :
  keys_unique db ->
  Forall (fun e => User.id (snd (fst e)) <> v) log ->
  map alert_content
      (filter (fun a => Alert.user_id a =? v)
              (alerts (serve_all format_2f log db)))
  = map alert_content (filter (fun a => Alert.user_id a =? v) (alerts db)).
Proof.
  intros Hk Hlog. revert db Hk.
  induction Hlog as [|[[now u] req] rest Hv _ IH]; intros db Hk; simpl.
  - reflexivity.
  - simpl in Hv.
    pose proof (serve_change format_2f now u req db) as Hc.
    rewrite IH by (eapply change_keys_unique; eassumption).
    eapply change_alerts_of_other; try eassumption. apply Hk.
Qed.

Lemma change_by_plain_user (u : User.t) (db db' : Session) :
  change u db db' -> User.is_superuser u = false ->
  fire_incidents db' = fire_incidents db
  /\ exists new, fire_risk_zones db' = fire_risk_zones db ++ new.
Proof.
  intros Hc Hsu.
  destruct Hc; cbn [fire_risk_zones fire_incidents saved_regions alerts];
    try congruence;
    try (split; [reflexivity | exists []; now rewrite app_nil_r]).
  split; [reflexivity | now exists [z]].
Qed.

(** X30: requesters who are not superusers cannot alter or remove what is
    stored about zones and incidents: after any sequence of requests served
    for such requesters the incident table is what it was and the zone
    table is the old one followed by the zones their predictions added. *)
Theorem serve_all_by_plain_users (format_2f : float -> string)
  (log : list (datetime * User.t * request)) (db : Session) :
  Forall (fun e => User.is_superuser (snd (fst e)) = false) log ->
  fire_incidents (serve_all format_2f log db) = fire_incidents db
  /\ exists new,
       fire_risk_zones (serve_all format_2f log db)
       = fire_risk_zones db ++ new.
Proof.
  intros Hlog. revert db.
  induction Hlog as [|[[now u] req] rest Hsu _ IH]; intros db; simpl.
  - split; [reflexivity | exists []; now rewrite app_nil_r].
  - simpl in Hsu.
    destruct (change_by_plain_user u db _
                (serve_change format_2f now u req db) Hsu)
      as (Ei & new1 & Ez).
    destruct (IH (serve format_2f now u req db)) as (Ei' & new2 & Ez').
    split; [congruence|].
    exists (new1 ++ new2). rewrite Ez', Ez. now rewrite app_assoc.
Qed.

(** ** The further theorems at work on the sample data *)

Ltac distinct_keys :=
  repeat (constructor; [simpl; intuition discriminate|]); constructor.



Lemma get_fire_risk_zone_by_coords_widen_witness :
  exists z',
    get_fire_risk_zone_by_coords sample_db (3405 # 100) (-11825 # 100)
      (1 # 10) = Some z'
    /\ FireRiskZone.timestamp zone_oak <= FireRiskZone.timestamp z'.
Proof.
  apply (get_fire_risk_zone_by_coords_widen sample_db (3405 # 100)
           (-11825 # 100) (1 # 100) (1 # 10) zone_oak).
  - discriminate.
  - reflexivity.
Defined.

Lemma create_fire_risk_zone_then_find_witness :
  get_fire_risk_zone_by_coords
    (snd (create_fire_risk_zone sample_db (sample_attrs (85 # 100) "High")
            7000000000))
    (35 # 1) (-119 # 1) (1 # 100)
  = Some (fst (create_fire_risk_zone sample_db
                 (sample_attrs (85 # 100) "High") 7000000000)).
Proof.
  apply (create_fire_risk_zone_then_find sample_db
           (sample_attrs (85 # 100) "High") 7000000000 (1 # 100)).
  - intros z [<- | [<- | [<- | []]]]; reflexivity.
  - discriminate.
Defined.

Lemma listing_pages_tile_witness :
  get_fire_risk_zones sqlite_ilike sample_db 1 1 None None None None
  ++ get_fire_risk_zones sqlite_ilike sample_db (1 + 1) 1 None None None None
  = get_fire_risk_zones sqlite_ilike sample_db 1 (1 + 1) None None None None
  /\ get_fire_incidents sqlite_ilike sample_db 1 1 None None None None None
     ++ get_fire_incidents sqlite_ilike sample_db (1 + 1) 1 None None None
          None None
     = get_fire_incidents sqlite_ilike sample_db 1 (1 + 1) None None None
         None None
  /\ get_saved_regions_by_user sample_db 1 1 1
     ++ get_saved_regions_by_user sample_db 1 (1 + 1) 1
     = get_saved_regions_by_user sample_db 1 1 (1 + 1)
  /\ read_alerts linked_db 1 1 None alice
     ++ read_alerts linked_db (1 + 1) 1 None alice
     = read_alerts linked_db 1 (1 + 1) None alice.
Proof.
  destruct (listing_pages_tile sqlite_ilike sample_db 1 1 1 None None None
              None None None None None 1 None alice) as (H1 & H2 & H3 & _);
    try discriminate.
  destruct (listing_pages_tile sqlite_ilike linked_db 1 1 1 None None None
              None None None None None 1 None alice) as (_ & _ & _ & H4);
    try discriminate.
  repeat split; assumption.
Defined.

Lemma get_fire_risk_zones_empty_range_witness :
  get_fire_risk_zones sqlite_ilike sample_db 0 100 (Some (8 # 10)%Q)
    (Some (2 # 10)%Q) None None = [].
Proof.
  apply get_fire_risk_zones_empty_range. reflexivity.
Defined.


Lemma predict_fire_risk_zone_twice_witness :
  exists w,
    predict_fire_risk_zone format_2f_exact
      (snd (predict_fire_risk_zone format_2f_exact sample_db (35 # 1)
              (-119 # 1) None alice 6000000000 sample_draws))
      (35 # 1) (-119 # 1) (Some "Elsewhere"%string) bob 6000000500
      sample_draws
    = (Ok w,
       snd (predict_fire_risk_zone format_2f_exact sample_db (35 # 1)
              (-119 # 1) None alice 6000000000 sample_draws))
    /\ FireRiskZone.timestamp predicted_zone <= FireRiskZone.timestamp w.
Proof.
  apply (predict_fire_risk_zone_twice format_2f_exact sample_db _ (35 # 1)
           (-119 # 1) None (Some "Elsewhere"%string) alice bob 6000000000
           6000000500 sample_draws sample_draws predicted_zone).
  - reflexivity.
  - reflexivity.
Defined.

Lemma predict_fire_spread_wind_witness :
  exists r,
    predict_fire_spread flat_radians flat_cos flat_sin micro_isoformat
      spread_db (FireSpreadRequest.mk 8 4) 1000 (90 # 1)%Q no_jitter = Ok r
    /\ max_spread_distance_km r
       = ((1 # 10) * ((1 # 2) * 2) * inject_Z 4)%Q.
Proof.
  destruct (predict_fire_spread_wind flat_radians flat_cos flat_sin
              micro_isoformat spread_db (FireSpreadRequest.mk 8 4) 1000
              (90 # 1)%Q no_jitter calm_zone eq_refl)
    as (r & H1 & _ & H0 & _).
  exists r. split; [exact H1|].
  apply (H0 0%Q eq_refl). reflexivity.
Defined.

Lemma endpoint_create_fire_incident_spec_witness :
  endpoint_create_fire_incident linked_db (sample_incident_in 9) root
  = (Err (zone_not_found 9), linked_db)
  /\ exists incident,
       endpoint_create_fire_incident linked_db (sample_incident_in 3) root
       = (Ok incident,
          mkSession (fire_risk_zones linked_db)
                    (fire_incidents linked_db ++ [incident])
                    (saved_regions linked_db) (alerts linked_db))
       /\ FireIncident.risk_zone_id incident = Some 3.
Proof.
  split.
  - apply (proj1 (endpoint_create_fire_incident_spec linked_db
                    (sample_incident_in 9) root eq_refl)).
    reflexivity.
  - destruct (proj2 (endpoint_create_fire_incident_spec linked_db
                       (sample_incident_in 3) root eq_refl)
                zone_cedar eq_refl)
      as (incident & H1 & _ & H3 & _).
    exists incident. split; assumption.
Defined.

Lemma endpoint_update_fire_incident_spec_witness :
  endpoint_update_fire_incident linked_db 1 (move_incident 9) root
  = (Err (zone_not_found 9), linked_db)
  /\ exists updated db',
       endpoint_update_fire_incident linked_db 1 contain_incident root
       = (Ok updated, db')
       /\ get_fire_incident db' 1 = Some updated
       /\ FireIncident.status updated = "Contained"%string
       /\ FireIncident.severity updated = "High"%string.
Proof.
  split.
  - apply (proj1 (proj2 (endpoint_update_fire_incident_spec linked_db 1
                           (move_incident 9) root eq_refl)
                    incident_a eq_refl) 9).
    + reflexivity.
    + discriminate.
    + reflexivity.
  - destruct (proj2 (proj2 (endpoint_update_fire_incident_spec linked_db 1
                              contain_incident root eq_refl)
                       incident_a eq_refl))
      as (updated & db' & H1 & H2 & _ & H4 & _).
    + intros k H. discriminate H.
    + exists updated, db'. split; [exact H1|]. split; [exact H4|].
      rewrite H2. split; reflexivity.
Defined.

Lemma endpoint_delete_fire_incident_spec_witness :
  (exists e,
      endpoint_delete_fire_incident linked_db 2 root = (Err e, linked_db)
      /\ status_code e = 404)
  /\ exists m db',
       endpoint_delete_fire_incident linked_db 3 root = (Ok m, db')
       /\ map FireIncident.id (fire_incidents db') = [1].
Proof.
  split.
  - apply (proj1 (endpoint_delete_fire_incident_spec linked_db 2 root
                    eq_refl)).
    reflexivity.
  - destruct (proj2 (endpoint_delete_fire_incident_spec linked_db 3 root
                       eq_refl) incident_c eq_refl)
      as (m & db' & H1 & _).
    exists m, db'. split; [exact H1|].
    injection H1 as _ <-. reflexivity.
Defined.

Lemma superuser_handlers_refuse_witness :
  exists e,
    status_code e = 403
    /\ endpoint_create_fire_risk_zone linked_db
         (sample_attrs (85 # 100) "High") bob 7000 = (Err e, linked_db)
    /\ endpoint_update_fire_risk_zone linked_db 1
         [set_risk_level (1 # 10)%Q] bob = (Err e, linked_db)
    /\ endpoint_delete_fire_risk_zone linked_db 1 bob = (Err e, linked_db)
    /\ endpoint_create_fire_incident linked_db (sample_incident_in 1) bob
       = (Err e, linked_db)
    /\ endpoint_update_fire_incident linked_db 1 contain_incident bob
       = (Err e, linked_db)
    /\ endpoint_delete_fire_incident linked_db 1 bob = (Err e, linked_db).
Proof.
  apply (superuser_handlers_refuse linked_db bob 7000 1). reflexivity.
Defined.

Lemma alert_handlers_not_owned_witness :
  read_alert linked_db 1 bob = Err alert_not_found
  /\ update_alert linked_db 1 read_it bob = (Err alert_not_found, linked_db)
  /\ delete_alert linked_db 1 bob = (Err alert_not_found, linked_db)
  /\ status_code alert_not_found = 404.
Proof.
  apply alert_handlers_not_owned.
  intros a [<- | [<- | []]] H; simpl in *; discriminate.
Defined.

Lemma update_alert_owned_witness :
  exists updated db',
    update_alert linked_db 1 read_it alice = (Ok updated, db')
    /\ Alert.is_read updated = true
    /\ Alert.is_sent_email updated = false
    /\ read_alert db' 1 alice = Ok updated.
Proof.
  destruct (update_alert_owned linked_db 1 read_it alice alert_a eq_refl)
    as (updated & db' & H1 & _ & _ & _ & _ & _ & _ & Hr & _ & _ & He & _
        & _ & Hread & _).
  exists updated, db'. split; [exact H1|].
  split; [apply Hr; reflexivity|].
  split; [rewrite (He eq_refl); reflexivity | exact Hread].
Defined.

Lemma delete_alert_owned_witness :
  exists m db',
    delete_alert linked_db 2 bob = (Ok m, db')
    /\ read_alert db' 2 bob = Err alert_not_found
    /\ In alert_a (alerts db').
Proof.
  destruct (delete_alert_owned linked_db 2 bob alert_b eq_refl)
    as (m & db' & H1 & H2 & H3 & _).
  exists m, db'. split; [exact H1|]. split; [exact H2|].
  apply H3. split; [simpl; tauto | discriminate].
Defined.

Lemma serve_all_keys_unique_witness :
  keys_unique (serve_all format_2f_exact mixed_log linked_db).
Proof.
  apply serve_all_keys_unique. unfold keys_unique. simpl.
  repeat split; distinct_keys.
Defined.


Lemma serve_all_references_valid_witness :
  references_valid (serve_all format_2f_exact mixed_log linked_db).
Proof.
  apply serve_all_references_valid. split.
  - intros i k [<- | [<- | []]] H; injection H as <-; simpl; tauto.
  - intros a k [<- | [<- | []]] H; injection H as <-; simpl; tauto.
Defined.

Lemma serve_all_regions_of_other_witness :
  filter (fun r => SavedRegion.user_id r =? 1)
         (saved_regions (serve_all format_2f_exact bob_log linked_db))
  = [region_a; region_c].
Proof.
  apply (serve_all_regions_of_other format_2f_exact bob_log linked_db 1).
  - unfold keys_unique. simpl. repeat split; distinct_keys.
  - repeat (constructor; [split; [reflexivity | discriminate]|]).
    constructor.
Defined.

Lemma serve_all_alerts_of_other_witness :
  map alert_content
      (filter (fun a => Alert.user_id a =? 1)
              (alerts (serve_all format_2f_exact bob_root_log linked_db)))
  = [alert_content alert_a].
Proof.
  apply (serve_all_alerts_of_other format_2f_exact bob_root_log linked_db 1).
  - unfold keys_unique. simpl. repeat split; distinct_keys.
  - repeat (constructor; [discriminate|]). constructor.
Defined.

Lemma serve_all_by_plain_users_witness :
  fire_incidents (serve_all format_2f_exact bob_log linked_db)
  = fire_incidents linked_db
  /\ exists new,
       fire_risk_zones (serve_all format_2f_exact bob_log linked_db)
       = fire_risk_zones linked_db ++ new.
Proof.
  apply serve_all_by_plain_users.
  repeat (constructor; [reflexivity|]). constructor.
Defined.

Lemma create_fire_risk_zone_then_get_witness :
  get_fire_risk_zone
    (snd (create_fire_risk_zone sample_db (sample_attrs (85 # 100) "High")
            7000)) 4
  = Some (fst (create_fire_risk_zone sample_db
                 (sample_attrs (85 # 100) "High") 7000))
  /\ get_fire_risk_zone
       (snd (create_fire_risk_zone sample_db
               (sample_attrs (85 # 100) "High") 7000)) 2
     = Some zone_oak.
Proof.
  destruct (create_fire_risk_zone_then_get sample_db
              (sample_attrs (85 # 100) "High") 7000) as (_ & H2 & H3).
  split; [exact H2|]. apply (H3 2). discriminate.
Defined.


Lemma listing_page_bounds_witness :
  (List.length (get_fire_risk_zones sqlite_ilike sample_db 0 2 None None
                  None None) <= 2)%nat
  /\ get_saved_regions_by_user sample_db 1 3 10 = [].
Proof.
  destruct (listing_page_bounds sqlite_ilike sample_db 0 2 None None None
              None None None None None 1 None alice) as (H1 & _).
  destruct (listing_page_bounds sqlite_ilike sample_db 3 10 None None None
              None None None None None 1 None alice) as (_ & _ & H3 & _).
  split.
  - apply H1. discriminate.
  - apply H3. simpl. apply le_n.
Defined.

Lemma predict_fire_spread_points_witness :
  (exists e,
      predict_fire_spread flat_radians flat_cos flat_sin micro_isoformat
        spread_db (FireSpreadRequest.mk 99 4) 1000 (90 # 1)%Q no_jitter
      = Err e
      /\ status_code e = 404)
  /\ exists r,
       predict_fire_spread flat_radians flat_cos flat_sin micro_isoformat
         spread_db (FireSpreadRequest.mk 7 4) 1000 (90 # 1)%Q no_jitter
       = Ok r
       /\ List.length (spread_points r) = 4%nat.
Proof.
  split.
  - apply (proj1 (predict_fire_spread_points flat_radians flat_cos flat_sin
                    micro_isoformat spread_db (FireSpreadRequest.mk 99 4)
                    1000 (90 # 1)%Q no_jitter)).
    reflexivity.
  - destruct (proj2 (predict_fire_spread_points flat_radians flat_cos
                       flat_sin micro_isoformat spread_db
                       (FireSpreadRequest.mk 7 4) 1000 (90 # 1)%Q no_jitter)
                windy_zone eq_refl)
      as (r & H1 & _ & _ & _ & H5 & _).
    exists r. split; assumption.
Defined.

Lemma read_fire_incidents_dicts_witness :
  dict_area_affected (incident_dict micro_isoformat incident_no_area) = None.
Proof.
  apply (proj1 (proj2 (read_fire_incidents_dicts sqlite_ilike
                         micro_isoformat sample_db 0 100 None None None
                         None None) incident_no_area)).
  right. exists 0%Q. split; reflexivity.
Defined.

Lemma read_alerts_spec_witness :
  In alert_a (alerts linked_db)
  /\ Alert.user_id alert_a = User.id alice
  /\ forall v, Some false = Some v -> Alert.is_read alert_a = v.
Proof.
  apply (proj2 (read_alerts_spec linked_db 0 10 (Some false) alice)
               alert_a).
  simpl. left. reflexivity.
Defined.

Lemma mark_all_alerts_read_spec_witness :
  In alert_b (alerts (snd (mark_all_alerts_read linked_db alice))).
Proof.
  apply (proj1 (proj2 (mark_all_alerts_read_spec linked_db alice)) alert_b).
  - simpl. right. left. reflexivity.
  - left. discriminate.
Defined.

Lemma endpoint_create_saved_region_spec_witness :
  (exists e,
      endpoint_create_saved_region linked_db bob_region alice 7000
      = (Err e, linked_db)
      /\ status_code e = 400)
  /\ exists region,
       endpoint_create_saved_region linked_db bob_region bob 7000
       = (Ok region,
          mkSession (fire_risk_zones linked_db) (fire_incidents linked_db)
                    (saved_regions linked_db ++ [region])
                    (alerts linked_db))
       /\ SavedRegion.user_id region = User.id bob.
Proof.
  split.
  - apply (proj1 (endpoint_create_saved_region_spec linked_db bob_region
                    alice 7000)).
    discriminate.
  - destruct (proj2 (endpoint_create_saved_region_spec linked_db bob_region
                       bob 7000) eq_refl)
      as (region & H1 & _ & H3 & _).
    exists region. split; assumption.
Defined.
